(** * TaskManager: the status-driven column/task model

    A shallow embedding of the Kanban board application:
    - the client-side status model of the components BoardDetail
      ([handleCreateColumn], [allStatuses], the column rendering) and
      TaskColumn ([getStatusLabel], the column header), with the
      [useColumns] hook that feeds them (status keys derived from column
      titles, the column set that is rendered, the delete capability of a
      column);
    - the REST handlers of the boards router (the module that follows the
      API tests in [backend/src/server.test.js]), of
      [backend/src/routes/tasks.js] and of [backend/src/routes/columns.js],
      behind the express-validator chains of each route, over a relational
      store with the keys and cascade rules of [schema.prisma]
      ([onDelete: Cascade] from Task and Column to Board).

    The character-level operations of JavaScript ([toUpperCase], the
    regular expression class [\s], [trim]) are defined once, for an
    arbitrary alphabet, case mapping and white-space class, and have two
    instances.  Over Unicode code points they are JavaScript's own: the case
    mapping is the full upper-case mapping of Unicode 14.0 and the
    white-space class is that of ECMAScript.  Over Rocq strings, which
    hold the texts of the handlers and of the store, they are the
    restriction of these to ASCII text, on which a byte is a character:
    there the two instances agree, and every property that depends on a
    trimmed text, on its length or on a derived status key is stated for
    ASCII text ([Js.ascii_text]).  JSON numbers are integers that
    JavaScript prints in decimal notation (below 2^53 in magnitude). *)

From Stdlib Require Import ZArith Lia Ascii String DecimalString.
From stdpp Require Import base option list sorting gmap strings.

Local Open Scope string_scope.
Local Open Scope list_scope.
Local Open Scope Z_scope.

(** ** JavaScript string primitives *)

Module Js.

(** [String.prototype.toUpperCase] and [String.prototype.replace(/\s+/g, r)]
    over an arbitrary alphabet: [upper] is the case mapping of one character
    (a character may map to several, as in full Unicode case mapping),
    [space] is the class [\s]. *)
Section CaseMapping.
Context {A : Type}.
Variable upper : A -> list A.
Variable space : A -> bool.

Definition toUpperCase_chars (s : list A) : list A :=
  flat_map upper s.

(** [replace_space_runs r in_run s]: the global replacement of every
    maximal non-empty run of [\s] characters by the single character [r].
    [in_run] tells that the character before [s] belongs to a run that
    has been replaced already. *)
Fixpoint replace_space_runs (r : A) (in_run : bool) (s : list A) : list A :=
  match s with
  | [] => []
  | c :: s' =>
      if space c then
        if in_run then replace_space_runs r true s'
        else r :: replace_space_runs r true s'
      else c :: replace_space_runs r false s'
  end.

(** [ltrim]/[rtrim]/[trim] of validator.js with no [chars] argument:
    [str.replace(/^\s+/, '')] and [str.replace(/\s+$/, '')]. *)
Fixpoint ltrim_chars (s : list A) : list A :=
  match s with
  | [] => []
  | c :: s' => if space c then ltrim_chars s' else s
  end.

Definition rtrim_chars (s : list A) : list A :=
  rev (ltrim_chars (rev s)).

Definition trim_chars (s : list A) : list A :=
  rtrim_chars (ltrim_chars s).
End CaseMapping.

(** The instance over Rocq strings: ASCII text, one byte per character.
    On a byte outside ASCII the operations below do nothing; such a byte
    is part of the encoding of a character that only the instance over
    code points describes. *)
Definition is_ascii (c : ascii) : bool :=
  (nat_of_ascii c <? 128)%nat.

Definition ascii_text (s : string) : Prop :=
  Forall (fun c => is_ascii c = true) (list_ascii_of_string s).

#[global] Instance ascii_text_dec s : Decision (ascii_text s).
Proof. unfold ascii_text. apply _. Defined.

(** The code points of an ASCII text. *)
Definition codepoints (s : string) : list N :=
  map N_of_ascii (list_ascii_of_string s).

Definition is_lower (c : ascii) : bool :=
  let n := nat_of_ascii c in (97 <=? n)%nat && (n <=? 122)%nat.

Definition upper_ascii (c : ascii) : ascii :=
  if is_lower c then ascii_of_nat (nat_of_ascii c - 32) else c.

(** [\s] on ASCII: TAB, LF, VT, FF, CR and SPACE. *)
Definition is_space (c : ascii) : bool :=
  let n := nat_of_ascii c in
  ((9 <=? n)%nat && (n <=? 13)%nat) || (n =? 32)%nat.

Definition toUpperCase (s : string) : string :=
  string_of_list_ascii
    (toUpperCase_chars (fun c => [upper_ascii c]) (list_ascii_of_string s)).

(** [s.replace(/\s+/g, r)] for a one-character replacement [r]. *)
Definition replace_spaces (r : ascii) (s : string) : string :=
  string_of_list_ascii
    (replace_space_runs is_space r false (list_ascii_of_string s)).

Definition trim (s : string) : string :=
  string_of_list_ascii (trim_chars is_space (list_ascii_of_string s)).

(** [a || b] on strings: the empty string is falsy. *)
Definition or_else (a b : string) : string :=
  if decide (a = "") then b else a.

(** The instance over Unicode code points: a string is the list of its
    code points (a surrogate that is not part of a pair is a code point of
    its own).

    [upper_table]: the code points that [toUpperCase] changes, each with
    its full upper-case mapping (UnicodeData and the unconditional
    mappings of SpecialCasing, Unicode 14.0): U+00DF gives "SS".  Upper-casing
    has no context-dependent rule outside the locale-specific ones, which
    [toUpperCase] does not apply. *)
Definition upper_table : list (N * list N) := [
  (97%N, [65%N]); (98%N, [66%N]); (99%N, [67%N]); (100%N, [68%N]);
  (101%N, [69%N]); (102%N, [70%N]); (103%N, [71%N]); (104%N, [72%N]);
  (105%N, [73%N]); (106%N, [74%N]); (107%N, [75%N]); (108%N, [76%N]);
  (109%N, [77%N]); (110%N, [78%N]); (111%N, [79%N]); (112%N, [80%N]);
  (113%N, [81%N]); (114%N, [82%N]); (115%N, [83%N]); (116%N, [84%N]);
  (117%N, [85%N]); (118%N, [86%N]); (119%N, [87%N]); (120%N, [88%N]);
  (121%N, [89%N]); (122%N, [90%N]); (181%N, [924%N]); (223%N, [83%N; 83%N]);
  (224%N, [192%N]); (225%N, [193%N]); (226%N, [194%N]); (227%N, [195%N]);
  (228%N, [196%N]); (229%N, [197%N]); (230%N, [198%N]); (231%N, [199%N]);
  (232%N, [200%N]); (233%N, [201%N]); (234%N, [202%N]); (235%N, [203%N]);
  (236%N, [204%N]); (237%N, [205%N]); (238%N, [206%N]); (239%N, [207%N]);
  (240%N, [208%N]); (241%N, [209%N]); (242%N, [210%N]); (243%N, [211%N]);
  (244%N, [212%N]); (245%N, [213%N]); (246%N, [214%N]); (248%N, [216%N]);
  (249%N, [217%N]); (250%N, [218%N]); (251%N, [219%N]); (252%N, [220%N]);
  (253%N, [221%N]); (254%N, [222%N]); (255%N, [376%N]); (257%N, [256%N]);
  (259%N, [258%N]); (261%N, [260%N]); (263%N, [262%N]); (265%N, [264%N]);
  (267%N, [266%N]); (269%N, [268%N]); (271%N, [270%N]); (273%N, [272%N]);
  (275%N, [274%N]); (277%N, [276%N]); (279%N, [278%N]); (281%N, [280%N]);
  (283%N, [282%N]); (285%N, [284%N]); (287%N, [286%N]); (289%N, [288%N]);
  (291%N, [290%N]); (293%N, [292%N]); (295%N, [294%N]); (297%N, [296%N]);
  (299%N, [298%N]); (301%N, [300%N]); (303%N, [302%N]); (305%N, [73%N]);
  (307%N, [306%N]); (309%N, [308%N]); (311%N, [310%N]); (314%N, [313%N]);
  (316%N, [315%N]); (318%N, [317%N]); (320%N, [319%N]); (322%N, [321%N]);
  (324%N, [323%N]); (326%N, [325%N]); (328%N, [327%N]);
  (329%N, [700%N; 78%N]); (331%N, [330%N]); (333%N, [332%N]);
  (335%N, [334%N]); (337%N, [336%N]); (339%N, [338%N]); (341%N, [340%N]);
  (343%N, [342%N]); (345%N, [344%N]); (347%N, [346%N]); (349%N, [348%N]);
  (351%N, [350%N]); (353%N, [352%N]); (355%N, [354%N]); (357%N, [356%N]);
  (359%N, [358%N]); (361%N, [360%N]); (363%N, [362%N]); (365%N, [364%N]);
  (367%N, [366%N]); (369%N, [368%N]); (371%N, [370%N]); (373%N, [372%N]);
  (375%N, [374%N]); (378%N, [377%N]); (380%N, [379%N]); (382%N, [381%N]);
  (383%N, [83%N]); (384%N, [579%N]); (387%N, [386%N]); (389%N, [388%N]);
  (392%N, [391%N]); (396%N, [395%N]); (402%N, [401%N]); (405%N, [502%N]);
  (409%N, [408%N]); (410%N, [573%N]); (414%N, [544%N]); (417%N, [416%N]);
  (419%N, [418%N]); (421%N, [420%N]); (424%N, [423%N]); (429%N, [428%N]);
  (432%N, [431%N]); (436%N, [435%N]); (438%N, [437%N]); (441%N, [440%N]);
  (445%N, [444%N]); (447%N, [503%N]); (453%N, [452%N]); (454%N, [452%N]);
  (456%N, [455%N]); (457%N, [455%N]); (459%N, [458%N]); (460%N, [458%N]);
  (462%N, [461%N]); (464%N, [463%N]); (466%N, [465%N]); (468%N, [467%N]);
  (470%N, [469%N]); (472%N, [471%N]); (474%N, [473%N]); (476%N, [475%N]);
  (477%N, [398%N]); (479%N, [478%N]); (481%N, [480%N]); (483%N, [482%N]);
  (485%N, [484%N]); (487%N, [486%N]); (489%N, [488%N]); (491%N, [490%N]);
  (493%N, [492%N]); (495%N, [494%N]); (496%N, [74%N; 780%N]);
  (498%N, [497%N]); (499%N, [497%N]); (501%N, [500%N]); (505%N, [504%N]);
  (507%N, [506%N]); (509%N, [508%N]); (511%N, [510%N]); (513%N, [512%N]);
  (515%N, [514%N]); (517%N, [516%N]); (519%N, [518%N]); (521%N, [520%N]);
  (523%N, [522%N]); (525%N, [524%N]); (527%N, [526%N]); (529%N, [528%N]);
  (531%N, [530%N]); (533%N, [532%N]); (535%N, [534%N]); (537%N, [536%N]);
  (539%N, [538%N]); (541%N, [540%N]); (543%N, [542%N]); (547%N, [546%N]);
  (549%N, [548%N]); (551%N, [550%N]); (553%N, [552%N]); (555%N, [554%N]);
  (557%N, [556%N]); (559%N, [558%N]); (561%N, [560%N]); (563%N, [562%N]);
  (572%N, [571%N]); (575%N, [11390%N]); (576%N, [11391%N]); (578%N, [577%N]);
  (583%N, [582%N]); (585%N, [584%N]); (587%N, [586%N]); (589%N, [588%N]);
  (591%N, [590%N]); (592%N, [11375%N]); (593%N, [11373%N]);
  (594%N, [11376%N]); (595%N, [385%N]); (596%N, [390%N]); (598%N, [393%N]);
  (599%N, [394%N]); (601%N, [399%N]); (603%N, [400%N]); (604%N, [42923%N]);
  (608%N, [403%N]); (609%N, [42924%N]); (611%N, [404%N]); (613%N, [42893%N]);
  (614%N, [42922%N]); (616%N, [407%N]); (617%N, [406%N]); (618%N, [42926%N]);
  (619%N, [11362%N]); (620%N, [42925%N]); (623%N, [412%N]);
  (625%N, [11374%N]); (626%N, [413%N]); (629%N, [415%N]); (637%N, [11364%N]);
  (640%N, [422%N]); (642%N, [42949%N]); (643%N, [425%N]); (647%N, [42929%N]);
  (648%N, [430%N]); (649%N, [580%N]); (650%N, [433%N]); (651%N, [434%N]);
  (652%N, [581%N]); (658%N, [439%N]); (669%N, [42930%N]); (670%N, [42928%N]);
  (837%N, [921%N]); (881%N, [880%N]); (883%N, [882%N]); (887%N, [886%N]);
  (891%N, [1021%N]); (892%N, [1022%N]); (893%N, [1023%N]);
  (912%N, [921%N; 776%N; 769%N]); (940%N, [902%N]); (941%N, [904%N]);
  (942%N, [905%N]); (943%N, [906%N]); (944%N, [933%N; 776%N; 769%N]);
  (945%N, [913%N]); (946%N, [914%N]); (947%N, [915%N]); (948%N, [916%N]);
  (949%N, [917%N]); (950%N, [918%N]); (951%N, [919%N]); (952%N, [920%N]);
  (953%N, [921%N]); (954%N, [922%N]); (955%N, [923%N]); (956%N, [924%N]);
  (957%N, [925%N]); (958%N, [926%N]); (959%N, [927%N]); (960%N, [928%N]);
  (961%N, [929%N]); (962%N, [931%N]); (963%N, [931%N]); (964%N, [932%N]);
  (965%N, [933%N]); (966%N, [934%N]); (967%N, [935%N]); (968%N, [936%N]);
  (969%N, [937%N]); (970%N, [938%N]); (971%N, [939%N]); (972%N, [908%N]);
  (973%N, [910%N]); (974%N, [911%N]); (976%N, [914%N]); (977%N, [920%N]);
  (981%N, [934%N]); (982%N, [928%N]); (983%N, [975%N]); (985%N, [984%N]);
  (987%N, [986%N]); (989%N, [988%N]); (991%N, [990%N]); (993%N, [992%N]);
  (995%N, [994%N]); (997%N, [996%N]); (999%N, [998%N]); (1001%N, [1000%N]);
  (1003%N, [1002%N]); (1005%N, [1004%N]); (1007%N, [1006%N]);
  (1008%N, [922%N]); (1009%N, [929%N]); (1010%N, [1017%N]); (1011%N, [895%N]);
  (1013%N, [917%N]); (1016%N, [1015%N]); (1019%N, [1018%N]);
  (1072%N, [1040%N]); (1073%N, [1041%N]); (1074%N, [1042%N]);
  (1075%N, [1043%N]); (1076%N, [1044%N]); (1077%N, [1045%N]);
  (1078%N, [1046%N]); (1079%N, [1047%N]); (1080%N, [1048%N]);
  (1081%N, [1049%N]); (1082%N, [1050%N]); (1083%N, [1051%N]);
  (1084%N, [1052%N]); (1085%N, [1053%N]); (1086%N, [1054%N]);
  (1087%N, [1055%N]); (1088%N, [1056%N]); (1089%N, [1057%N]);
  (1090%N, [1058%N]); (1091%N, [1059%N]); (1092%N, [1060%N]);
  (1093%N, [1061%N]); (1094%N, [1062%N]); (1095%N, [1063%N]);
  (1096%N, [1064%N]); (1097%N, [1065%N]); (1098%N, [1066%N]);
  (1099%N, [1067%N]); (1100%N, [1068%N]); (1101%N, [1069%N]);
  (1102%N, [1070%N]); (1103%N, [1071%N]); (1104%N, [1024%N]);
  (1105%N, [1025%N]); (1106%N, [1026%N]); (1107%N, [1027%N]);
  (1108%N, [1028%N]); (1109%N, [1029%N]); (1110%N, [1030%N]);
  (1111%N, [1031%N]); (1112%N, [1032%N]); (1113%N, [1033%N]);
  (1114%N, [1034%N]); (1115%N, [1035%N]); (1116%N, [1036%N]);
  (1117%N, [1037%N]); (1118%N, [1038%N]); (1119%N, [1039%N]);
  (1121%N, [1120%N]); (1123%N, [1122%N]); (1125%N, [1124%N]);
  (1127%N, [1126%N]); (1129%N, [1128%N]); (1131%N, [1130%N]);
  (1133%N, [1132%N]); (1135%N, [1134%N]); (1137%N, [1136%N]);
  (1139%N, [1138%N]); (1141%N, [1140%N]); (1143%N, [1142%N]);
  (1145%N, [1144%N]); (1147%N, [1146%N]); (1149%N, [1148%N]);
  (1151%N, [1150%N]); (1153%N, [1152%N]); (1163%N, [1162%N]);
  (1165%N, [1164%N]); (1167%N, [1166%N]); (1169%N, [1168%N]);
  (1171%N, [1170%N]); (1173%N, [1172%N]); (1175%N, [1174%N]);
  (1177%N, [1176%N]); (1179%N, [1178%N]); (1181%N, [1180%N]);
  (1183%N, [1182%N]); (1185%N, [1184%N]); (1187%N, [1186%N]);
  (1189%N, [1188%N]); (1191%N, [1190%N]); (1193%N, [1192%N]);
  (1195%N, [1194%N]); (1197%N, [1196%N]); (1199%N, [1198%N]);
  (1201%N, [1200%N]); (1203%N, [1202%N]); (1205%N, [1204%N]);
  (1207%N, [1206%N]); (1209%N, [1208%N]); (1211%N, [1210%N]);
  (1213%N, [1212%N]); (1215%N, [1214%N]); (1218%N, [1217%N]);
  (1220%N, [1219%N]); (1222%N, [1221%N]); (1224%N, [1223%N]);
  (1226%N, [1225%N]); (1228%N, [1227%N]); (1230%N, [1229%N]);
  (1231%N, [1216%N]); (1233%N, [1232%N]); (1235%N, [1234%N]);
  (1237%N, [1236%N]); (1239%N, [1238%N]); (1241%N, [1240%N]);
  (1243%N, [1242%N]); (1245%N, [1244%N]); (1247%N, [1246%N]);
  (1249%N, [1248%N]); (1251%N, [1250%N]); (1253%N, [1252%N]);
  (1255%N, [1254%N]); (1257%N, [1256%N]); (1259%N, [1258%N]);
  (1261%N, [1260%N]); (1263%N, [1262%N]); (1265%N, [1264%N]);
  (1267%N, [1266%N]); (1269%N, [1268%N]); (1271%N, [1270%N]);
  (1273%N, [1272%N]); (1275%N, [1274%N]); (1277%N, [1276%N]);
  (1279%N, [1278%N]); (1281%N, [1280%N]); (1283%N, [1282%N]);
  (1285%N, [1284%N]); (1287%N, [1286%N]); (1289%N, [1288%N]);
  (1291%N, [1290%N]); (1293%N, [1292%N]); (1295%N, [1294%N]);
  (1297%N, [1296%N]); (1299%N, [1298%N]); (1301%N, [1300%N]);
  (1303%N, [1302%N]); (1305%N, [1304%N]); (1307%N, [1306%N]);
  (1309%N, [1308%N]); (1311%N, [1310%N]); (1313%N, [1312%N]);
  (1315%N, [1314%N]); (1317%N, [1316%N]); (1319%N, [1318%N]);
  (1321%N, [1320%N]); (1323%N, [1322%N]); (1325%N, [1324%N]);
  (1327%N, [1326%N]); (1377%N, [1329%N]); (1378%N, [1330%N]);
  (1379%N, [1331%N]); (1380%N, [1332%N]); (1381%N, [1333%N]);
  (1382%N, [1334%N]); (1383%N, [1335%N]); (1384%N, [1336%N]);
  (1385%N, [1337%N]); (1386%N, [1338%N]); (1387%N, [1339%N]);
  (1388%N, [1340%N]); (1389%N, [1341%N]); (1390%N, [1342%N]);
  (1391%N, [1343%N]); (1392%N, [1344%N]); (1393%N, [1345%N]);
  (1394%N, [1346%N]); (1395%N, [1347%N]); (1396%N, [1348%N]);
  (1397%N, [1349%N]); (1398%N, [1350%N]); (1399%N, [1351%N]);
  (1400%N, [1352%N]); (1401%N, [1353%N]); (1402%N, [1354%N]);
  (1403%N, [1355%N]); (1404%N, [1356%N]); (1405%N, [1357%N]);
  (1406%N, [1358%N]); (1407%N, [1359%N]); (1408%N, [1360%N]);
  (1409%N, [1361%N]); (1410%N, [1362%N]); (1411%N, [1363%N]);
  (1412%N, [1364%N]); (1413%N, [1365%N]); (1414%N, [1366%N]);
  (1415%N, [1333%N; 1362%N]); (4304%N, [7312%N]); (4305%N, [7313%N]);
  (4306%N, [7314%N]); (4307%N, [7315%N]); (4308%N, [7316%N]);
  (4309%N, [7317%N]); (4310%N, [7318%N]); (4311%N, [7319%N]);
  (4312%N, [7320%N]); (4313%N, [7321%N]); (4314%N, [7322%N]);
  (4315%N, [7323%N]); (4316%N, [7324%N]); (4317%N, [7325%N]);
  (4318%N, [7326%N]); (4319%N, [7327%N]); (4320%N, [7328%N]);
  (4321%N, [7329%N]); (4322%N, [7330%N]); (4323%N, [7331%N]);
  (4324%N, [7332%N]); (4325%N, [7333%N]); (4326%N, [7334%N]);
  (4327%N, [7335%N]); (4328%N, [7336%N]); (4329%N, [7337%N]);
  (4330%N, [7338%N]); (4331%N, [7339%N]); (4332%N, [7340%N]);
  (4333%N, [7341%N]); (4334%N, [7342%N]); (4335%N, [7343%N]);
  (4336%N, [7344%N]); (4337%N, [7345%N]); (4338%N, [7346%N]);
  (4339%N, [7347%N]); (4340%N, [7348%N]); (4341%N, [7349%N]);
  (4342%N, [7350%N]); (4343%N, [7351%N]); (4344%N, [7352%N]);
  (4345%N, [7353%N]); (4346%N, [7354%N]); (4349%N, [7357%N]);
  (4350%N, [7358%N]); (4351%N, [7359%N]); (5112%N, [5104%N]);
  (5113%N, [5105%N]); (5114%N, [5106%N]); (5115%N, [5107%N]);
  (5116%N, [5108%N]); (5117%N, [5109%N]); (7296%N, [1042%N]);
  (7297%N, [1044%N]); (7298%N, [1054%N]); (7299%N, [1057%N]);
  (7300%N, [1058%N]); (7301%N, [1058%N]); (7302%N, [1066%N]);
  (7303%N, [1122%N]); (7304%N, [42570%N]); (7545%N, [42877%N]);
  (7549%N, [11363%N]); (7566%N, [42950%N]); (7681%N, [7680%N]);
  (7683%N, [7682%N]); (7685%N, [7684%N]); (7687%N, [7686%N]);
  (7689%N, [7688%N]); (7691%N, [7690%N]); (7693%N, [7692%N]);
  (7695%N, [7694%N]); (7697%N, [7696%N]); (7699%N, [7698%N]);
  (7701%N, [7700%N]); (7703%N, [7702%N]); (7705%N, [7704%N]);
  (7707%N, [7706%N]); (7709%N, [7708%N]); (7711%N, [7710%N]);
  (7713%N, [7712%N]); (7715%N, [7714%N]); (7717%N, [7716%N]);
  (7719%N, [7718%N]); (7721%N, [7720%N]); (7723%N, [7722%N]);
  (7725%N, [7724%N]); (7727%N, [7726%N]); (7729%N, [7728%N]);
  (7731%N, [7730%N]); (7733%N, [7732%N]); (7735%N, [7734%N]);
  (7737%N, [7736%N]); (7739%N, [7738%N]); (7741%N, [7740%N]);
  (7743%N, [7742%N]); (7745%N, [7744%N]); (7747%N, [7746%N]);
  (7749%N, [7748%N]); (7751%N, [7750%N]); (7753%N, [7752%N]);
  (7755%N, [7754%N]); (7757%N, [7756%N]); (7759%N, [7758%N]);
  (7761%N, [7760%N]); (7763%N, [7762%N]); (7765%N, [7764%N]);
  (7767%N, [7766%N]); (7769%N, [7768%N]); (7771%N, [7770%N]);
  (7773%N, [7772%N]); (7775%N, [7774%N]); (7777%N, [7776%N]);
  (7779%N, [7778%N]); (7781%N, [7780%N]); (7783%N, [7782%N]);
  (7785%N, [7784%N]); (7787%N, [7786%N]); (7789%N, [7788%N]);
  (7791%N, [7790%N]); (7793%N, [7792%N]); (7795%N, [7794%N]);
  (7797%N, [7796%N]); (7799%N, [7798%N]); (7801%N, [7800%N]);
  (7803%N, [7802%N]); (7805%N, [7804%N]); (7807%N, [7806%N]);
  (7809%N, [7808%N]); (7811%N, [7810%N]); (7813%N, [7812%N]);
  (7815%N, [7814%N]); (7817%N, [7816%N]); (7819%N, [7818%N]);
  (7821%N, [7820%N]); (7823%N, [7822%N]); (7825%N, [7824%N]);
  (7827%N, [7826%N]); (7829%N, [7828%N]); (7830%N, [72%N; 817%N]);
  (7831%N, [84%N; 776%N]); (7832%N, [87%N; 778%N]); (7833%N, [89%N; 778%N]);
  (7834%N, [65%N; 702%N]); (7835%N, [7776%N]); (7841%N, [7840%N]);
  (7843%N, [7842%N]); (7845%N, [7844%N]); (7847%N, [7846%N]);
  (7849%N, [7848%N]); (7851%N, [7850%N]); (7853%N, [7852%N]);
  (7855%N, [7854%N]); (7857%N, [7856%N]); (7859%N, [7858%N]);
  (7861%N, [7860%N]); (7863%N, [7862%N]); (7865%N, [7864%N]);
  (7867%N, [7866%N]); (7869%N, [7868%N]); (7871%N, [7870%N]);
  (7873%N, [7872%N]); (7875%N, [7874%N]); (7877%N, [7876%N]);
  (7879%N, [7878%N]); (7881%N, [7880%N]); (7883%N, [7882%N]);
  (7885%N, [7884%N]); (7887%N, [7886%N]); (7889%N, [7888%N]);
  (7891%N, [7890%N]); (7893%N, [7892%N]); (7895%N, [7894%N]);
  (7897%N, [7896%N]); (7899%N, [7898%N]); (7901%N, [7900%N]);
  (7903%N, [7902%N]); (7905%N, [7904%N]); (7907%N, [7906%N]);
  (7909%N, [7908%N]); (7911%N, [7910%N]); (7913%N, [7912%N]);
  (7915%N, [7914%N]); (7917%N, [7916%N]); (7919%N, [7918%N]);
  (7921%N, [7920%N]); (7923%N, [7922%N]); (7925%N, [7924%N]);
  (7927%N, [7926%N]); (7929%N, [7928%N]); (7931%N, [7930%N]);
  (7933%N, [7932%N]); (7935%N, [7934%N]); (7936%N, [7944%N]);
  (7937%N, [7945%N]); (7938%N, [7946%N]); (7939%N, [7947%N]);
  (7940%N, [7948%N]); (7941%N, [7949%N]); (7942%N, [7950%N]);
  (7943%N, [7951%N]); (7952%N, [7960%N]); (7953%N, [7961%N]);
  (7954%N, [7962%N]); (7955%N, [7963%N]); (7956%N, [7964%N]);
  (7957%N, [7965%N]); (7968%N, [7976%N]); (7969%N, [7977%N]);
  (7970%N, [7978%N]); (7971%N, [7979%N]); (7972%N, [7980%N]);
  (7973%N, [7981%N]); (7974%N, [7982%N]); (7975%N, [7983%N]);
  (7984%N, [7992%N]); (7985%N, [7993%N]); (7986%N, [7994%N]);
  (7987%N, [7995%N]); (7988%N, [7996%N]); (7989%N, [7997%N]);
  (7990%N, [7998%N]); (7991%N, [7999%N]); (8000%N, [8008%N]);
  (8001%N, [8009%N]); (8002%N, [8010%N]); (8003%N, [8011%N]);
  (8004%N, [8012%N]); (8005%N, [8013%N]); (8016%N, [933%N; 787%N]);
  (8017%N, [8025%N]); (8018%N, [933%N; 787%N; 768%N]); (8019%N, [8027%N]);
  (8020%N, [933%N; 787%N; 769%N]); (8021%N, [8029%N]);
  (8022%N, [933%N; 787%N; 834%N]); (8023%N, [8031%N]); (8032%N, [8040%N]);
  (8033%N, [8041%N]); (8034%N, [8042%N]); (8035%N, [8043%N]);
  (8036%N, [8044%N]); (8037%N, [8045%N]); (8038%N, [8046%N]);
  (8039%N, [8047%N]); (8048%N, [8122%N]); (8049%N, [8123%N]);
  (8050%N, [8136%N]); (8051%N, [8137%N]); (8052%N, [8138%N]);
  (8053%N, [8139%N]); (8054%N, [8154%N]); (8055%N, [8155%N]);
  (8056%N, [8184%N]); (8057%N, [8185%N]); (8058%N, [8170%N]);
  (8059%N, [8171%N]); (8060%N, [8186%N]); (8061%N, [8187%N]);
  (8064%N, [7944%N; 921%N]); (8065%N, [7945%N; 921%N]);
  (8066%N, [7946%N; 921%N]); (8067%N, [7947%N; 921%N]);
  (8068%N, [7948%N; 921%N]); (8069%N, [7949%N; 921%N]);
  (8070%N, [7950%N; 921%N]); (8071%N, [7951%N; 921%N]);
  (8072%N, [7944%N; 921%N]); (8073%N, [7945%N; 921%N]);
  (8074%N, [7946%N; 921%N]); (8075%N, [7947%N; 921%N]);
  (8076%N, [7948%N; 921%N]); (8077%N, [7949%N; 921%N]);
  (8078%N, [7950%N; 921%N]); (8079%N, [7951%N; 921%N]);
  (8080%N, [7976%N; 921%N]); (8081%N, [7977%N; 921%N]);
  (8082%N, [7978%N; 921%N]); (8083%N, [7979%N; 921%N]);
  (8084%N, [7980%N; 921%N]); (8085%N, [7981%N; 921%N]);
  (8086%N, [7982%N; 921%N]); (8087%N, [7983%N; 921%N]);
  (8088%N, [7976%N; 921%N]); (8089%N, [7977%N; 921%N]);
  (8090%N, [7978%N; 921%N]); (8091%N, [7979%N; 921%N]);
  (8092%N, [7980%N; 921%N]); (8093%N, [7981%N; 921%N]);
  (8094%N, [7982%N; 921%N]); (8095%N, [7983%N; 921%N]);
  (8096%N, [8040%N; 921%N]); (8097%N, [8041%N; 921%N]);
  (8098%N, [8042%N; 921%N]); (8099%N, [8043%N; 921%N]);
  (8100%N, [8044%N; 921%N]); (8101%N, [8045%N; 921%N]);
  (8102%N, [8046%N; 921%N]); (8103%N, [8047%N; 921%N]);
  (8104%N, [8040%N; 921%N]); (8105%N, [8041%N; 921%N]);
  (8106%N, [8042%N; 921%N]); (8107%N, [8043%N; 921%N]);
  (8108%N, [8044%N; 921%N]); (8109%N, [8045%N; 921%N]);
  (8110%N, [8046%N; 921%N]); (8111%N, [8047%N; 921%N]); (8112%N, [8120%N]);
  (8113%N, [8121%N]); (8114%N, [8122%N; 921%N]); (8115%N, [913%N; 921%N]);
  (8116%N, [902%N; 921%N]); (8118%N, [913%N; 834%N]);
  (8119%N, [913%N; 834%N; 921%N]); (8124%N, [913%N; 921%N]);
  (8126%N, [921%N]); (8130%N, [8138%N; 921%N]); (8131%N, [919%N; 921%N]);
  (8132%N, [905%N; 921%N]); (8134%N, [919%N; 834%N]);
  (8135%N, [919%N; 834%N; 921%N]); (8140%N, [919%N; 921%N]);
  (8144%N, [8152%N]); (8145%N, [8153%N]); (8146%N, [921%N; 776%N; 768%N]);
  (8147%N, [921%N; 776%N; 769%N]); (8150%N, [921%N; 834%N]);
  (8151%N, [921%N; 776%N; 834%N]); (8160%N, [8168%N]); (8161%N, [8169%N]);
  (8162%N, [933%N; 776%N; 768%N]); (8163%N, [933%N; 776%N; 769%N]);
  (8164%N, [929%N; 787%N]); (8165%N, [8172%N]); (8166%N, [933%N; 834%N]);
  (8167%N, [933%N; 776%N; 834%N]); (8178%N, [8186%N; 921%N]);
  (8179%N, [937%N; 921%N]); (8180%N, [911%N; 921%N]);
  (8182%N, [937%N; 834%N]); (8183%N, [937%N; 834%N; 921%N]);
  (8188%N, [937%N; 921%N]); (8526%N, [8498%N]); (8560%N, [8544%N]);
  (8561%N, [8545%N]); (8562%N, [8546%N]); (8563%N, [8547%N]);
  (8564%N, [8548%N]); (8565%N, [8549%N]); (8566%N, [8550%N]);
  (8567%N, [8551%N]); (8568%N, [8552%N]); (8569%N, [8553%N]);
  (8570%N, [8554%N]); (8571%N, [8555%N]); (8572%N, [8556%N]);
  (8573%N, [8557%N]); (8574%N, [8558%N]); (8575%N, [8559%N]);
  (8580%N, [8579%N]); (9424%N, [9398%N]); (9425%N, [9399%N]);
  (9426%N, [9400%N]); (9427%N, [9401%N]); (9428%N, [9402%N]);
  (9429%N, [9403%N]); (9430%N, [9404%N]); (9431%N, [9405%N]);
  (9432%N, [9406%N]); (9433%N, [9407%N]); (9434%N, [9408%N]);
  (9435%N, [9409%N]); (9436%N, [9410%N]); (9437%N, [9411%N]);
  (9438%N, [9412%N]); (9439%N, [9413%N]); (9440%N, [9414%N]);
  (9441%N, [9415%N]); (9442%N, [9416%N]); (9443%N, [9417%N]);
  (9444%N, [9418%N]); (9445%N, [9419%N]); (9446%N, [9420%N]);
  (9447%N, [9421%N]); (9448%N, [9422%N]); (9449%N, [9423%N]);
  (11312%N, [11264%N]); (11313%N, [11265%N]); (11314%N, [11266%N]);
  (11315%N, [11267%N]); (11316%N, [11268%N]); (11317%N, [11269%N]);
  (11318%N, [11270%N]); (11319%N, [11271%N]); (11320%N, [11272%N]);
  (11321%N, [11273%N]); (11322%N, [11274%N]); (11323%N, [11275%N]);
  (11324%N, [11276%N]); (11325%N, [11277%N]); (11326%N, [11278%N]);
  (11327%N, [11279%N]); (11328%N, [11280%N]); (11329%N, [11281%N]);
  (11330%N, [11282%N]); (11331%N, [11283%N]); (11332%N, [11284%N]);
  (11333%N, [11285%N]); (11334%N, [11286%N]); (11335%N, [11287%N]);
  (11336%N, [11288%N]); (11337%N, [11289%N]); (11338%N, [11290%N]);
  (11339%N, [11291%N]); (11340%N, [11292%N]); (11341%N, [11293%N]);
  (11342%N, [11294%N]); (11343%N, [11295%N]); (11344%N, [11296%N]);
  (11345%N, [11297%N]); (11346%N, [11298%N]); (11347%N, [11299%N]);
  (11348%N, [11300%N]); (11349%N, [11301%N]); (11350%N, [11302%N]);
  (11351%N, [11303%N]); (11352%N, [11304%N]); (11353%N, [11305%N]);
  (11354%N, [11306%N]); (11355%N, [11307%N]); (11356%N, [11308%N]);
  (11357%N, [11309%N]); (11358%N, [11310%N]); (11359%N, [11311%N]);
  (11361%N, [11360%N]); (11365%N, [570%N]); (11366%N, [574%N]);
  (11368%N, [11367%N]); (11370%N, [11369%N]); (11372%N, [11371%N]);
  (11379%N, [11378%N]); (11382%N, [11381%N]); (11393%N, [11392%N]);
  (11395%N, [11394%N]); (11397%N, [11396%N]); (11399%N, [11398%N]);
  (11401%N, [11400%N]); (11403%N, [11402%N]); (11405%N, [11404%N]);
  (11407%N, [11406%N]); (11409%N, [11408%N]); (11411%N, [11410%N]);
  (11413%N, [11412%N]); (11415%N, [11414%N]); (11417%N, [11416%N]);
  (11419%N, [11418%N]); (11421%N, [11420%N]); (11423%N, [11422%N]);
  (11425%N, [11424%N]); (11427%N, [11426%N]); (11429%N, [11428%N]);
  (11431%N, [11430%N]); (11433%N, [11432%N]); (11435%N, [11434%N]);
  (11437%N, [11436%N]); (11439%N, [11438%N]); (11441%N, [11440%N]);
  (11443%N, [11442%N]); (11445%N, [11444%N]); (11447%N, [11446%N]);
  (11449%N, [11448%N]); (11451%N, [11450%N]); (11453%N, [11452%N]);
  (11455%N, [11454%N]); (11457%N, [11456%N]); (11459%N, [11458%N]);
  (11461%N, [11460%N]); (11463%N, [11462%N]); (11465%N, [11464%N]);
  (11467%N, [11466%N]); (11469%N, [11468%N]); (11471%N, [11470%N]);
  (11473%N, [11472%N]); (11475%N, [11474%N]); (11477%N, [11476%N]);
  (11479%N, [11478%N]); (11481%N, [11480%N]); (11483%N, [11482%N]);
  (11485%N, [11484%N]); (11487%N, [11486%N]); (11489%N, [11488%N]);
  (11491%N, [11490%N]); (11500%N, [11499%N]); (11502%N, [11501%N]);
  (11507%N, [11506%N]); (11520%N, [4256%N]); (11521%N, [4257%N]);
  (11522%N, [4258%N]); (11523%N, [4259%N]); (11524%N, [4260%N]);
  (11525%N, [4261%N]); (11526%N, [4262%N]); (11527%N, [4263%N]);
  (11528%N, [4264%N]); (11529%N, [4265%N]); (11530%N, [4266%N]);
  (11531%N, [4267%N]); (11532%N, [4268%N]); (11533%N, [4269%N]);
  (11534%N, [4270%N]); (11535%N, [4271%N]); (11536%N, [4272%N]);
  (11537%N, [4273%N]); (11538%N, [4274%N]); (11539%N, [4275%N]);
  (11540%N, [4276%N]); (11541%N, [4277%N]); (11542%N, [4278%N]);
  (11543%N, [4279%N]); (11544%N, [4280%N]); (11545%N, [4281%N]);
  (11546%N, [4282%N]); (11547%N, [4283%N]); (11548%N, [4284%N]);
  (11549%N, [4285%N]); (11550%N, [4286%N]); (11551%N, [4287%N]);
  (11552%N, [4288%N]); (11553%N, [4289%N]); (11554%N, [4290%N]);
  (11555%N, [4291%N]); (11556%N, [4292%N]); (11557%N, [4293%N]);
  (11559%N, [4295%N]); (11565%N, [4301%N]); (42561%N, [42560%N]);
  (42563%N, [42562%N]); (42565%N, [42564%N]); (42567%N, [42566%N]);
  (42569%N, [42568%N]); (42571%N, [42570%N]); (42573%N, [42572%N]);
  (42575%N, [42574%N]); (42577%N, [42576%N]); (42579%N, [42578%N]);
  (42581%N, [42580%N]); (42583%N, [42582%N]); (42585%N, [42584%N]);
  (42587%N, [42586%N]); (42589%N, [42588%N]); (42591%N, [42590%N]);
  (42593%N, [42592%N]); (42595%N, [42594%N]); (42597%N, [42596%N]);
  (42599%N, [42598%N]); (42601%N, [42600%N]); (42603%N, [42602%N]);
  (42605%N, [42604%N]); (42625%N, [42624%N]); (42627%N, [42626%N]);
  (42629%N, [42628%N]); (42631%N, [42630%N]); (42633%N, [42632%N]);
  (42635%N, [42634%N]); (42637%N, [42636%N]); (42639%N, [42638%N]);
  (42641%N, [42640%N]); (42643%N, [42642%N]); (42645%N, [42644%N]);
  (42647%N, [42646%N]); (42649%N, [42648%N]); (42651%N, [42650%N]);
  (42787%N, [42786%N]); (42789%N, [42788%N]); (42791%N, [42790%N]);
  (42793%N, [42792%N]); (42795%N, [42794%N]); (42797%N, [42796%N]);
  (42799%N, [42798%N]); (42803%N, [42802%N]); (42805%N, [42804%N]);
  (42807%N, [42806%N]); (42809%N, [42808%N]); (42811%N, [42810%N]);
  (42813%N, [42812%N]); (42815%N, [42814%N]); (42817%N, [42816%N]);
  (42819%N, [42818%N]); (42821%N, [42820%N]); (42823%N, [42822%N]);
  (42825%N, [42824%N]); (42827%N, [42826%N]); (42829%N, [42828%N]);
  (42831%N, [42830%N]); (42833%N, [42832%N]); (42835%N, [42834%N]);
  (42837%N, [42836%N]); (42839%N, [42838%N]); (42841%N, [42840%N]);
  (42843%N, [42842%N]); (42845%N, [42844%N]); (42847%N, [42846%N]);
  (42849%N, [42848%N]); (42851%N, [42850%N]); (42853%N, [42852%N]);
  (42855%N, [42854%N]); (42857%N, [42856%N]); (42859%N, [42858%N]);
  (42861%N, [42860%N]); (42863%N, [42862%N]); (42874%N, [42873%N]);
  (42876%N, [42875%N]); (42879%N, [42878%N]); (42881%N, [42880%N]);
  (42883%N, [42882%N]); (42885%N, [42884%N]); (42887%N, [42886%N]);
  (42892%N, [42891%N]); (42897%N, [42896%N]); (42899%N, [42898%N]);
  (42900%N, [42948%N]); (42903%N, [42902%N]); (42905%N, [42904%N]);
  (42907%N, [42906%N]); (42909%N, [42908%N]); (42911%N, [42910%N]);
  (42913%N, [42912%N]); (42915%N, [42914%N]); (42917%N, [42916%N]);
  (42919%N, [42918%N]); (42921%N, [42920%N]); (42933%N, [42932%N]);
  (42935%N, [42934%N]); (42937%N, [42936%N]); (42939%N, [42938%N]);
  (42941%N, [42940%N]); (42943%N, [42942%N]); (42945%N, [42944%N]);
  (42947%N, [42946%N]); (42952%N, [42951%N]); (42954%N, [42953%N]);
  (42961%N, [42960%N]); (42967%N, [42966%N]); (42969%N, [42968%N]);
  (42998%N, [42997%N]); (43859%N, [42931%N]); (43888%N, [5024%N]);
  (43889%N, [5025%N]); (43890%N, [5026%N]); (43891%N, [5027%N]);
  (43892%N, [5028%N]); (43893%N, [5029%N]); (43894%N, [5030%N]);
  (43895%N, [5031%N]); (43896%N, [5032%N]); (43897%N, [5033%N]);
  (43898%N, [5034%N]); (43899%N, [5035%N]); (43900%N, [5036%N]);
  (43901%N, [5037%N]); (43902%N, [5038%N]); (43903%N, [5039%N]);
  (43904%N, [5040%N]); (43905%N, [5041%N]); (43906%N, [5042%N]);
  (43907%N, [5043%N]); (43908%N, [5044%N]); (43909%N, [5045%N]);
  (43910%N, [5046%N]); (43911%N, [5047%N]); (43912%N, [5048%N]);
  (43913%N, [5049%N]); (43914%N, [5050%N]); (43915%N, [5051%N]);
  (43916%N, [5052%N]); (43917%N, [5053%N]); (43918%N, [5054%N]);
  (43919%N, [5055%N]); (43920%N, [5056%N]); (43921%N, [5057%N]);
  (43922%N, [5058%N]); (43923%N, [5059%N]); (43924%N, [5060%N]);
  (43925%N, [5061%N]); (43926%N, [5062%N]); (43927%N, [5063%N]);
  (43928%N, [5064%N]); (43929%N, [5065%N]); (43930%N, [5066%N]);
  (43931%N, [5067%N]); (43932%N, [5068%N]); (43933%N, [5069%N]);
  (43934%N, [5070%N]); (43935%N, [5071%N]); (43936%N, [5072%N]);
  (43937%N, [5073%N]); (43938%N, [5074%N]); (43939%N, [5075%N]);
  (43940%N, [5076%N]); (43941%N, [5077%N]); (43942%N, [5078%N]);
  (43943%N, [5079%N]); (43944%N, [5080%N]); (43945%N, [5081%N]);
  (43946%N, [5082%N]); (43947%N, [5083%N]); (43948%N, [5084%N]);
  (43949%N, [5085%N]); (43950%N, [5086%N]); (43951%N, [5087%N]);
  (43952%N, [5088%N]); (43953%N, [5089%N]); (43954%N, [5090%N]);
  (43955%N, [5091%N]); (43956%N, [5092%N]); (43957%N, [5093%N]);
  (43958%N, [5094%N]); (43959%N, [5095%N]); (43960%N, [5096%N]);
  (43961%N, [5097%N]); (43962%N, [5098%N]); (43963%N, [5099%N]);
  (43964%N, [5100%N]); (43965%N, [5101%N]); (43966%N, [5102%N]);
  (43967%N, [5103%N]); (64256%N, [70%N; 70%N]); (64257%N, [70%N; 73%N]);
  (64258%N, [70%N; 76%N]); (64259%N, [70%N; 70%N; 73%N]);
  (64260%N, [70%N; 70%N; 76%N]); (64261%N, [83%N; 84%N]);
  (64262%N, [83%N; 84%N]); (64275%N, [1348%N; 1350%N]);
  (64276%N, [1348%N; 1333%N]); (64277%N, [1348%N; 1339%N]);
  (64278%N, [1358%N; 1350%N]); (64279%N, [1348%N; 1341%N]);
  (65345%N, [65313%N]); (65346%N, [65314%N]); (65347%N, [65315%N]);
  (65348%N, [65316%N]); (65349%N, [65317%N]); (65350%N, [65318%N]);
  (65351%N, [65319%N]); (65352%N, [65320%N]); (65353%N, [65321%N]);
  (65354%N, [65322%N]); (65355%N, [65323%N]); (65356%N, [65324%N]);
  (65357%N, [65325%N]); (65358%N, [65326%N]); (65359%N, [65327%N]);
  (65360%N, [65328%N]); (65361%N, [65329%N]); (65362%N, [65330%N]);
  (65363%N, [65331%N]); (65364%N, [65332%N]); (65365%N, [65333%N]);
  (65366%N, [65334%N]); (65367%N, [65335%N]); (65368%N, [65336%N]);
  (65369%N, [65337%N]); (65370%N, [65338%N]); (66600%N, [66560%N]);
  (66601%N, [66561%N]); (66602%N, [66562%N]); (66603%N, [66563%N]);
  (66604%N, [66564%N]); (66605%N, [66565%N]); (66606%N, [66566%N]);
  (66607%N, [66567%N]); (66608%N, [66568%N]); (66609%N, [66569%N]);
  (66610%N, [66570%N]); (66611%N, [66571%N]); (66612%N, [66572%N]);
  (66613%N, [66573%N]); (66614%N, [66574%N]); (66615%N, [66575%N]);
  (66616%N, [66576%N]); (66617%N, [66577%N]); (66618%N, [66578%N]);
  (66619%N, [66579%N]); (66620%N, [66580%N]); (66621%N, [66581%N]);
  (66622%N, [66582%N]); (66623%N, [66583%N]); (66624%N, [66584%N]);
  (66625%N, [66585%N]); (66626%N, [66586%N]); (66627%N, [66587%N]);
  (66628%N, [66588%N]); (66629%N, [66589%N]); (66630%N, [66590%N]);
  (66631%N, [66591%N]); (66632%N, [66592%N]); (66633%N, [66593%N]);
  (66634%N, [66594%N]); (66635%N, [66595%N]); (66636%N, [66596%N]);
  (66637%N, [66597%N]); (66638%N, [66598%N]); (66639%N, [66599%N]);
  (66776%N, [66736%N]); (66777%N, [66737%N]); (66778%N, [66738%N]);
  (66779%N, [66739%N]); (66780%N, [66740%N]); (66781%N, [66741%N]);
  (66782%N, [66742%N]); (66783%N, [66743%N]); (66784%N, [66744%N]);
  (66785%N, [66745%N]); (66786%N, [66746%N]); (66787%N, [66747%N]);
  (66788%N, [66748%N]); (66789%N, [66749%N]); (66790%N, [66750%N]);
  (66791%N, [66751%N]); (66792%N, [66752%N]); (66793%N, [66753%N]);
  (66794%N, [66754%N]); (66795%N, [66755%N]); (66796%N, [66756%N]);
  (66797%N, [66757%N]); (66798%N, [66758%N]); (66799%N, [66759%N]);
  (66800%N, [66760%N]); (66801%N, [66761%N]); (66802%N, [66762%N]);
  (66803%N, [66763%N]); (66804%N, [66764%N]); (66805%N, [66765%N]);
  (66806%N, [66766%N]); (66807%N, [66767%N]); (66808%N, [66768%N]);
  (66809%N, [66769%N]); (66810%N, [66770%N]); (66811%N, [66771%N]);
  (66967%N, [66928%N]); (66968%N, [66929%N]); (66969%N, [66930%N]);
  (66970%N, [66931%N]); (66971%N, [66932%N]); (66972%N, [66933%N]);
  (66973%N, [66934%N]); (66974%N, [66935%N]); (66975%N, [66936%N]);
  (66976%N, [66937%N]); (66977%N, [66938%N]); (66979%N, [66940%N]);
  (66980%N, [66941%N]); (66981%N, [66942%N]); (66982%N, [66943%N]);
  (66983%N, [66944%N]); (66984%N, [66945%N]); (66985%N, [66946%N]);
  (66986%N, [66947%N]); (66987%N, [66948%N]); (66988%N, [66949%N]);
  (66989%N, [66950%N]); (66990%N, [66951%N]); (66991%N, [66952%N]);
  (66992%N, [66953%N]); (66993%N, [66954%N]); (66995%N, [66956%N]);
  (66996%N, [66957%N]); (66997%N, [66958%N]); (66998%N, [66959%N]);
  (66999%N, [66960%N]); (67000%N, [66961%N]); (67001%N, [66962%N]);
  (67003%N, [66964%N]); (67004%N, [66965%N]); (68800%N, [68736%N]);
  (68801%N, [68737%N]); (68802%N, [68738%N]); (68803%N, [68739%N]);
  (68804%N, [68740%N]); (68805%N, [68741%N]); (68806%N, [68742%N]);
  (68807%N, [68743%N]); (68808%N, [68744%N]); (68809%N, [68745%N]);
  (68810%N, [68746%N]); (68811%N, [68747%N]); (68812%N, [68748%N]);
  (68813%N, [68749%N]); (68814%N, [68750%N]); (68815%N, [68751%N]);
  (68816%N, [68752%N]); (68817%N, [68753%N]); (68818%N, [68754%N]);
  (68819%N, [68755%N]); (68820%N, [68756%N]); (68821%N, [68757%N]);
  (68822%N, [68758%N]); (68823%N, [68759%N]); (68824%N, [68760%N]);
  (68825%N, [68761%N]); (68826%N, [68762%N]); (68827%N, [68763%N]);
  (68828%N, [68764%N]); (68829%N, [68765%N]); (68830%N, [68766%N]);
  (68831%N, [68767%N]); (68832%N, [68768%N]); (68833%N, [68769%N]);
  (68834%N, [68770%N]); (68835%N, [68771%N]); (68836%N, [68772%N]);
  (68837%N, [68773%N]); (68838%N, [68774%N]); (68839%N, [68775%N]);
  (68840%N, [68776%N]); (68841%N, [68777%N]); (68842%N, [68778%N]);
  (68843%N, [68779%N]); (68844%N, [68780%N]); (68845%N, [68781%N]);
  (68846%N, [68782%N]); (68847%N, [68783%N]); (68848%N, [68784%N]);
  (68849%N, [68785%N]); (68850%N, [68786%N]); (71872%N, [71840%N]);
  (71873%N, [71841%N]); (71874%N, [71842%N]); (71875%N, [71843%N]);
  (71876%N, [71844%N]); (71877%N, [71845%N]); (71878%N, [71846%N]);
  (71879%N, [71847%N]); (71880%N, [71848%N]); (71881%N, [71849%N]);
  (71882%N, [71850%N]); (71883%N, [71851%N]); (71884%N, [71852%N]);
  (71885%N, [71853%N]); (71886%N, [71854%N]); (71887%N, [71855%N]);
  (71888%N, [71856%N]); (71889%N, [71857%N]); (71890%N, [71858%N]);
  (71891%N, [71859%N]); (71892%N, [71860%N]); (71893%N, [71861%N]);
  (71894%N, [71862%N]); (71895%N, [71863%N]); (71896%N, [71864%N]);
  (71897%N, [71865%N]); (71898%N, [71866%N]); (71899%N, [71867%N]);
  (71900%N, [71868%N]); (71901%N, [71869%N]); (71902%N, [71870%N]);
  (71903%N, [71871%N]); (93792%N, [93760%N]); (93793%N, [93761%N]);
  (93794%N, [93762%N]); (93795%N, [93763%N]); (93796%N, [93764%N]);
  (93797%N, [93765%N]); (93798%N, [93766%N]); (93799%N, [93767%N]);
  (93800%N, [93768%N]); (93801%N, [93769%N]); (93802%N, [93770%N]);
  (93803%N, [93771%N]); (93804%N, [93772%N]); (93805%N, [93773%N]);
  (93806%N, [93774%N]); (93807%N, [93775%N]); (93808%N, [93776%N]);
  (93809%N, [93777%N]); (93810%N, [93778%N]); (93811%N, [93779%N]);
  (93812%N, [93780%N]); (93813%N, [93781%N]); (93814%N, [93782%N]);
  (93815%N, [93783%N]); (93816%N, [93784%N]); (93817%N, [93785%N]);
  (93818%N, [93786%N]); (93819%N, [93787%N]); (93820%N, [93788%N]);
  (93821%N, [93789%N]); (93822%N, [93790%N]); (93823%N, [93791%N]);
  (125218%N, [125184%N]); (125219%N, [125185%N]); (125220%N, [125186%N]);
  (125221%N, [125187%N]); (125222%N, [125188%N]); (125223%N, [125189%N]);
  (125224%N, [125190%N]); (125225%N, [125191%N]); (125226%N, [125192%N]);
  (125227%N, [125193%N]); (125228%N, [125194%N]); (125229%N, [125195%N]);
  (125230%N, [125196%N]); (125231%N, [125197%N]); (125232%N, [125198%N]);
  (125233%N, [125199%N]); (125234%N, [125200%N]); (125235%N, [125201%N]);
  (125236%N, [125202%N]); (125237%N, [125203%N]); (125238%N, [125204%N]);
  (125239%N, [125205%N]); (125240%N, [125206%N]); (125241%N, [125207%N]);
  (125242%N, [125208%N]); (125243%N, [125209%N]); (125244%N, [125210%N]);
  (125245%N, [125211%N]); (125246%N, [125212%N]); (125247%N, [125213%N]);
  (125248%N, [125214%N]); (125249%N, [125215%N]); (125250%N, [125216%N]);
  (125251%N, [125217%N])
].

Definition upper_codepoint (c : N) : list N :=
  match List.find (fun e => N.eqb e.1 c) upper_table with
  | Some e => e.2
  | None => [c]
  end.

(** [\s]: the WhiteSpace and LineTerminator code points of ECMAScript
    (TAB, LF, VT, FF, CR, SPACE, U+00A0, U+1680, U+2000 to U+200A, U+2028,
    U+2029, U+202F, U+205F, U+3000, U+FEFF). *)
Definition space_codepoint (c : N) : bool :=
  (N.leb 9 c && N.leb c 13) || N.eqb c 32 || N.eqb c 160 || N.eqb c 5760 ||
  (N.leb 8192 c && N.leb c 8202) || N.eqb c 8232 || N.eqb c 8233 ||
  N.eqb c 8239 || N.eqb c 8287 || N.eqb c 12288 || N.eqb c 65279.

Definition toUpperCase_codepoints (s : list N) : list N :=
  toUpperCase_chars upper_codepoint s.

Definition trim_codepoints (s : list N) : list N :=
  trim_chars space_codepoint s.

End Js.

(** ** Data model (schema.prisma)

    [createdAt]/[updatedAt] are not fields of the model: every table keeps
    its rows in insertion order, which is the order [createdAt] induces. *)

Inductive Priority := LOW | MEDIUM | HIGH.

Module Board.
Record t := mk {
  id : string;
  title : string;
  description : option string
}.
End Board.

Module Task.
Record t := mk {
  id : string;
  title : string;
  description : option string;
  status : string;
  priority : Priority;
  boardId : string
}.
End Task.

Module Column.
Record t := mk {
  id : string;
  title : string;
  status : string;
  order : Z;
  boardId : string
}.
End Column.

(** ** The status model of the client (BoardDetail.tsx, TaskColumn.tsx) *)

(** [handleCreateColumn]:
    [const status = data.title.toUpperCase().replace(/\s+/g, '_')], over
    code points (95 is the underscore). *)
Definition deriveStatusKey_codepoints (title : list N) : list N :=
  Js.replace_space_runs Js.space_codepoint 95%N false
    (Js.toUpperCase_codepoints title).

(** The same on an ASCII text. *)
Definition deriveStatusKey (title : string) : string :=
  Js.replace_spaces "_"%char (Js.toUpperCase title).

(** [const staticStatuses: TaskStatus[] = ['TODO', 'IN_PROGRESS', 'DONE']]. *)
Definition staticStatuses : list string := ["TODO"; "IN_PROGRESS"; "DONE"].

(** [const allStatuses = [...staticStatuses, ...columns.map(col => col.status)]]. *)
Definition allStatuses (columns : list Column.t) : list string :=
  staticStatuses ++ map Column.status columns.

(** [staticStatuses.includes(status)]. *)
Definition isStatic (status : string) : bool :=
  bool_decide (status ∈ staticStatuses).

(** The capability check of the column-delete action: BoardDetail hands a
    delete callback to a column exactly when its status is not static
    ([onDeleteColumn={isStatic ? undefined : ...}]). *)
Definition isDeletable (status : string) : bool :=
  negb (isStatic status).

(** [getTasksByStatus]: [tasks.filter(task => task.status === status)]. *)
Definition getTasksByStatus (tasks : list Task.t) (status : string) : list Task.t :=
  filter (fun task => Task.status task = status) tasks.

(** The props BoardDetail passes to one [TaskColumn].  [onDeleteColumn] is
    [None] for [undefined]; otherwise it holds the id the callback passes to
    [deleteColumn]. *)
Module TaskColumn.
Record props := mk {
  status : string;
  title : string;
  tasks : list Task.t;
  isStatic : bool;
  onDeleteColumn : option string
}.

(** [getStatusLabel]. *)
Definition getStatusLabel (status : string) : string :=
  if decide (status = "TODO") then "TODO"
  else if decide (status = "IN_PROGRESS") then "DOING"
  else if decide (status = "DONE") then "DONE"
  else status.

(** The text of the column header: [{title || getStatusLabel(status)}]. *)
Definition header (p : props) : string :=
  Js.or_else (title p) (getStatusLabel (status p)).

(** The delete button is rendered when [!isStatic && onDeleteColumn]. *)
Definition hasDeleteButton (p : props) : bool :=
  negb (isStatic p) && bool_decide (is_Some (onDeleteColumn p)).
End TaskColumn.

(** [columns.find(col => col.status === status)]. *)
Definition findColumn (columns : list Column.t) (status : string) : option Column.t :=
  List.find (fun col => bool_decide (Column.status col = status)) columns.

(** The columns BoardDetail renders, in order: [allStatuses.map(status => ...)]
    with [title={column?.title || status}] and
    [onDeleteColumn={isStatic ? undefined : () => deleteColumn(column?.id || '')}]. *)
Definition effectiveColumns (columns : list Column.t) (tasks : list Task.t)
  : list TaskColumn.props :=
  map (fun status =>
         let column := findColumn columns status in
         let isStatic := isStatic status in
         {| TaskColumn.status := status;
            TaskColumn.title :=
              Js.or_else (from_option Column.title "" column) status;
            TaskColumn.tasks := getTasksByStatus tasks status;
            TaskColumn.isStatic := isStatic;
            TaskColumn.onDeleteColumn :=
              if isStatic then None
              else Some (Js.or_else (from_option Column.id "" column) "") |})
      (allStatuses columns).

(** ** JSON request bodies and express-validator

    A body field holds a JSON scalar; an absent key is [undefined].  Arrays
    and nested objects are outside the model. *)

Inductive jsval :=
| JNull
| JBool (b : bool)
| JNum (n : Z)
| JStr (s : string).

Module Validator.

(** express-validator's [toString]: what standard validators and sanitizers
    see of a field value.  A number is an integer that [String] prints in
    decimal notation, that is one below 2^53 in magnitude; JavaScript
    prints 10^21 and above with an exponent, which this model does not
    describe. *)
Definition toString (v : option jsval) : string :=
  match v with
  | None | Some JNull => ""
  | Some (JBool true) => "true"
  | Some (JBool false) => "false"
  | Some (JNum n) => NilZero.string_of_int (Z.to_int n)
  | Some (JStr s) => s
  end.

Definition digit (c : ascii) : option Z :=
  let n := nat_of_ascii c in
  if (48 <=? n)%nat && (n <=? 57)%nat then Some (Z.of_nat n - 48) else None.

Fixpoint digits (acc : Z) (l : list ascii) : option Z :=
  match l with
  | [] => Some acc
  | c :: l' =>
      match digit c with
      | Some d => digits (10 * acc + d) l'
      | None => None
      end
  end.

(** validator.js [isInt] with options that do not set
    [allow_leading_zeroes] to [false]: the string matches
    [/^[-+]?[0-9]+$/], an optional sign and one digit or more, leading zeroes
    included; the result is the value of the literal, which [isInt]
    compares with [min] ("-0" is 0). *)
Definition parseInt (s : string) : option Z :=
  let l := list_ascii_of_string s in
  let '(negative, ds) :=
    match l with
    | "-"%char :: r => (true, r)
    | "+"%char :: r => (false, r)
    | _ => (false, l)
    end in
  match ds with
  | [] => None
  | _ => (fun n => if negative : bool then - n else n) <$> digits 0 ds
  end.

Inductive check :=
| isLength (min : nat) (max : option nat)
| isString
| isIn (values : list string)
| isInt (min : Z).

(** One [body(field)...] chain of a route: at most one [optional()], at most
    one [trim()] before the validator, one validator with its message. *)
Record chain := body {
  field : string;
  optional : bool;
  trim : bool;
  validator : check;
  withMessage : string
}.

Record error := mkError {
  param : string;
  msg : string
}.

(** The standard validators on the string [toString] gives.  [isLength]
    counts characters, which on ASCII text is the length of the Rocq
    string; [isInt] compares the value with [min], which is 0 wherever the
    routes use it. *)
Definition passes (c : check) (v : option jsval) : bool :=
  match c with
  | isLength min max =>
      let len := String.length (toString v) in
      (min <=? len)%nat && from_option (fun m => (len <=? m)%nat) true max
  | isString => match v with Some (JStr _) => true | _ => false end
  | isIn values => bool_decide (toString v ∈ values)
  | isInt min =>
      match parseInt (toString v) with
      | Some n => bool_decide (min <= n)
      | None => false
      end
  end.

(** Running one chain on the value of its field: the value the request
    holds afterwards, and the errors recorded.  [optional()] skips the whole
    chain when the value is [undefined]. *)
Definition run (c : chain) (v : option jsval) : option jsval * list error :=
  match v, optional c with
  | None, true => (None, [])
  | _, _ =>
      let v' := if trim c then Some (JStr (Js.trim (toString v))) else v in
      (v', if passes (validator c) v' then []
           else [{| param := field c; msg := withMessage c |}])
  end.

(** The validation middlewares of a route, run in order on [req.body];
    [validationResult(req).array()] is the second component. *)
Fixpoint validate (chains : list chain) (req : gmap string jsval)
  : gmap string jsval * list error :=
  match chains with
  | [] => (req, [])
  | c :: rest =>
      let '(v, errs) := run c (req !! field c) in
      let req' := match v with Some x => <[field c := x]> req | None => req end in
      let '(req'', errs') := validate rest req' in
      (req'', errs ++ errs')
  end.

End Validator.

(** ** The persistence gateway (Prisma client over schema.prisma) *)

Record store := mkStore {
  boards : list Board.t;
  tasks : list Task.t;
  columns : list Column.t
}.

Module Prisma.

(** The errors a query throws: a record to update or delete is missing
    (P2025), a unique constraint fails (P2002), a foreign key has no target
    (P2003), an argument has the wrong type for its column. *)
Inductive error := P2025 | P2002 | P2003 | ValidationError.

Definition result (A : Type) : Type := error + A.

Definition bind {A B} (r : result A) (k : A -> result B) : result B :=
  match r with inl e => inl e | inr a => k a end.

Notation "x <-? r ; k" := (bind r (fun x => k))
  (at level 100, r at next level, right associativity).

(** Typed arguments of a query. *)
Definition String_ (v : jsval) : result string :=
  match v with JStr s => inr s | _ => inl ValidationError end.

Definition String_opt (v : jsval) : result (option string) :=
  match v with
  | JStr s => inr (Some s)
  | JNull => inr None
  | _ => inl ValidationError
  end.

Definition Priority_ (v : jsval) : result Priority :=
  match v with
  | JStr s =>
      if decide (s = "LOW") then inr LOW
      else if decide (s = "MEDIUM") then inr MEDIUM
      else if decide (s = "HIGH") then inr HIGH
      else inl ValidationError
  | _ => inl ValidationError
  end.

(** [Int] is a 32-bit signed integer. *)
Definition Int_ (v : jsval) : result Z :=
  match v with
  | JNum n =>
      if bool_decide (-2147483648 <= n <= 2147483647) then inr n
      else inl ValidationError
  | _ => inl ValidationError
  end.

(** A column of [data] that must be given. *)
Definition required {A} (ty : jsval -> result A) (v : option jsval) : result A :=
  match v with Some x => ty x | None => inl ValidationError end.

(** A column of [data] that may be left out ([undefined]): a [create] takes
    the column's default for it, an [update] keeps the stored value. *)
Definition defaulted {A} (ty : jsval -> result A) (d : A) (v : option jsval)
  : result A :=
  match v with Some x => ty x | None => inr d end.

(** Stable sorting by an integer key, for [orderBy]. *)
Section OrderBy.
Context {A : Type}.
Variable key : A -> Z.
Variable descending : bool.

Definition before (x y : A) : bool :=
  if descending then bool_decide (key y <= key x)
  else bool_decide (key x <= key y).

Fixpoint insert_sorted (x : A) (l : list A) : list A :=
  match l with
  | [] => [x]
  | y :: l' => if before x y then x :: l else y :: insert_sorted x l'
  end.

Definition orderBy (l : list A) : list A :=
  foldr insert_sorted [] l.
End OrderBy.

(** One key of a [where] argument; an absent key does not filter. *)
Definition where_eq (w : option string) (x : string) : bool :=
  match w with
  | None => true
  | Some y => bool_decide (x = y)
  end.

(** [include: { board: { select: { id: true, title: true } } }]. *)
Definition board_ref (s : store) (boardId : string) : option (string * string) :=
  (fun b => (Board.id b, Board.title b)) <$>
    List.find (fun b => bool_decide (Board.id b = boardId)) (boards s).

Module board.
Definition findUnique (s : store) (id : string) : option Board.t :=
  List.find (fun b => bool_decide (Board.id b = id)) (boards s).

(** [include: { tasks: { orderBy: { createdAt: 'asc' } } }]. *)
Definition include_tasks (s : store) (b : Board.t) : Board.t * list Task.t :=
  (b, filter (fun t => Task.boardId t = Board.id b) (tasks s)).

(** [findMany({ orderBy: { createdAt: 'desc' } })]. *)
Definition findMany (s : store) : list Board.t :=
  rev (boards s).

(** The row a [data] argument describes, over the row [b] that supplies the
    columns [data] leaves out. *)
Definition row (data : gmap string jsval) (b : Board.t) : result Board.t :=
  title <-? defaulted String_ (Board.title b) (data !! "title");
  description <-?
    defaulted String_opt (Board.description b) (data !! "description");
  inr (Board.mk (Board.id b) title description).

(** [create({ data })]; [cuid] is the id the [@default(cuid())] generator
    draws for the new row. *)
Definition create (cuid : string) (data : gmap string jsval) (s : store)
  : result (Board.t * store) :=
  _ <-? required String_ (data !! "title");
  b <-? row data (Board.mk cuid "" None);
  match findUnique s cuid with
  | Some _ => inl P2002
  | None => inr (b, mkStore (boards s ++ [b]) (tasks s) (columns s))
  end.

(** [update({ where: { id }, data })]: the arguments are type-checked
    before the row is looked up. *)
Definition update (id : string) (data : gmap string jsval) (s : store)
  : result (Board.t * store) :=
  _ <-? row data (Board.mk id "" None);
  match findUnique s id with
  | None => inl P2025
  | Some b =>
      b' <-? row data b;
      inr (b', mkStore
                 (map (fun x => if bool_decide (Board.id x = id) then b' else x)
                      (boards s))
                 (tasks s) (columns s))
  end.

(** [delete({ where: { id } })].  Task and Column reference Board with
    [onDelete: Cascade]: their rows of the board go with it. *)
Definition delete (id : string) (s : store) : result (Board.t * store) :=
  match findUnique s id with
  | None => inl P2025
  | Some b =>
      inr (b, mkStore
                (filter (fun x => Board.id x <> id) (boards s))
                (filter (fun t => Task.boardId t <> id) (tasks s))
                (filter (fun c => Column.boardId c <> id) (columns s)))
  end.
End board.

(** The foreign key [boardId] of Task and Column: a query that writes the
    column must name an existing Board. *)
Definition references (s : store) (written : option jsval) (boardId : string)
  : result unit :=
  match written, board.findUnique s boardId with
  | Some _, None => inl P2003
  | _, _ => inr ()
  end.

Module task.
Definition findUnique (s : store) (id : string) : option Task.t :=
  List.find (fun t => bool_decide (Task.id t = id)) (tasks s).

Definition include_board (s : store) (t : Task.t)
  : Task.t * option (string * string) :=
  (t, board_ref s (Task.boardId t)).

(** [findMany({ where, orderBy: { createdAt: 'asc' } })]; a key absent from
    [where] does not filter. *)
Definition findMany (s : store) (boardId status : option string) : list Task.t :=
  filter (fun t => where_eq boardId (Task.boardId t) &&
                   where_eq status (Task.status t))
         (tasks s).

Definition row (data : gmap string jsval) (t : Task.t) : result Task.t :=
  title <-? defaulted String_ (Task.title t) (data !! "title");
  description <-?
    defaulted String_opt (Task.description t) (data !! "description");
  status <-? defaulted String_ (Task.status t) (data !! "status");
  priority <-? defaulted Priority_ (Task.priority t) (data !! "priority");
  boardId <-? defaulted String_ (Task.boardId t) (data !! "boardId");
  inr (Task.mk (Task.id t) title description status priority boardId).

(** [create({ data })]: [status] defaults to [TODO] and [priority] to
    MEDIUM; [boardId] must reference a row of Board. *)
Definition create (cuid : string) (data : gmap string jsval) (s : store)
  : result (Task.t * store) :=
  _ <-? required String_ (data !! "title");
  _ <-? required String_ (data !! "boardId");
  t <-? row data (Task.mk cuid "" None "TODO" MEDIUM "");
  match findUnique s cuid with
  | Some _ => inl P2002
  | None =>
      _ <-? references s (data !! "boardId") (Task.boardId t);
      inr (t, mkStore (boards s) (tasks s ++ [t]) (columns s))
  end.

Definition update (id : string) (data : gmap string jsval) (s : store)
  : result (Task.t * store) :=
  _ <-? row data (Task.mk id "" None "" MEDIUM "");
  match findUnique s id with
  | None => inl P2025
  | Some t =>
      t' <-? row data t;
      _ <-? references s (data !! "boardId") (Task.boardId t');
      inr (t', mkStore (boards s)
                 (map (fun x => if bool_decide (Task.id x = id) then t' else x)
                      (tasks s))
                 (columns s))
  end.

Definition delete (id : string) (s : store) : result (Task.t * store) :=
  match findUnique s id with
  | None => inl P2025
  | Some t =>
      inr (t, mkStore (boards s)
                (filter (fun x => Task.id x <> id) (tasks s))
                (columns s))
  end.
End task.

Module column.
Definition findUnique (s : store) (id : string) : option Column.t :=
  List.find (fun c => bool_decide (Column.id c = id)) (columns s).

Definition include_board (s : store) (c : Column.t)
  : Column.t * option (string * string) :=
  (c, board_ref s (Column.boardId c)).

(** [findMany({ where, orderBy: { order: 'asc' } })]. *)
Definition findMany (s : store) (boardId : option string) : list Column.t :=
  orderBy Column.order false
    (filter (fun c => where_eq boardId (Column.boardId c)) (columns s)).

(** [findFirst({ where: { boardId }, orderBy: { order: 'desc' } })]. *)
Definition findFirst (s : store) (boardId : string) : option Column.t :=
  head (orderBy Column.order true
          (filter (fun c => Column.boardId c = boardId) (columns s))).

Definition row (data : gmap string jsval) (c : Column.t) : result Column.t :=
  title <-? defaulted String_ (Column.title c) (data !! "title");
  status <-? defaulted String_ (Column.status c) (data !! "status");
  order <-? defaulted Int_ (Column.order c) (data !! "order");
  boardId <-? defaulted String_ (Column.boardId c) (data !! "boardId");
  inr (Column.mk (Column.id c) title status order boardId).

(** [create({ data })]: [order] defaults to 0. *)
Definition create (cuid : string) (data : gmap string jsval) (s : store)
  : result (Column.t * store) :=
  _ <-? required String_ (data !! "title");
  _ <-? required String_ (data !! "status");
  _ <-? required String_ (data !! "boardId");
  c <-? row data (Column.mk cuid "" "" 0 "");
  match findUnique s cuid with
  | Some _ => inl P2002
  | None =>
      _ <-? references s (data !! "boardId") (Column.boardId c);
      inr (c, mkStore (boards s) (tasks s) (columns s ++ [c]))
  end.

Definition update (id : string) (data : gmap string jsval) (s : store)
  : result (Column.t * store) :=
  _ <-? row data (Column.mk id "" "" 0 "");
  match findUnique s id with
  | None => inl P2025
  | Some c =>
      c' <-? row data c;
      _ <-? references s (data !! "boardId") (Column.boardId c');
      inr (c', mkStore (boards s) (tasks s)
                 (map (fun x => if bool_decide (Column.id x = id) then c' else x)
                      (columns s)))
  end.

Definition delete (id : string) (s : store) : result (Column.t * store) :=
  match findUnique s id with
  | None => inl P2025
  | Some c =>
      inr (c, mkStore (boards s) (tasks s)
                (filter (fun x => Column.id x <> id) (columns s)))
  end.
End column.

End Prisma.

(** ** The REST handlers (routes/boards.js, routes/tasks.js, routes/columns.js) *)

(** The [data] of a successful response. *)
Inductive payload :=
| BoardList (l : list (Board.t * list Task.t))
| BoardData (b : Board.t * list Task.t)
| TaskList (l : list (Task.t * option (string * string)))
| TaskData (t : Task.t * option (string * string))
| ColumnList (l : list (Column.t * option (string * string)))
| ColumnRows (l : list Column.t)
| ColumnData (c : Column.t * option (string * string))
| ColumnRow (c : Column.t).

(** The envelope [{ success, data | message | error, details }]. *)
Inductive envelope :=
| Success (data : payload)
| SuccessMessage (message : string)
| Failure (error : string)
| ValidationFailed (details : list Validator.error).

Record response := respond {
  status : Z;
  json : envelope
}.

(** An object literal handed to Prisma: a key whose value is [undefined]
    is left out. *)
Definition object (l : list (string * option jsval)) : gmap string jsval :=
  foldr (fun kv m => match kv.2 with Some v => <[kv.1 := v]> m | None => m end)
        ∅ l.

(** JavaScript truthiness and [a || b]. *)
Definition truthy (v : option jsval) : bool :=
  match v with
  | None | Some JNull | Some (JBool false) => false
  | Some (JNum n) => negb (n =? 0)
  | Some (JStr s) => negb (bool_decide (s = ""))
  | Some (JBool true) => true
  end.

Definition or (a : option jsval) (b : jsval) : option jsval :=
  if truthy a then a else Some b.

(** [if (q) where.key = q] for a query-string parameter. *)
Definition query (q : option string) : option string :=
  match q with
  | Some s => if decide (s = "") then None else Some s
  | None => None
  end.

Import Validator.

Definition validateBoard : list chain := [
  body "title" false true (isLength 1 (Some 100%nat))
       "Title must be between 1 and 100 characters";
  body "description" true true (isLength 0 (Some 500%nat))
       "Description must be less than 500 characters"
].

Definition validateTask : list chain := [
  body "title" false true (isLength 1 (Some 200%nat))
       "Title must be between 1 and 200 characters";
  body "description" true true (isLength 0 (Some 1000%nat))
       "Description must be less than 1000 characters";
  body "status" true false isString "Status must be a string";
  body "priority" true false (isIn ["LOW"; "MEDIUM"; "HIGH"])
       "Priority must be LOW, MEDIUM, or HIGH";
  body "boardId" false false isString "Board ID is required"
].

(** The inline chains of [PUT /api/tasks/:id]. *)
Definition validateTaskUpdate : list chain := [
  body "title" true true (isLength 1 (Some 200%nat))
       "Title must be between 1 and 200 characters";
  body "description" true true (isLength 0 (Some 1000%nat))
       "Description must be less than 1000 characters";
  body "status" true false isString "Status must be a string";
  body "priority" true false (isIn ["LOW"; "MEDIUM"; "HIGH"])
       "Priority must be LOW, MEDIUM, or HIGH"
].

Definition validateColumn : list chain := [
  body "title" false true (isLength 1 (Some 100%nat))
       "Title must be between 1 and 100 characters";
  body "status" false true (isLength 1 (Some 50%nat))
       "Status must be between 1 and 50 characters";
  body "boardId" false false isString "Board ID is required"
].

(** The inline chains of [PUT /api/columns/:id]. *)
Definition validateColumnUpdate : list chain := [
  body "title" true true (isLength 1 (Some 100%nat))
       "Title must be between 1 and 100 characters";
  body "status" true true (isLength 1 (Some 50%nat))
       "Status must be between 1 and 50 characters";
  body "order" true false (isInt 0) "Order must be a non-negative integer"
].

(** A handler behind its validation middlewares: the handler runs on the
    sanitized body when [validationResult(req)] is empty, and answers 400
    with the details otherwise. *)
Definition validated (chains : list chain) (req : gmap string jsval)
    (handler : gmap string jsval -> store -> response * store) (s : store)
  : response * store :=
  match validate chains req with
  | (req', []) => handler req' s
  | (_, errors) => (respond 400 (ValidationFailed errors), s)
  end.

(** The [catch] block of an update or delete: P2025 is 404, anything else
    is 500. *)
Definition caught (e : Prisma.error) (missing failed : string) : response :=
  match e with
  | Prisma.P2025 => respond 404 (Failure missing)
  | _ => respond 500 (Failure failed)
  end.

(** *** The boards router *)

Definition GET_boards (s : store) : response * store :=
  (respond 200
     (Success (BoardList (map (Prisma.board.include_tasks s)
                              (Prisma.board.findMany s)))), s).

Definition GET_board (id : string) (s : store) : response * store :=
  match Prisma.board.findUnique s id with
  | None => (respond 404 (Failure "Board not found"), s)
  | Some board =>
      (respond 200 (Success (BoardData (Prisma.board.include_tasks s board))), s)
  end.

Definition POST_boards (cuid : string) (req : gmap string jsval)
  : store -> response * store :=
  validated validateBoard req (fun req s =>
    let title := req !! "title" in
    let description := req !! "description" in
    match Prisma.board.create cuid
            (object [("title", title); ("description", description)]) s with
    | inr (board, s') =>
        (respond 201 (Success (BoardData (Prisma.board.include_tasks s' board))), s')
    | inl _ => (respond 500 (Failure "Failed to create board"), s)
    end).

Definition PUT_board (id : string) (req : gmap string jsval)
  : store -> response * store :=
  validated validateBoard req (fun req s =>
    let title := req !! "title" in
    let description := req !! "description" in
    match Prisma.board.update id
            (object [("title", title); ("description", description)]) s with
    | inr (board, s') =>
        (respond 200 (Success (BoardData (Prisma.board.include_tasks s' board))), s')
    | inl e => (caught e "Board not found" "Failed to update board", s)
    end).

Definition DELETE_board (id : string) (s : store) : response * store :=
  match Prisma.board.delete id s with
  | inr (_, s') => (respond 200 (SuccessMessage "Board deleted successfully"), s')
  | inl e => (caught e "Board not found" "Failed to delete board", s)
  end.

(** *** routes/tasks.js *)

Definition GET_tasks (boardId status : option string) (s : store)
  : response * store :=
  (respond 200
     (Success (TaskList (map (Prisma.task.include_board s)
                             (Prisma.task.findMany s (query boardId) (query status))))),
   s).

Definition GET_task (id : string) (s : store) : response * store :=
  match Prisma.task.findUnique s id with
  | None => (respond 404 (Failure "Task not found"), s)
  | Some task =>
      (respond 200 (Success (TaskData (Prisma.task.include_board s task))), s)
  end.

(** [prisma.board.findUnique({ where: { id: boardId } })] on a body field:
    the client rejects an id that is not a string. *)
Definition findBoard (s : store) (boardId : option jsval)
  : Prisma.result (option Board.t) :=
  Prisma.bind (Prisma.required Prisma.String_ boardId)
              (fun id => inr (Prisma.board.findUnique s id)).

(** [prisma.column.findFirst({ where: { boardId }, orderBy: { order: 'desc' } })]
    on a body field. *)
Definition findLastColumn (s : store) (boardId : option jsval)
  : Prisma.result (option Column.t) :=
  Prisma.bind (Prisma.required Prisma.String_ boardId)
              (fun id => inr (Prisma.column.findFirst s id)).

Definition POST_tasks (cuid : string) (req : gmap string jsval)
  : store -> response * store :=
  validated validateTask req (fun req s =>
    let title := req !! "title" in
    let description := req !! "description" in
    let status := req !! "status" in
    let priority := req !! "priority" in
    let boardId := req !! "boardId" in
    match findBoard s boardId with
    | inl _ => (respond 500 (Failure "Failed to create task"), s)
    | inr None => (respond 404 (Failure "Board not found"), s)
    | inr (Some _) =>
        match Prisma.task.create cuid
                (object [("title", title);
                         ("description", description);
                         ("status", or status (JStr "TODO"));
                         ("priority", or priority (JStr "MEDIUM"));
                         ("boardId", boardId)]) s with
        | inr (task, s') =>
            (respond 201 (Success (TaskData (Prisma.task.include_board s' task))), s')
        | inl _ => (respond 500 (Failure "Failed to create task"), s)
        end
    end).

Definition PUT_task (id : string) (req : gmap string jsval)
  : store -> response * store :=
  validated validateTaskUpdate req (fun req s =>
    let updateData :=
      object [("title", req !! "title");
              ("description", req !! "description");
              ("status", req !! "status");
              ("priority", req !! "priority")] in
    match Prisma.task.update id updateData s with
    | inr (task, s') =>
        (respond 200 (Success (TaskData (Prisma.task.include_board s' task))), s')
    | inl e => (caught e "Task not found" "Failed to update task", s)
    end).

Definition DELETE_task (id : string) (s : store) : response * store :=
  match Prisma.task.delete id s with
  | inr (_, s') => (respond 200 (SuccessMessage "Task deleted successfully"), s')
  | inl e => (caught e "Task not found" "Failed to delete task", s)
  end.

(** *** routes/columns.js *)

Definition GET_columns (boardId : option string) (s : store)
  : response * store :=
  (respond 200
     (Success (ColumnList (map (Prisma.column.include_board s)
                               (Prisma.column.findMany s (query boardId))))),
   s).

Definition GET_board_columns (boardId : string) (s : store)
  : response * store :=
  (respond 200 (Success (ColumnRows (Prisma.column.findMany s (Some boardId)))), s).

Definition GET_column (id : string) (s : store) : response * store :=
  match Prisma.column.findUnique s id with
  | None => (respond 404 (Failure "Column not found"), s)
  | Some column =>
      (respond 200 (Success (ColumnData (Prisma.column.include_board s column))), s)
  end.

(** [const order = lastColumn ? lastColumn.order + 1 : 0]. *)
Definition nextColumnOrder (lastColumn : option Column.t) : Z :=
  match lastColumn with
  | Some c => Column.order c + 1
  | None => 0
  end.

Definition POST_columns (cuid : string) (req : gmap string jsval)
  : store -> response * store :=
  validated validateColumn req (fun req s =>
    let title := req !! "title" in
    let status := req !! "status" in
    let boardId := req !! "boardId" in
    match findBoard s boardId with
    | inl _ => (respond 500 (Failure "Failed to create column"), s)
    | inr None => (respond 404 (Failure "Board not found"), s)
    | inr (Some _) =>
        match findLastColumn s boardId with
        | inl _ => (respond 500 (Failure "Failed to create column"), s)
        | inr lastColumn =>
            let order := nextColumnOrder lastColumn in
            match Prisma.column.create cuid
                    (object [("title", title);
                             ("status", status);
                             ("boardId", boardId);
                             ("order", Some (JNum order))]) s with
            | inr (column, s') => (respond 201 (Success (ColumnRow column)), s')
            | inl _ => (respond 500 (Failure "Failed to create column"), s)
            end
        end
    end).

Definition PUT_column (id : string) (req : gmap string jsval)
  : store -> response * store :=
  validated validateColumnUpdate req (fun req s =>
    let updateData :=
      object [("title", req !! "title");
              ("status", req !! "status");
              ("order", req !! "order")] in
    match Prisma.column.update id updateData s with
    | inr (column, s') => (respond 200 (Success (ColumnRow column)), s')
    | inl e => (caught e "Column not found" "Failed to update column", s)
    end).

Definition DELETE_column (id : string) (s : store) : response * store :=
  match Prisma.column.delete id s with
  | inr (_, s') => (respond 200 (SuccessMessage "Column deleted successfully"), s')
  | inl e => (caught e "Column not found" "Failed to delete column", s)
  end.

(** *** The router *)

Inductive request :=
| GET_api_boards
| GET_api_boards_id (id : string)
| POST_api_boards (req : gmap string jsval)
| PUT_api_boards_id (id : string) (req : gmap string jsval)
| DELETE_api_boards_id (id : string)
| GET_api_tasks (boardId status : option string)
| GET_api_tasks_id (id : string)
| POST_api_tasks (req : gmap string jsval)
| PUT_api_tasks_id (id : string) (req : gmap string jsval)
| DELETE_api_tasks_id (id : string)
| GET_api_columns (boardId : option string)
| GET_api_columns_boards (boardId : string)
| GET_api_columns_id (id : string)
| POST_api_columns (req : gmap string jsval)
| PUT_api_columns_id (id : string) (req : gmap string jsval)
| DELETE_api_columns_id (id : string).

(** One request/response cycle; [cuid] is the id the store generates if
    the request creates a row. *)
Definition handle (cuid : string) (r : request) (s : store) : response * store :=
  match r with
  | GET_api_boards => GET_boards s
  | GET_api_boards_id id => GET_board id s
  | POST_api_boards req => POST_boards cuid req s
  | PUT_api_boards_id id req => PUT_board id req s
  | DELETE_api_boards_id id => DELETE_board id s
  | GET_api_tasks boardId status => GET_tasks boardId status s
  | GET_api_tasks_id id => GET_task id s
  | POST_api_tasks req => POST_tasks cuid req s
  | PUT_api_tasks_id id req => PUT_task id req s
  | DELETE_api_tasks_id id => DELETE_task id s
  | GET_api_columns boardId => GET_columns boardId s
  | GET_api_columns_boards boardId => GET_board_columns boardId s
  | GET_api_columns_id id => GET_column id s
  | POST_api_columns req => POST_columns cuid req s
  | PUT_api_columns_id id req => PUT_column id req s
  | DELETE_api_columns_id id => DELETE_column id s
  end.

(** [useColumns.fetchColumns]: the client's column list is the [data] of
    [GET /api/columns/boards/:boardId]. *)
Definition fetchColumns (s : store) (boardId : string) : list Column.t :=
  match (GET_board_columns boardId s).1 with
  | respond _ (Success (ColumnRows l)) => l
  | _ => []
  end.

(** ** Store invariants *)

(** Primary keys are unique. *)
Definition unique_ids (s : store) : Prop :=
  NoDup (map Board.id (boards s)) /\
  NoDup (map Task.id (tasks s)) /\
  NoDup (map Column.id (columns s)).

(** No Task or Column references a missing Board. *)
Definition no_orphans (s : store) : Prop :=
  Forall (fun t => is_Some (Prisma.board.findUnique s (Task.boardId t))) (tasks s) /\
  Forall (fun c => is_Some (Prisma.board.findUnique s (Column.boardId c))) (columns s).

Definition consistent (s : store) : Prop :=
  unique_ids s /\ no_orphans s.

#[global] Instance consistent_dec s : Decision (consistent s).
Proof. unfold consistent, unique_ids, no_orphans. apply _. Defined.

(** ** Client-side form validation (utils/validation.ts) *)

Module validation.

(** [ValidationRule]: [required] absent is [false]; an absent [minLength],
    [maxLength], [pattern] or [custom] is [None].  A [RegExp] is the
    predicate of its [test]. *)
Record ValidationRule := rule {
  required : bool;
  minLength : option nat;
  maxLength : option nat;
  pattern : option (string -> bool);
  custom : option (option jsval -> option string)
}.

(** A number inside a template literal. *)
Definition number (n : nat) : string :=
  NilZero.string_of_int (Z.to_int (Z.of_nat n)).

(** The first of two checks that reports an error. *)
Definition otherwise (first second : option string) : option string :=
  match first with
  | Some message => Some message
  | None => second
  end.

(** [validateField]: the message of the first rule that fails, [None] for
    [null].  The length and pattern rules apply to a non-empty string
    only; a rule whose bound is 0 is skipped, as an absent one. *)
Definition validateField (value : option jsval) (rules : ValidationRule)
  : option string :=
  let blank :=
    match value with
    | Some (JStr s) => bool_decide (Js.trim s = "")
    | _ => false
    end in
  if required rules && (negb (truthy value) || blank) then
    Some "This field is required"
  else
    otherwise
      match value with
      | Some (JStr s) =>
          if truthy value then
            otherwise
              match minLength rules with
              | Some n =>
                  if negb (n =? 0)%nat && (String.length s <? n)%nat
                  then Some ("Must be at least " +:+ number n +:+ " characters")
                  else None
              | None => None
              end
              (otherwise
                 match maxLength rules with
                 | Some m =>
                     if negb (m =? 0)%nat && (m <? String.length s)%nat
                     then Some ("Must be no more than " +:+ number m
                                +:+ " characters")
                     else None
                 | None => None
                 end
                 match pattern rules with
                 | Some test => if test s then None else Some "Invalid format"
                 | None => None
                 end)
          else None
      | _ => None
      end
      match custom rules with
      | Some f => f value
      | None => None
      end.

(** The callback of [Object.keys(rules).forEach] in [validateForm]: a field
    gets an entry when its error is a non-empty string. *)
Definition check (data : gmap string jsval) (errors : gmap string string)
    (fr : string * ValidationRule) : gmap string string :=
  match validateField (data !! fr.1) fr.2 with
  | Some error =>
      if decide (error = "") then errors else <[fr.1 := error]> errors
  | None => errors
  end.

(** [validateForm]: [rules] lists the keys of the rules object in order. *)
Definition validateForm (data : gmap string jsval)
    (rules : list (string * ValidationRule)) : gmap string string :=
  foldl (check data) ∅ rules.

Definition boardValidationRules : list (string * ValidationRule) := [
  ("title", rule true (Some 1%nat) (Some 100%nat) None None);
  ("description", rule false None (Some 500%nat) None None)
].

Definition taskValidationRules : list (string * ValidationRule) := [
  ("title", rule true (Some 1%nat) (Some 200%nat) None None);
  ("description", rule false None (Some 1000%nat) None None);
  ("boardId", rule true None None None None)
].

End validation.

(** ** The API client and the hooks (services/api.ts, hooks) *)

Module apiService.

(** [request]: one round trip; the parsed answer, or [None] when the
    method throws because of [!response.ok]. *)
Definition request (cuid : string) (r : request) (s : store)
  : option envelope * store :=
  let '(response, s') := handle cuid r s in
  (if bool_decide (200 <= status response <= 299) then Some (json response)
   else None, s').

(** [response.success]. *)
Definition success (e : envelope) : bool :=
  match e with
  | Success _ | SuccessMessage _ => true
  | Failure _ | ValidationFailed _ => false
  end.

End apiService.

(** [useColumns(boardId)]: the state [columns] beside the store of the
    server.  A method whose request throws leaves the state as it was. *)
Module useColumns.

Record CreateColumnData := mkCreate {
  title : string;
  status : string;
  boardId : string
}.

Record UpdateColumnData := mkUpdate {
  new_title : option string;
  new_status : option string
}.

Definition createColumn (cuid : string) (data : CreateColumnData)
    (columns : list Column.t) (s : store) : list Column.t * store :=
  match apiService.request cuid
          (POST_api_columns
             (object [("title", Some (JStr (title data)));
                      ("status", Some (JStr (status data)));
                      ("boardId", Some (JStr (boardId data)))])) s with
  | (Some (Success (ColumnRow column)), s') => (columns ++ [column], s')
  | (_, s') => (columns, s')
  end.

Definition updateColumn (cuid id : string) (data : UpdateColumnData)
    (columns : list Column.t) (s : store) : list Column.t * store :=
  match apiService.request cuid
          (PUT_api_columns_id id
             (object [("title", JStr <$> new_title data);
                      ("status", JStr <$> new_status data)])) s with
  | (Some (Success (ColumnRow column)), s') =>
      (map (fun col => if bool_decide (Column.id col = id) then column else col)
           columns, s')
  | (_, s') => (columns, s')
  end.

Definition deleteColumn (cuid id : string) (columns : list Column.t) (s : store)
  : list Column.t * store :=
  match apiService.request cuid (DELETE_api_columns_id id) s with
  | (Some response, s') =>
      (if apiService.success response
       then filter (fun col => Column.id col <> id) columns
       else columns, s')
  | (None, s') => (columns, s')
  end.

End useColumns.

(** [useTasks(boardId)]: the state [tasks]; a task of the state carries the
    board reference the server includes. *)
Module useTasks.

Record UpdateTaskData := mkUpdate {
  title : option string;
  description : option string;
  status : option string;
  priority : option string
}.

Definition stringify (data : UpdateTaskData) : gmap string jsval :=
  object [("title", JStr <$> title data);
          ("description", JStr <$> description data);
          ("status", JStr <$> status data);
          ("priority", JStr <$> priority data)].

Record CreateTaskData := mkCreate {
  new_title : string;
  new_description : option string;
  new_status : option string;
  new_priority : option string;
  boardId : string
}.

(** [fetchTasks]: [apiService.getTasks(boardId)] appends the parameter only
    when [boardId] is truthy. *)
Definition fetchTasks (boardId : option string) (s : store)
  : list (Task.t * option (string * string)) :=
  match (apiService.request "" (GET_api_tasks (query boardId) None) s).1 with
  | Some (Success (TaskList l)) => l
  | _ => []
  end.

(** [createTask]: the new task goes to the end of the list. *)
Definition createTask (cuid : string) (data : CreateTaskData)
    (tasks : list (Task.t * option (string * string))) (s : store)
  : list (Task.t * option (string * string)) * store :=
  match apiService.request cuid
          (POST_api_tasks
             (object [("title", Some (JStr (new_title data)));
                      ("description", JStr <$> new_description data);
                      ("status", JStr <$> new_status data);
                      ("priority", JStr <$> new_priority data);
                      ("boardId", Some (JStr (boardId data)))])) s with
  | (Some (Success (TaskData task)), s') => (tasks ++ [task], s')
  | (_, s') => (tasks, s')
  end.

Definition updateTask (cuid id : string) (data : UpdateTaskData)
    (tasks : list (Task.t * option (string * string))) (s : store)
  : list (Task.t * option (string * string)) * store :=
  match apiService.request cuid (PUT_api_tasks_id id (stringify data)) s with
  | (Some (Success (TaskData task)), s') =>
      (map (fun t => if bool_decide (Task.id t.1 = id) then task else t) tasks, s')
  | (_, s') => (tasks, s')
  end.

Definition deleteTask (cuid id : string)
    (tasks : list (Task.t * option (string * string))) (s : store)
  : list (Task.t * option (string * string)) * store :=
  match apiService.request cuid (DELETE_api_tasks_id id) s with
  | (Some _, s') => (filter (fun t => Task.id t.1 <> id) tasks, s')
  | (None, s') => (tasks, s')
  end.

End useTasks.

(** [useBoards()]: the state [boards]. *)
Module useBoards.

Record CreateBoardData := mkCreate {
  title : string;
  description : string
}.

Definition stringify (data : CreateBoardData) : gmap string jsval :=
  object [("title", Some (JStr (title data)));
          ("description", Some (JStr (description data)))].

Definition fetchBoards (s : store) : list (Board.t * list Task.t) :=
  match (apiService.request "" GET_api_boards s).1 with
  | Some (Success (BoardList l)) => l
  | _ => []
  end.

Definition createBoard (cuid : string) (data : CreateBoardData)
    (boards : list (Board.t * list Task.t)) (s : store)
  : list (Board.t * list Task.t) * store :=
  match apiService.request cuid (POST_api_boards (stringify data)) s with
  | (Some (Success (BoardData board)), s') => (board :: boards, s')
  | (_, s') => (boards, s')
  end.

Record UpdateBoardData := mkUpdate {
  new_title : option string;
  new_description : option string
}.

Definition updateBoard (cuid id : string) (data : UpdateBoardData)
    (boards : list (Board.t * list Task.t)) (s : store)
  : list (Board.t * list Task.t) * store :=
  match apiService.request cuid
          (PUT_api_boards_id id
             (object [("title", JStr <$> new_title data);
                      ("description", JStr <$> new_description data)])) s with
  | (Some (Success (BoardData board)), s') =>
      (map (fun b => if bool_decide (Board.id b.1 = id) then board else b)
           boards, s')
  | (_, s') => (boards, s')
  end.

Definition deleteBoard (cuid id : string)
    (boards : list (Board.t * list Task.t)) (s : store)
  : list (Board.t * list Task.t) * store :=
  match apiService.request cuid (DELETE_api_boards_id id) s with
  | (Some _, s') => (filter (fun b => Board.id b.1 <> id) boards, s')
  | (None, s') => (boards, s')
  end.

End useBoards.

(** ** The event handlers of the components *)

(** BoardDetail [handleCreateColumn] on the board [boardId]. *)
Definition handleCreateColumn (cuid boardId title : string)
  : list Column.t -> store -> list Column.t * store :=
  useColumns.createColumn cuid
    (useColumns.mkCreate title (deriveStatusKey title) boardId).

(** BoardDetail [handleTaskDrop]: [updateTask(taskId, { status: newStatus })]. *)
Definition handleTaskDrop (cuid taskId newStatus : string)
  : list (Task.t * option (string * string)) -> store ->
    list (Task.t * option (string * string)) * store :=
  useTasks.updateTask cuid taskId
    (useTasks.mkUpdate None None (Some newStatus) None).

(** The form of EditTaskModal: [useFormState<UpdateTaskData>] with the four
    fields of the task. *)
Module EditTaskModal.

Record formData := mkForm {
  title : string;
  description : string;
  status : string;
  priority : string
}.

Definition fields (form : formData) : gmap string jsval :=
  object [("title", Some (JStr (title form)));
          ("description", Some (JStr (description form)));
          ("status", Some (JStr (status form)));
          ("priority", Some (JStr (priority form)))].

(** [handleSubmit]: the validation errors of the form, and the state after
    [onUpdateTask] when there is none. *)
Definition handleSubmit (cuid taskId : string) (form : formData)
    (tasks : list (Task.t * option (string * string))) (s : store)
  : gmap string string * (list (Task.t * option (string * string)) * store) :=
  let validationErrors :=
    validation.validateForm (fields form) validation.taskValidationRules in
  if decide (validationErrors = ∅) then
    (∅, useTasks.updateTask cuid taskId
          (useTasks.mkUpdate (Some (title form)) (Some (description form))
                             (Some (status form)) (Some (priority form)))
          tasks s)
  else (validationErrors, (tasks, s)).

End EditTaskModal.

(** The form of CreateTaskModal on the board [boardId]:
    [useFormState<CreateTaskData>]; [status] and [priority] are set by two
    [select] elements. *)
Module CreateTaskModal.

Record formData := mkForm {
  title : string;
  description : string;
  status : string;
  priority : string
}.

(** The [option] values of the two [select] elements. *)
Definition statusOptions : list string := ["TODO"; "IN_PROGRESS"; "DONE"].
Definition priorityOptions : list string := ["LOW"; "MEDIUM"; "HIGH"].

Definition fields (boardId : string) (form : formData) : gmap string jsval :=
  object [("title", Some (JStr (title form)));
          ("description", Some (JStr (description form)));
          ("status", Some (JStr (status form)));
          ("priority", Some (JStr (priority form)));
          ("boardId", Some (JStr boardId))].

(** [handleSubmit]: the validation errors of the form, and the state after
    [onCreateTask] when there is none. *)
Definition handleSubmit (cuid boardId : string) (form : formData)
    (tasks : list (Task.t * option (string * string))) (s : store)
  : gmap string string * (list (Task.t * option (string * string)) * store) :=
  let validationErrors :=
    validation.validateForm (fields boardId form)
                            validation.taskValidationRules in
  if decide (validationErrors = ∅) then
    (∅, useTasks.createTask cuid
          (useTasks.mkCreate (title form) (Some (description form))
                             (Some (status form)) (Some (priority form))
                             boardId)
          tasks s)
  else (validationErrors, (tasks, s)).

End CreateTaskModal.

(** The form of EditBoardModal on the board [id]:
    [useFormState<UpdateBoardData>] with the title and the description of
    the board, and the modal's own [useBoards()]. *)
Module EditBoardModal.

Record formData := mkForm {
  title : string;
  description : string
}.

Definition fields (form : formData) : gmap string jsval :=
  object [("title", Some (JStr (title form)));
          ("description", Some (JStr (description form)))].

(** [handleSubmit]: the validation errors of the form, and the state after
    [updateBoard] when there is none. *)
Definition handleSubmit (cuid id : string) (form : formData)
    (boards : list (Board.t * list Task.t)) (s : store)
  : gmap string string * (list (Board.t * list Task.t) * store) :=
  let validationErrors :=
    validation.validateForm (fields form) validation.boardValidationRules in
  if decide (validationErrors = ∅) then
    (∅, useBoards.updateBoard cuid id
          (useBoards.mkUpdate (Some (title form)) (Some (description form)))
          boards s)
  else (validationErrors, (boards, s)).

End EditBoardModal.

(** The form of CreateColumnModal on the board [boardId]: one input, the
    title; [onCreateColumn] is BoardDetail's [handleCreateColumn]. *)
Module CreateColumnModal.

Definition columnValidationRules : list (string * validation.ValidationRule) := [
  ("title", validation.rule true (Some 1%nat) (Some 50%nat) None None)
].

Definition fields (boardId title : string) : gmap string jsval :=
  object [("title", Some (JStr title)); ("boardId", Some (JStr boardId))].

(** [handleSubmit]: the validation errors of the form, and the state after
    [onCreateColumn] when there is none. *)
Definition handleSubmit (cuid boardId title : string)
    (columns : list Column.t) (s : store)
  : gmap string string * (list Column.t * store) :=
  let validationErrors :=
    validation.validateForm (fields boardId title) columnValidationRules in
  if decide (validationErrors = ∅) then
    (∅, handleCreateColumn cuid boardId title columns s)
  else (validationErrors, (columns, s)).

End CreateColumnModal.

(** The form of CreateBoardModal. *)
Module CreateBoardModal.

(** [handleSubmit]: the validation errors of the form, and the state after
    [onCreateBoard] when there is none. *)
Definition handleSubmit (cuid : string) (form : useBoards.CreateBoardData)
    (boards : list (Board.t * list Task.t)) (s : store)
  : gmap string string * (list (Board.t * list Task.t) * store) :=
  let validationErrors :=
    validation.validateForm (useBoards.stringify form)
                            validation.boardValidationRules in
  if decide (validationErrors = ∅) then
    (∅, useBoards.createBoard cuid form boards s)
  else (validationErrors, (boards, s)).

End CreateBoardModal.

(** ** Sample data *)

Definition empty_store : store := mkStore [] [] [].

(** The stores a sequence of requests leads to; each request comes with
    the id generated for the row it may create. *)
Definition run (trace : list (string * request)) (s : store) : store :=
  foldl (fun s cr => (handle cr.1 cr.2 s).2) s trace.

(** The end-to-end scenario: a board, two columns and a task. *)
Definition sprint_requests : list (string * request) := [
  ("b1", POST_api_boards {[ "title" := JStr "Sprint 1" ]});
  ("c1", POST_api_columns
           (<["title" := JStr "In Review"]>
              (<["status" := JStr "IN_REVIEW"]> {[ "boardId" := JStr "b1" ]})));
  ("c2", POST_api_columns
           (<["title" := JStr "QA"]>
              (<["status" := JStr "QA"]> {[ "boardId" := JStr "b1" ]})));
  ("t1", POST_api_tasks
           (<["title" := JStr "Fix bug"]>
              (<["status" := JStr "IN_REVIEW"]> {[ "boardId" := JStr "b1" ]})))
].

Definition sprint : store := Eval vm_compute in run sprint_requests empty_store.

(** A board whose columns have the orders 0 and 3. *)
Definition gapped : store :=
  mkStore [Board.mk "b1" "Sprint 1" None] []
          [Column.mk "c1" "In Review" "IN_REVIEW" 0 "b1";
           Column.mk "c2" "QA" "QA" 3 "b1"].

(** ** Properties of the string primitives *)

Section CaseMappingFacts.
Context {A : Type}.
Variable upper : A -> list A.
Variable space : A -> bool.
Variable r : A.

(** The replacement character is not white space and is its own upper
  case; every character an upper-case mapping produces is its own
  upper case. *)
Hypothesis r_not_space : space r = false.
Hypothesis upper_r : upper r = [r].
Hypothesis upper_stable : forall c d, In d (upper c) -> upper d = [d].

Lemma replace_space_runs_no_space b s :
  Forall (fun c => space c = false) (Js.replace_space_runs space r b s).
Proof.
  revert b; induction s as [|c s IH]; intros b; simpl; [constructor|].
  destruct (space c) eqn:Hc.
  - destruct b; [apply IH|]. constructor; [exact r_not_space|apply IH].
  - constructor; [exact Hc|apply IH].
Qed.

Lemma replace_space_runs_id s :
  Forall (fun c => space c = false) s ->
  Js.replace_space_runs space r false s = s.
Proof.
  induction 1 as [|c s Hc _ IH]; simpl; [reflexivity|].
  rewrite Hc. f_equal. exact IH.
Qed.

Lemma replace_space_runs_In b s d :
  In d (Js.replace_space_runs space r b s) -> d = r \/ In d s.
Proof.
  revert b; induction s as [|c s IH]; intros b; simpl; [tauto|].
  destruct (space c).
  - destruct b; simpl; intros H.
    + destruct (IH _ H); auto.
    + destruct H as [<-|H]; [auto|]. destruct (IH _ H); auto.
  - simpl. intros [<-|H]; [auto|]. destruct (IH _ H); auto.
Qed.

Lemma toUpperCase_chars_fixed s :
  (forall d, In d s -> upper d = [d]) -> Js.toUpperCase_chars upper s = s.
Proof.
  unfold Js.toUpperCase_chars.
  induction s as [|c s IH]; simpl; intros H; [reflexivity|].
  rewrite (H c) by auto. simpl. f_equal. apply IH. auto.
Qed.

Lemma toUpperCase_chars_stable s d :
  In d (Js.toUpperCase_chars upper s) -> upper d = [d].
Proof.
  unfold Js.toUpperCase_chars. rewrite in_flat_map.
  intros (c & _ & Hd). eauto.
Qed.

(** Deriving a key from a derived key changes nothing. *)
Lemma derive_chars_idempotent s :
  let derive t :=
    Js.replace_space_runs space r false (Js.toUpperCase_chars upper t) in
  derive (derive s) = derive s.
Proof.
  intros derive. unfold derive.
  rewrite (toUpperCase_chars_fixed
             (Js.replace_space_runs space r false
                (Js.toUpperCase_chars upper s))).
  - apply replace_space_runs_id, replace_space_runs_no_space.
  - intros d Hd. apply replace_space_runs_In in Hd as [->|Hd];
      [exact upper_r|]. eapply toUpperCase_chars_stable; eauto.
Qed.
End CaseMappingFacts.

(** ** White-space runs *)

Section SpaceRunFacts.
Context {A : Type}.
Variable upper : A -> list A.
Variable space : A -> bool.
Variable r : A.

(** White space has no case mapping, and upper-casing a character that is
    not white space gives at least one character, none of them white
    space. *)
Hypothesis upper_space : forall c, space c = true -> upper c = [c].
Hypothesis upper_not_space :
  forall c, space c = false ->
            upper c <> [] /\ Forall (fun d => space d = false) (upper c).

Local Abbreviation replace := (Js.replace_space_runs space r).
Local Abbreviation derive :=
  (fun t => Js.replace_space_runs space r false (Js.toUpperCase_chars upper t)).

Lemma replace_after_space s :
  (forall c, head s = Some c -> space c = false) ->
  replace true s = replace false s.
Proof.
  destruct s as [|c s]; [reflexivity|]. intros H. simpl.
  now rewrite (H c eq_refl).
Qed.

Lemma replace_spaces_run b g s :
  g <> [] -> Forall (fun c => space c = true) g ->
  replace b (g ++ s) = (if b then [] else [r]) ++ replace true s.
Proof.
  intros Hne Hg. revert b. induction Hg as [|c g Hc Hg IH]; [contradiction|].
  intros b. simpl. rewrite Hc.
  destruct g as [|c' g].
  - destruct b; reflexivity.
  - destruct b; rewrite (IH ltac:(discriminate) true); reflexivity.
Qed.

Lemma replace_before b x s :
  (forall c, last x = Some c -> space c = false) ->
  replace b (x ++ s) =
  replace b x ++ replace (match x with [] => b | _ => false end) s.
Proof.
  revert b. induction x as [|c x IH]; intros b Hlast; [reflexivity|].
  simpl. destruct x as [|c' x].
  - simpl in Hlast. rewrite (Hlast c eq_refl). reflexivity.
  - assert (forall d, last (c' :: x) = Some d -> space d = false) as Hl
      by (intros d Hd; apply Hlast; exact Hd).
    destruct (space c); [destruct b|]; rewrite (IH _ Hl); reflexivity.
Qed.

Lemma toUpperCase_chars_spaces g :
  Forall (fun c => space c = true) g -> Js.toUpperCase_chars upper g = g.
Proof.
  unfold Js.toUpperCase_chars. induction 1 as [|c g Hc _ IH]; [reflexivity|].
  simpl. now rewrite (upper_space c Hc), IH.
Qed.

Lemma toUpperCase_chars_no_space t :
  Forall (fun c => space c = false) t ->
  Forall (fun c => space c = false) (Js.toUpperCase_chars upper t).
Proof.
  unfold Js.toUpperCase_chars. induction 1 as [|c t Hc _ IH]; [constructor|].
  simpl. apply Forall_app. split; [|exact IH].
  now apply upper_not_space.
Qed.

Lemma toUpperCase_chars_last a :
  (forall c, last a = Some c -> space c = false) ->
  forall d, last (Js.toUpperCase_chars upper a) = Some d -> space d = false.
Proof.
  unfold Js.toUpperCase_chars.
  induction a as [|c a IH] using rev_ind; [discriminate|].
  intros Hlast d. rewrite flat_map_app. simpl. rewrite app_nil_r.
  rewrite last_snoc in Hlast. specialize (Hlast c eq_refl).
  destruct (upper_not_space c Hlast) as [Hne Hall].
  destruct (upper c) as [|u us] using rev_ind; [contradiction|].
  rewrite app_assoc, last_snoc. intros [= <-].
  apply Forall_app in Hall as [_ Hall]. now inversion Hall.
Qed.

Lemma toUpperCase_chars_head b :
  (forall c, head b = Some c -> space c = false) ->
  forall d, head (Js.toUpperCase_chars upper b) = Some d -> space d = false.
Proof.
  unfold Js.toUpperCase_chars. destruct b as [|c b]; [discriminate|].
  intros Hhead d. specialize (Hhead c eq_refl). simpl.
  destruct (upper_not_space c Hhead) as [Hne Hall].
  destruct (upper c) as [|u us]; [contradiction|]. simpl.
  intros [= <-]. now inversion Hall.
Qed.

(** Text without white space is upper-cased and nothing else. *)
Lemma derive_no_space t :
  Forall (fun c => space c = false) t ->
  derive t = Js.toUpperCase_chars upper t.
Proof.
  intros H. apply replace_space_runs_id.
  now apply toUpperCase_chars_no_space.
Qed.

(** A maximal run of white space is replaced by one [r], and the texts
    on its two sides are derived on their own. *)
Lemma derive_run a g b :
  (forall c, last a = Some c -> space c = false) ->
  g <> [] -> Forall (fun c => space c = true) g ->
  (forall c, head b = Some c -> space c = false) ->
  derive (a ++ g ++ b) = derive a ++ [r] ++ derive b.
Proof.
  intros Ha Hne Hg Hb. cbv beta. unfold Js.toUpperCase_chars.
  rewrite !flat_map_app. fold (Js.toUpperCase_chars upper a).
  fold (Js.toUpperCase_chars upper g). fold (Js.toUpperCase_chars upper b).
  rewrite (toUpperCase_chars_spaces g Hg).
  rewrite replace_before by (now apply toUpperCase_chars_last).
  f_equal.
  rewrite (replace_spaces_run _ g _ Hne Hg).
  rewrite replace_after_space by (now apply toUpperCase_chars_head).
  now destruct (Js.toUpperCase_chars upper a).
Qed.
End SpaceRunFacts.

(** ** The two instances *)

Lemma upper_ascii_idempotent c : Js.upper_ascii (Js.upper_ascii c) = Js.upper_ascii c.
Proof. destruct c as [[] [] [] [] [] [] [] []]; reflexivity. Qed.

Lemma upper_ascii_not_lower c : Js.is_lower (Js.upper_ascii c) = false.
Proof. destruct c as [[] [] [] [] [] [] [] []]; reflexivity. Qed.

Lemma upper_codepoint_table c :
  Js.upper_codepoint c = [c] \/ (c, Js.upper_codepoint c) ∈ Js.upper_table.
Proof.
  unfold Js.upper_codepoint.
  destruct (List.find _ Js.upper_table) as [[c' u]|] eqn:E; [|now left].
  right. apply find_some in E as [Hin Hc]. simpl in Hc.
  apply N.eqb_eq in Hc. subst c'. now apply list_elem_of_In.
Qed.

Lemma upper_codepoint_None c :
  forallb (fun e => negb (N.eqb e.1 c)) Js.upper_table = true ->
  Js.upper_codepoint c = [c].
Proof.
  intros H. unfold Js.upper_codepoint.
  destruct (List.find _ Js.upper_table) as [e|] eqn:E; [|reflexivity].
  apply find_some in E as [Hin Hc]. rewrite forallb_forall in H.
  apply H in Hin. now rewrite Hc in Hin.
Qed.

(** The table by evaluation: a character it produces is not one it
    changes, it produces no white space and changes none, and no mapping
    is empty. *)
Lemma upper_table_checked :
  forallb (fun e =>
    negb (Js.space_codepoint e.1) &&
    negb (bool_decide (e.2 = [])) &&
    forallb (fun d =>
      negb (Js.space_codepoint d) &&
      forallb (fun e' => negb (N.eqb e'.1 d)) Js.upper_table) e.2)
    Js.upper_table = true.
Proof. vm_compute. reflexivity. Qed.

Lemma upper_table_entry c u :
  (c, u) ∈ Js.upper_table ->
  Js.space_codepoint c = false /\ u <> [] /\
  Forall (fun d => Js.space_codepoint d = false /\ Js.upper_codepoint d = [d]) u.
Proof.
  intros Hin. pose proof upper_table_checked as H.
  rewrite forallb_forall in H. apply list_elem_of_In in Hin.
  specialize (H _ Hin). cbn [fst snd] in H.
  apply andb_true_iff in H as [H Hu]. apply andb_true_iff in H as [Hc Hne].
  apply negb_true_iff in Hc. apply negb_true_iff in Hne.
  apply bool_decide_eq_false in Hne. split; [exact Hc|]. split; [exact Hne|].
  apply Forall_forall. intros d Hd. rewrite forallb_forall in Hu.
  apply list_elem_of_In in Hd.
  specialize (Hu d Hd). apply andb_true_iff in Hu as [Hs Hd'].
  apply negb_true_iff in Hs. split; [exact Hs|].
  now apply upper_codepoint_None.
Qed.

Lemma upper_codepoint_stable c d :
  In d (Js.upper_codepoint c) -> Js.upper_codepoint d = [d].
Proof.
  intros Hd. destruct (upper_codepoint_table c) as [Hc|Hc].
  - rewrite Hc in Hd. destruct Hd as [<-|[]]. exact Hc.
  - apply upper_table_entry in Hc as (_ & _ & Hall).
    rewrite Forall_forall in Hall. apply list_elem_of_In in Hd.
    now apply Hall.
Qed.

Lemma upper_codepoint_space c :
  Js.space_codepoint c = true -> Js.upper_codepoint c = [c].
Proof.
  intros Hs. destruct (upper_codepoint_table c) as [Hc|Hc]; [exact Hc|].
  apply upper_table_entry in Hc as (Hc & _). congruence.
Qed.

Lemma upper_codepoint_not_space c :
  Js.space_codepoint c = false ->
  Js.upper_codepoint c <> [] /\
  Forall (fun d => Js.space_codepoint d = false) (Js.upper_codepoint c).
Proof.
  intros Hs. destruct (upper_codepoint_table c) as [Hc|Hc].
  - rewrite Hc. split; [discriminate|]. now repeat constructor.
  - apply upper_table_entry in Hc as (_ & Hne & Hall).
    split; [exact Hne|]. eapply Forall_impl; [exact Hall|].
    now intros d [Hd _].
Qed.

(** On an ASCII character the two instances are one. *)
Lemma ascii_codepoint c :
  Js.is_ascii c = true ->
  Js.is_ascii (Js.upper_ascii c) = true /\
  Js.upper_codepoint (N_of_ascii c) = [N_of_ascii (Js.upper_ascii c)] /\
  Js.space_codepoint (N_of_ascii c) = Js.is_space c /\
  Js.is_space (Js.upper_ascii c) = Js.is_space c.
Proof.
  destruct c as [[] [] [] [] [] [] [] []]; intros H;
    first [discriminate H | vm_compute; repeat split].
Qed.

Lemma replace_space_runs_map {A B} (f : A -> B) space space' r b (l : list A) :
  Forall (fun c => space' (f c) = space c) l ->
  map f (Js.replace_space_runs space r b l) =
  Js.replace_space_runs space' (f r) b (map f l).
Proof.
  intros H. revert b. induction H as [|c l Hc _ IH]; intros b; [reflexivity|].
  simpl. rewrite Hc. destruct (space c); [destruct b|]; simpl; now rewrite IH.
Qed.

Lemma ascii_text_list l :
  Js.ascii_text (string_of_list_ascii l) <->
  Forall (fun c => Js.is_ascii c = true) l.
Proof. unfold Js.ascii_text. now rewrite list_ascii_of_string_of_list_ascii. Qed.

Lemma toUpperCase_ascii_text s :
  Js.ascii_text s ->
  Js.ascii_text (Js.toUpperCase s) /\
  Js.codepoints (Js.toUpperCase s) = Js.toUpperCase_codepoints (Js.codepoints s).
Proof.
  unfold Js.ascii_text, Js.toUpperCase, Js.codepoints,
         Js.toUpperCase_codepoints, Js.toUpperCase_chars.
  rewrite list_ascii_of_string_of_list_ascii.
  induction 1 as [|c l Hc _ [IH1 IH2]]; [split; [constructor|reflexivity]|].
  destruct (ascii_codepoint c Hc) as (Hu & Hup & _). simpl. split.
  - constructor; [exact Hu|exact IH1].
  - now rewrite Hup, IH2.
Qed.

Lemma trim_ascii_text s :
  Js.ascii_text s ->
  Js.ascii_text (Js.trim s) /\
  Js.codepoints (Js.trim s) = Js.trim_codepoints (Js.codepoints s).
Proof.
  unfold Js.ascii_text, Js.trim, Js.codepoints, Js.trim_codepoints.
  rewrite list_ascii_of_string_of_list_ascii.
  generalize (list_ascii_of_string s). intros l Hl.
  assert (forall m, Forall (fun c => Js.is_ascii c = true) m ->
            Forall (fun c => Js.is_ascii c = true) (Js.ltrim_chars Js.is_space m) /\
            map N_of_ascii (Js.ltrim_chars Js.is_space m) =
            Js.ltrim_chars Js.space_codepoint (map N_of_ascii m)) as Hltrim.
  { induction 1 as [|c m Hc Hm [IH1 IH2]]; [split; [constructor|reflexivity]|].
    destruct (ascii_codepoint c Hc) as (_ & _ & Hsp & _). simpl.
    rewrite Hsp. destruct (Js.is_space c); [now split|].
    split; [now constructor|reflexivity]. }
  unfold Js.trim_chars, Js.rtrim_chars.
  destruct (Hltrim l Hl) as [H1 H2].
  apply Forall_rev in H1.
  destruct (Hltrim _ H1) as [H3 H4]. split.
  - now apply Forall_rev.
  - now rewrite map_rev, H4, map_rev, H2.
Qed.

Lemma deriveStatusKey_ascii_text s :
  Js.ascii_text s ->
  Js.ascii_text (deriveStatusKey s) /\
  Js.codepoints (deriveStatusKey s) =
    deriveStatusKey_codepoints (Js.codepoints s).
Proof.
  intros Hs. destruct (toUpperCase_ascii_text s Hs) as [Hu Hcp].
  unfold deriveStatusKey, deriveStatusKey_codepoints, Js.replace_spaces.
  rewrite <- Hcp. unfold Js.ascii_text, Js.codepoints in *.
  rewrite list_ascii_of_string_of_list_ascii.
  generalize dependent (list_ascii_of_string (Js.toUpperCase s)).
  intros l Hl _. split.
  - apply Forall_forall. intros c Hc. apply list_elem_of_In in Hc.
    apply (replace_space_runs_In Js.is_space "_"%char) in Hc as [->|Hc];
      [reflexivity|].
    rewrite Forall_forall in Hl. apply Hl. now apply list_elem_of_In.
  - apply (replace_space_runs_map N_of_ascii Js.is_space Js.space_codepoint
             "_"%char false l).
    eapply Forall_impl; [exact Hl|]. intros c Hc.
    now destruct (ascii_codepoint c Hc) as (_ & _ & Hsp & _).
Qed.

(** C2.  [deriveStatusKey] upper-cases its input and replaces every run
    of white space by one underscore, and it is idempotent on every
    string.  Over code points, with JavaScript's case mapping and white
    space: a text without white space is upper-cased character by
    character and nothing else (a to z give A to Z, and U+00DF gives SS); a
    maximal run of white space between two texts gives one underscore
    between their keys; a key holds no white space and no character that
    upper-casing changes; deriving a key from a key changes nothing.  On
    ASCII text, which is what the handlers hold, the key is the same:
    "In Review" gives "IN_REVIEW", "code   review" gives "CODE_REVIEW". *)
Theorem deriveStatusKey_idempotent :
  deriveStatusKey "In Review" = "IN_REVIEW" /\
  deriveStatusKey "code   review" = "CODE_REVIEW" /\
  deriveStatusKey_codepoints [233; 32; 160; 223]%N = [201; 95; 83; 83]%N /\
  (forall t,
     Forall (fun c => Js.space_codepoint c = false) t ->
     deriveStatusKey_codepoints t = flat_map Js.upper_codepoint t) /\
  (forall c,
     (c < 128)%N ->
     Js.upper_codepoint c =
       [if (97 <=? c)%N && (c <=? 122)%N then (c - 32)%N else c]) /\
  (forall a g b,
     (forall c, last a = Some c -> Js.space_codepoint c = false) ->
     g <> [] -> Forall (fun c => Js.space_codepoint c = true) g ->
     (forall c, head b = Some c -> Js.space_codepoint c = false) ->
     deriveStatusKey_codepoints (a ++ g ++ b) =
       deriveStatusKey_codepoints a ++ [95%N] ++ deriveStatusKey_codepoints b) /\
  (forall t c,
     In c (deriveStatusKey_codepoints t) ->
     Js.space_codepoint c = false /\ Js.upper_codepoint c = [c]) /\
  (forall t,
     deriveStatusKey_codepoints (deriveStatusKey_codepoints t) =
       deriveStatusKey_codepoints t) /\
  (forall s,
     Js.ascii_text s ->
     Js.ascii_text (deriveStatusKey s) /\
     Js.codepoints (deriveStatusKey s) =
       deriveStatusKey_codepoints (Js.codepoints s) /\
     deriveStatusKey (deriveStatusKey s) = deriveStatusKey s).
Proof.
  split; [reflexivity|]. split; [reflexivity|].
  split; [vm_compute; reflexivity|].
  unfold deriveStatusKey_codepoints, Js.toUpperCase_codepoints.
  split; [|split; [|split; [|split; [|split]]]].
  - intros t Ht.
    apply (derive_no_space Js.upper_codepoint Js.space_codepoint 95%N
             upper_codepoint_not_space t Ht).
  - intros c Hc.
    assert (exists k, (k < 128)%nat /\ c = N.of_nat k) as (k & Hk & ->)
      by (exists (N.to_nat c); split; [lia|now rewrite N2Nat.id]).
    do 128 (destruct k as [|k]; [vm_compute; reflexivity|]). lia.
  - intros a g b.
    apply (derive_run Js.upper_codepoint Js.space_codepoint 95%N
             upper_codepoint_space upper_codepoint_not_space).
  - intros t c Hc. split.
    + pose proof (replace_space_runs_no_space Js.space_codepoint 95%N eq_refl
                    false (Js.toUpperCase_chars Js.upper_codepoint t)) as Hall.
      rewrite Forall_forall in Hall. apply Hall. now apply list_elem_of_In.
    + apply replace_space_runs_In in Hc as [->|Hc];
        [vm_compute; reflexivity|].
      eapply (toUpperCase_chars_stable Js.upper_codepoint);
        [exact upper_codepoint_stable|exact Hc].
  - intros t.
    apply (derive_chars_idempotent Js.upper_codepoint Js.space_codepoint 95%N).
    + reflexivity.
    + vm_compute. reflexivity.
    + exact upper_codepoint_stable.
  - intros s Hs. destruct (deriveStatusKey_ascii_text s Hs) as [Ha Hcp].
    split; [exact Ha|]. split; [exact Hcp|].
    unfold deriveStatusKey, Js.replace_spaces, Js.toUpperCase.
    rewrite !list_ascii_of_string_of_list_ascii. f_equal.
    apply (derive_chars_idempotent (fun c => [Js.upper_ascii c]) Js.is_space
             "_"%char).
    + reflexivity.
    + reflexivity.
    + intros c d [<-|[]]. now rewrite upper_ascii_idempotent.
Qed.

(** ** Properties of [orderBy] *)


Section OrderByFacts.
Context {A : Type}.
Variable key : A -> Z.
Variable descending : bool.

Let sorted_by : A -> A -> Prop :=
  fun x y => Prisma.before key descending x y = true.

Lemma before_total x y :
  Prisma.before key descending x y = false ->
  Prisma.before key descending y x = true.
Proof.
  unfold Prisma.before. destruct descending;
    rewrite bool_decide_eq_false, bool_decide_eq_true; lia.
Qed.

Lemma before_trans x y z :
  sorted_by x y -> sorted_by y z -> sorted_by x z.
Proof.
  unfold sorted_by, Prisma.before. destruct descending;
    rewrite !bool_decide_eq_true; lia.
Qed.

Lemma insert_sorted_perm x l :
  Prisma.insert_sorted key descending x l ≡ₚ x :: l.
Proof.
  induction l as [|y l IH]; simpl; [reflexivity|].
  destruct (Prisma.before key descending x y); [reflexivity|].
  rewrite IH. apply Permutation_swap.
Qed.

Lemma orderBy_perm l : Prisma.orderBy key descending l ≡ₚ l.
Proof.
  induction l as [|x l IH]; simpl; [reflexivity|].
  rewrite insert_sorted_perm. now rewrite IH.
Qed.

Lemma insert_sorted_strongly x l :
  StronglySorted sorted_by l ->
  StronglySorted sorted_by (Prisma.insert_sorted key descending x l).
Proof.
  induction 1 as [|y l Hl IH Hy]; simpl.
  - repeat constructor.
  - destruct (Prisma.before key descending x y) eqn:Hxy.
    + constructor; [constructor; assumption|].
      constructor; [exact Hxy|].
      eapply Forall_impl; [exact Hy|]. intros z Hz.
      eapply before_trans; [exact Hxy|exact Hz].
    + constructor; [exact IH|].
      rewrite insert_sorted_perm. constructor; [|exact Hy].
      now apply before_total.
Qed.

Lemma orderBy_strongly l :
  StronglySorted sorted_by (Prisma.orderBy key descending l).
Proof.
  induction l as [|x l IH]; simpl; [constructor|].
  now apply insert_sorted_strongly.
Qed.

(** The first row of an ordering is a row of the table that comes before
    every other. *)
Lemma orderBy_head l x :
  head (Prisma.orderBy key descending l) = Some x ->
  x ∈ l /\ forall y, y ∈ l -> sorted_by x y.
Proof.
  intros Hhead.
  pose proof (orderBy_strongly l) as Hs. pose proof (orderBy_perm l) as Hp.
  destruct (Prisma.orderBy key descending l) as [|x' l'] eqn:E; [discriminate|].
  injection Hhead as ->. split.
  - rewrite <- Hp. left.
  - intros y Hy. rewrite <- Hp in Hy.
    apply StronglySorted_inv in Hs as [_ Hall].
    apply elem_of_cons in Hy as [->|Hy].
    + unfold sorted_by, Prisma.before. destruct descending;
        rewrite bool_decide_eq_true; lia.
    + rewrite Forall_forall in Hall. now apply Hall.
Qed.

Lemma orderBy_head_None l :
  head (Prisma.orderBy key descending l) = None -> l = [].
Proof.
  intros Hhead. pose proof (orderBy_perm l) as Hp.
  destruct (Prisma.orderBy key descending l); [|discriminate].
  symmetry in Hp. now apply Permutation_nil_r in Hp.
Qed.
End OrderByFacts.

(** ** The rendered column set *)

Lemma effectiveColumns_statuses columns tasks :
  map TaskColumn.status (effectiveColumns columns tasks) = allStatuses columns.
Proof.
  unfold effectiveColumns. rewrite map_map. apply map_id.
Qed.

Lemma effectiveColumns_elem p columns tasks :
  p ∈ effectiveColumns columns tasks ->
  TaskColumn.title p =
    Js.or_else (from_option Column.title "" (findColumn columns (TaskColumn.status p)))
               (TaskColumn.status p) /\
  TaskColumn.isStatic p = isStatic (TaskColumn.status p) /\
  TaskColumn.onDeleteColumn p =
    (if isStatic (TaskColumn.status p) then None
     else Some (Js.or_else
                  (from_option Column.id "" (findColumn columns (TaskColumn.status p))) "")).
Proof.
  unfold effectiveColumns. rewrite list_elem_of_fmap.
  intros (status & -> & _). simpl. auto.
Qed.

Lemma fetchColumns_eq s boardId :
  fetchColumns s boardId =
  Prisma.orderBy Column.order false
    (filter (fun c => Column.boardId c = boardId) (columns s)).
Proof.
  unfold fetchColumns, GET_board_columns, Prisma.column.findMany. simpl.
  f_equal. apply list_filter_iff. intros c. unfold Prisma.where_eq.
  now rewrite bool_decide_spec.
Qed.



(** C7.  [isDeletable] is false for TODO, IN_PROGRESS and DONE and for no
    other status (CODE_REVIEW is deletable); a rendered column has a delete
    button exactly when its status is deletable, and a column of a static
    status receives no delete callback; after any column-delete request the
    three static statuses are still rendered, without a delete button. *)
Theorem isDeletable_static_statuses :
  isDeletable "TODO" = false /\
  isDeletable "IN_PROGRESS" = false /\
  isDeletable "DONE" = false /\
  isDeletable "CODE_REVIEW" = true /\
  (forall status,
     isDeletable status = false <-> status ∈ ["TODO"; "IN_PROGRESS"; "DONE"]) /\
  (forall columns tasks p,
     p ∈ effectiveColumns columns tasks ->
     (isDeletable (TaskColumn.status p) = false ->
      TaskColumn.onDeleteColumn p = None) /\
     TaskColumn.hasDeleteButton p = isDeletable (TaskColumn.status p)) /\
  (forall cuid id s boardId tasks,
     let s' := (handle cuid (DELETE_api_columns_id id) s).2 in
     let rendered := take 3 (effectiveColumns (fetchColumns s' boardId) tasks) in
     map TaskColumn.status rendered = ["TODO"; "IN_PROGRESS"; "DONE"] /\
     Forall (fun p => TaskColumn.hasDeleteButton p = false) rendered).
Proof.
  repeat (split; [reflexivity|]). split; [|split].
  - intros status. unfold isDeletable, isStatic, staticStatuses.
    rewrite negb_false_iff, bool_decide_eq_true. reflexivity.
  - intros columns tasks p Hp.
    apply effectiveColumns_elem in Hp as (_ & Hstatic & Hdel).
    unfold isDeletable, TaskColumn.hasDeleteButton.
    rewrite Hstatic, Hdel. destruct (isStatic (TaskColumn.status p)); simpl.
    + split; reflexivity.
    + split; [discriminate|reflexivity].
  - intros cuid id s boardId tasks s' rendered. unfold rendered.
    generalize (fetchColumns s' boardId). intros columns.
    split; [reflexivity|]. repeat constructor.
Qed.

(** ** Properties of validation *)

Lemma flat_map_ext_elem {A B} (f g : A -> list B) l :
  (forall x, In x l -> f x = g x) -> flat_map f l = flat_map g l.
Proof.
  induction l as [|x l IH]; simpl; intros H; [reflexivity|].
  rewrite (H x) by auto. f_equal. apply IH. auto.
Qed.

Lemma run_lookup c (req : gmap string jsval) :
  match (Validator.run c (req !! field c)).1 with
  | Some x => <[field c := x]> req
  | None => req
  end !! field c = (Validator.run c (req !! field c)).1.
Proof.
  destruct (Validator.run c (req !! field c)).1 as [x|] eqn:E.
  - apply lookup_insert_eq.
  - unfold Validator.run in E.
    destruct (req !! field c) as [v|] eqn:Ev; [|reflexivity].
    destruct (optional c), (Validator.trim c); discriminate.
Qed.

Lemma run_lookup_ne c (req : gmap string jsval) f :
  field c <> f ->
  match (Validator.run c (req !! field c)).1 with
  | Some x => <[field c := x]> req
  | None => req
  end !! f = req !! f.
Proof.
  intros Hne. destruct (Validator.run c (req !! field c)).1; [|reflexivity].
  now apply lookup_insert_ne.
Qed.

(** Chains on distinct fields do not interact: each one reads and rewrites
    the field of the original body. *)
Lemma validate_spec chains (req : gmap string jsval) :
  NoDup (map field chains) ->
  (validate chains req).2 =
    flat_map (fun c => (Validator.run c (req !! field c)).2) chains /\
  forall f,
    (validate chains req).1 !! f =
      match List.find (fun c => bool_decide (field c = f)) chains with
      | Some c => (Validator.run c (req !! f)).1
      | None => req !! f
      end.
Proof.
  revert req. induction chains as [|c chains IH]; intros req Hnd; simpl.
  - split; [reflexivity|]. intros f. reflexivity.
  - apply NoDup_cons in Hnd as [Hc Hnd].
    pose proof (run_lookup c req) as Hsame.
    pose proof (run_lookup_ne c req) as Hother.
    destruct (Validator.run c (req !! field c)) as [v errs] eqn:Erun.
    simpl in Hsame, Hother.
    set (req' := match v with Some x => <[field c := x]> req | None => req end) in *.
    destruct (IH req' Hnd) as [IHerrs IHlook].
    destruct (validate chains req') as [req'' errs'] eqn:Eval.
    simpl in *. split.
    + rewrite IHerrs. f_equal. apply flat_map_ext_elem. intros c' Hc'.
      rewrite Hother; [reflexivity|].
      intros Heq. apply Hc. rewrite Heq. apply list_elem_of_In in Hc'.
      now apply list_elem_of_fmap_2.
    + intros f. rewrite IHlook.
      destruct (bool_decide (field c = f)) eqn:Ef.
      * apply bool_decide_eq_true in Ef. subst f.
        destruct (List.find _ chains) as [c'|] eqn:Efind.
        -- exfalso. apply find_some in Efind as [Hin Heq].
           apply bool_decide_eq_true in Heq. apply Hc. rewrite <- Heq.
           apply list_elem_of_In in Hin. now apply list_elem_of_fmap_2.
        -- rewrite Hsame, Erun. reflexivity.
      * apply bool_decide_eq_false in Ef. rewrite (Hother f Ef).
        reflexivity.
Qed.

Lemma object_lookup_cons k v l k' :
  object ((k, v) :: l) !! k' =
  if decide (k = k') then
    match v with Some x => Some x | None => object l !! k' end
  else object l !! k'.
Proof.
  unfold object. simpl. destruct v as [x|]; destruct (decide (k = k')) as [->|Hne];
    try reflexivity.
  - apply lookup_insert_eq.
  - now apply lookup_insert_ne.
Qed.

Lemma object_lookup_nil k : object [] !! k = None.
Proof. apply lookup_empty. Qed.

(** ** Tables with a primary key *)

Section Tables.
Context {R : Type}.
Variable key : R -> string.

Local Abbreviation find_key id l :=
  (List.find (fun x => bool_decide (key x = id)) l).
Local Abbreviation replace_key id r l :=
  (map (fun x => if bool_decide (key x = id) then r else x) l).

Lemma find_key_Some id l x :
  find_key id l = Some x -> x ∈ l /\ key x = id.
Proof.
  intros H. apply find_some in H as [Hin Hkey].
  apply bool_decide_eq_true in Hkey. now rewrite list_elem_of_In.
Qed.

Lemma find_key_is_Some id l :
  is_Some (find_key id l) <-> id ∈ map key l.
Proof.
  induction l as [|y l IH]; simpl.
  - split; [intros [? ?]; discriminate|]. intros H. inversion H.
  - destruct (bool_decide (key y = id)) eqn:E.
    + apply bool_decide_eq_true in E. split; [|eauto].
      intros _. rewrite <- E. left.
    + apply bool_decide_eq_false in E. rewrite IH, elem_of_cons.
      split; [auto|]. intros [Heq|H]; [congruence|exact H].
Qed.

Lemma find_key_None id l :
  find_key id l = None <-> id ∉ map key l.
Proof.
  rewrite <- find_key_is_Some, <- eq_None_not_Some. reflexivity.
Qed.

Lemma find_key_NoDup l x :
  NoDup (map key l) -> x ∈ l -> find_key (key x) l = Some x.
Proof.
  induction l as [|y l IH]; simpl; intros Hnd Hin; [inversion Hin|].
  apply NoDup_cons in Hnd as [Hy Hnd].
  apply elem_of_cons in Hin as [->|Hin].
  - now rewrite bool_decide_eq_true_2.
  - rewrite bool_decide_eq_false_2; [now apply IH|].
    intros Heq. apply Hy. rewrite Heq. now apply list_elem_of_fmap_2.
Qed.

Lemma NoDup_keys_snoc l x :
  NoDup (map key l) -> find_key (key x) l = None ->
  NoDup (map key (l ++ [x])).
Proof.
  intros Hnd Hnone. apply find_key_None in Hnone.
  rewrite map_app. simpl. apply NoDup_app. split; [exact Hnd|]. split.
  - intros k Hk Hk'. apply list_elem_of_singleton in Hk'. now subst k.
  - apply NoDup_singleton.
Qed.

Lemma replace_key_keys id r l :
  key r = id -> map key (replace_key id r l) = map key l.
Proof.
  intros Hr. rewrite map_map. apply map_ext. intros x.
  destruct (bool_decide (key x = id)) eqn:E; [|reflexivity].
  apply bool_decide_eq_true in E. congruence.
Qed.

Lemma replace_key_elem id r l x :
  x ∈ replace_key id r l -> x = r \/ x ∈ l.
Proof.
  rewrite list_elem_of_fmap. intros (y & -> & Hy).
  destruct (bool_decide (key y = id)); auto.
Qed.

Lemma find_key_replace id r l x :
  key r = id -> find_key id l = Some x ->
  find_key id (replace_key id r l) = Some r.
Proof.
  intros Hr. induction l as [|y l IH]; simpl; [discriminate|].
  destruct (bool_decide (key y = id)) eqn:E.
  - intros _. now rewrite bool_decide_eq_true_2.
  - rewrite E. exact IH.
Qed.

Lemma NoDup_keys_filter (P : R -> Prop) `{!forall x, Decision (P x)} l :
  NoDup (map key l) -> NoDup (map key (filter P l)).
Proof.
  induction l as [|y l IH]; simpl; intros Hnd; [constructor|].
  apply NoDup_cons in Hnd as [Hy Hnd]. rewrite filter_cons.
  destruct (decide (P y)); [|now apply IH].
  simpl. apply NoDup_cons. split; [|now apply IH].
  intros Hin. apply Hy. apply list_elem_of_fmap in Hin as (z & -> & Hz).
  apply list_elem_of_filter in Hz as [_ Hz]. now apply list_elem_of_fmap_2.
Qed.

(** With unique keys, a row that a filter drops cannot be found again under
    its key. *)
Lemma find_key_filtered (P : R -> Prop) `{!forall x, Decision (P x)} l x :
  NoDup (map key l) -> x ∈ l -> ~ P x ->
  find_key (key x) (filter P l) = None.
Proof.
  intros Hnd Hin HP. apply find_key_None. intros Hk.
  apply list_elem_of_fmap in Hk as (z & Hkz & Hz).
  apply list_elem_of_filter in Hz as [HPz Hz].
  assert (Some z = Some x) as [= ->]; [|contradiction].
  rewrite <- (find_key_NoDup l z Hnd Hz), <- Hkz. now apply find_key_NoDup.
Qed.

Lemma find_key_filter_ne id l :
  find_key id (filter (fun x => key x <> id) l) = None.
Proof.
  apply find_key_None. intros Hk.
  apply list_elem_of_fmap in Hk as (z & -> & Hz).
  apply list_elem_of_filter in Hz as [HPz _]. now apply HPz.
Qed.
End Tables.

(** ** The store invariants under the queries *)

Ltac prisma_inv H :=
  repeat match type of H with
         | Prisma.bind ?r _ = inr _ =>
             let E := fresh "E" in
             destruct r eqn:E; simpl in H; [discriminate H|]
         | match ?o with Some _ => _ | None => _ end = inr _ =>
             let E := fresh "E" in destruct o eqn:E; try discriminate H
         end.

Lemma no_orphans_iff s :
  no_orphans s <->
  (forall t, t ∈ tasks s -> Task.boardId t ∈ map Board.id (boards s)) /\
  (forall c, c ∈ columns s -> Column.boardId c ∈ map Board.id (boards s)).
Proof.
  unfold no_orphans. rewrite !Forall_forall.
  unfold Prisma.board.findUnique.
  split; intros [Ht Hc]; split; intros x Hx.
  - now apply (find_key_is_Some Board.id), Ht.
  - now apply (find_key_is_Some Board.id), Hc.
  - now apply (find_key_is_Some Board.id), Ht.
  - now apply (find_key_is_Some Board.id), Hc.
Qed.

Lemma board_row_id data b b' :
  Prisma.board.row data b = inr b' -> Board.id b' = Board.id b.
Proof.
  unfold Prisma.board.row. intros H. prisma_inv H. now inversion H.
Qed.

Lemma task_row_id data t t' :
  Prisma.task.row data t = inr t' -> Task.id t' = Task.id t.
Proof.
  unfold Prisma.task.row. intros H. prisma_inv H. now inversion H.
Qed.

Lemma task_row_boardId data t t' :
  Prisma.task.row data t = inr t' -> data !! "boardId" = None ->
  Task.boardId t' = Task.boardId t.
Proof.
  unfold Prisma.task.row. intros H Hb. prisma_inv H. inversion H; subst.
  rewrite Hb in *. simpl in *. congruence.
Qed.

Lemma column_row_id data c c' :
  Prisma.column.row data c = inr c' -> Column.id c' = Column.id c.
Proof.
  unfold Prisma.column.row. intros H. prisma_inv H. now inversion H.
Qed.

Lemma column_row_boardId data c c' :
  Prisma.column.row data c = inr c' -> data !! "boardId" = None ->
  Column.boardId c' = Column.boardId c.
Proof.
  unfold Prisma.column.row. intros H Hb. prisma_inv H. inversion H; subst.
  rewrite Hb in *. simpl in *. congruence.
Qed.

(** A written foreign key has a target; an unwritten one keeps the value
    of a row of the table. *)
Lemma references_inv s written boardId (old : string) :
  Prisma.references s written boardId = inr () ->
  (written = None -> boardId = old) ->
  old ∈ map Board.id (boards s) ->
  boardId ∈ map Board.id (boards s).
Proof.
  unfold Prisma.references. intros H Hkeep Hold.
  destruct written as [v|]; [|now rewrite Hkeep].
  destruct (Prisma.board.findUnique s boardId) eqn:E; [|discriminate].
  apply (find_key_is_Some Board.id). unfold Prisma.board.findUnique in E.
  rewrite E. eauto.
Qed.

Lemma references_written s v boardId :
  Prisma.references s (Some v) boardId = inr () ->
  boardId ∈ map Board.id (boards s).
Proof.
  unfold Prisma.references. intros H.
  destruct (Prisma.board.findUnique s boardId) eqn:E; [|discriminate].
  apply (find_key_is_Some Board.id). unfold Prisma.board.findUnique in E.
  rewrite E. eauto.
Qed.

Lemma board_create_consistent cuid data s b s' :
  consistent s -> Prisma.board.create cuid data s = inr (b, s') ->
  consistent s'.
Proof.
  intros [(Hb & Ht & Hc) Ho] H. unfold Prisma.board.create in H.
  prisma_inv H. inversion H; subst; clear H. apply board_row_id in E0.
  simpl in E0. split.
  - split; [|split]; simpl; try assumption.
    apply NoDup_keys_snoc; [assumption|]. now rewrite E0.
  - apply no_orphans_iff in Ho as [Hot Hoc]. apply no_orphans_iff. simpl.
    split; intros x Hx; rewrite map_app, elem_of_app; left; auto.
Qed.

Lemma board_update_consistent id data s b s' :
  consistent s -> Prisma.board.update id data s = inr (b, s') ->
  consistent s'.
Proof.
  intros [(Hb & Ht & Hc) Ho] H. unfold Prisma.board.update in H.
  prisma_inv H. inversion H; subst; clear H.
  apply board_row_id in E1.
  apply (find_key_Some Board.id) in E0 as [_ Hid]. rewrite Hid in E1.
  split.
  - split; [|split]; simpl; try assumption.
    now rewrite (replace_key_keys Board.id).
  - apply no_orphans_iff in Ho as [Hot Hoc]. apply no_orphans_iff. simpl.
    rewrite (replace_key_keys Board.id) by assumption. now split.
Qed.

Lemma board_delete_consistent id s b s' :
  consistent s -> Prisma.board.delete id s = inr (b, s') ->
  consistent s'.
Proof.
  intros [(Hb & Ht & Hc) Ho] H. unfold Prisma.board.delete in H.
  prisma_inv H. inversion H; subst; clear H. split.
  - split; [|split]; simpl; now apply NoDup_keys_filter.
  - apply no_orphans_iff in Ho as [Hot Hoc]. apply no_orphans_iff. simpl.
    split; intros x Hx; apply list_elem_of_filter in Hx as [Hne Hx].
    + apply Hot in Hx. apply list_elem_of_fmap in Hx as (y & Hy & Hin).
      rewrite Hy. apply list_elem_of_fmap_2, list_elem_of_filter.
      split; [congruence|assumption].
    + apply Hoc in Hx. apply list_elem_of_fmap in Hx as (y & Hy & Hin).
      rewrite Hy. apply list_elem_of_fmap_2, list_elem_of_filter.
      split; [congruence|assumption].
Qed.

Lemma task_create_inv cuid data s t s' :
  Prisma.task.create cuid data s = inr (t, s') ->
  Prisma.task.row data (Task.mk cuid "" None "TODO" MEDIUM "") = inr t /\
  Prisma.task.findUnique s cuid = None /\
  Task.boardId t ∈ map Board.id (boards s) /\
  s' = mkStore (boards s) (tasks s ++ [t]) (columns s).
Proof.
  unfold Prisma.task.create. intros H. prisma_inv H.
  inversion H; subst; clear H.
  destruct (data !! "boardId") as [v|] eqn:Eb; [|discriminate].
  destruct u. apply references_written in E3. auto.
Qed.

Lemma task_create_consistent cuid data s t s' :
  consistent s -> Prisma.task.create cuid data s = inr (t, s') ->
  consistent s'.
Proof.
  intros [(Hb & Ht & Hc) Ho] H.
  apply task_create_inv in H as (Hrow & Hfresh & Hboard & ->).
  apply task_row_id in Hrow. simpl in Hrow. split.
  - split; [|split]; simpl; try assumption.
    apply NoDup_keys_snoc; [assumption|]. now rewrite Hrow.
  - apply no_orphans_iff in Ho as [Hot Hoc]. apply no_orphans_iff. simpl.
    split; [|assumption]. intros x Hx.
    apply elem_of_app in Hx as [Hx|Hx]; [auto|].
    apply list_elem_of_singleton in Hx. now subst x.
Qed.

Lemma task_update_inv id data s t' s' :
  Prisma.task.update id data s = inr (t', s') ->
  exists t,
    Prisma.task.findUnique s id = Some t /\
    Prisma.task.row data t = inr t' /\
    Prisma.references s (data !! "boardId") (Task.boardId t') = inr () /\
    s' = mkStore (boards s)
           (map (fun x => if bool_decide (Task.id x = id) then t' else x) (tasks s))
           (columns s).
Proof.
  unfold Prisma.task.update. intros H. prisma_inv H.
  inversion H; subst; clear H. destruct u. eauto.
Qed.

Lemma task_update_consistent id data s t s' :
  consistent s -> Prisma.task.update id data s = inr (t, s') ->
  consistent s'.
Proof.
  intros [(Hb & Ht & Hc) Ho] H.
  apply task_update_inv in H as (t0 & Hfind & Hrow & Href & ->).
  apply (find_key_Some Task.id) in Hfind as [Hin Hid].
  pose proof (task_row_id _ _ _ Hrow) as Hid'. rewrite Hid in Hid'.
  split.
  - split; [|split]; simpl; try assumption.
    now rewrite (replace_key_keys Task.id).
  - apply no_orphans_iff in Ho as [Hot Hoc]. apply no_orphans_iff. simpl.
    split; [|assumption]. intros x Hx.
    apply (replace_key_elem Task.id) in Hx as [->|Hx]; [|auto].
    eapply references_inv; [exact Href| |apply (Hot t0 Hin)].
    intros Hnone. eapply task_row_boardId; eassumption.
Qed.

Lemma task_delete_consistent id s t s' :
  consistent s -> Prisma.task.delete id s = inr (t, s') ->
  consistent s'.
Proof.
  intros [(Hb & Ht & Hc) Ho] H. unfold Prisma.task.delete in H.
  prisma_inv H. inversion H; subst; clear H. split.
  - split; [|split]; simpl; try assumption. now apply NoDup_keys_filter.
  - apply no_orphans_iff in Ho as [Hot Hoc]. apply no_orphans_iff. simpl.
    split; [|assumption]. intros x Hx.
    apply list_elem_of_filter in Hx as [_ Hx]. auto.
Qed.

Lemma column_create_inv cuid data s c s' :
  Prisma.column.create cuid data s = inr (c, s') ->
  Prisma.column.row data (Column.mk cuid "" "" 0 "") = inr c /\
  Prisma.column.findUnique s cuid = None /\
  Column.boardId c ∈ map Board.id (boards s) /\
  s' = mkStore (boards s) (tasks s) (columns s ++ [c]).
Proof.
  unfold Prisma.column.create. intros H. prisma_inv H.
  inversion H; subst; clear H.
  destruct (data !! "boardId") as [v|] eqn:Eb; [|discriminate].
  destruct u. apply references_written in E4. auto.
Qed.

Lemma column_create_consistent cuid data s c s' :
  consistent s -> Prisma.column.create cuid data s = inr (c, s') ->
  consistent s'.
Proof.
  intros [(Hb & Ht & Hc) Ho] H.
  apply column_create_inv in H as (Hrow & Hfresh & Hboard & ->).
  apply column_row_id in Hrow. simpl in Hrow. split.
  - split; [|split]; simpl; try assumption.
    apply NoDup_keys_snoc; [assumption|]. now rewrite Hrow.
  - apply no_orphans_iff in Ho as [Hot Hoc]. apply no_orphans_iff. simpl.
    split; [assumption|]. intros x Hx.
    apply elem_of_app in Hx as [Hx|Hx]; [auto|].
    apply list_elem_of_singleton in Hx. now subst x.
Qed.

Lemma column_update_inv id data s c' s' :
  Prisma.column.update id data s = inr (c', s') ->
  exists c,
    Prisma.column.findUnique s id = Some c /\
    Prisma.column.row data c = inr c' /\
    Prisma.references s (data !! "boardId") (Column.boardId c') = inr () /\
    s' = mkStore (boards s) (tasks s)
           (map (fun x => if bool_decide (Column.id x = id) then c' else x)
                (columns s)).
Proof.
  unfold Prisma.column.update. intros H. prisma_inv H.
  inversion H; subst; clear H. destruct u. eauto.
Qed.

Lemma column_update_consistent id data s c s' :
  consistent s -> Prisma.column.update id data s = inr (c, s') ->
  consistent s'.
Proof.
  intros [(Hb & Ht & Hc) Ho] H.
  apply column_update_inv in H as (c0 & Hfind & Hrow & Href & ->).
  apply (find_key_Some Column.id) in Hfind as [Hin Hid].
  pose proof (column_row_id _ _ _ Hrow) as Hid'. rewrite Hid in Hid'.
  split.
  - split; [|split]; simpl; try assumption.
    now rewrite (replace_key_keys Column.id).
  - apply no_orphans_iff in Ho as [Hot Hoc]. apply no_orphans_iff. simpl.
    split; [assumption|]. intros x Hx.
    apply (replace_key_elem Column.id) in Hx as [->|Hx]; [|auto].
    eapply references_inv; [exact Href| |apply (Hoc c0 Hin)].
    intros Hnone. eapply column_row_boardId; eassumption.
Qed.

Lemma column_delete_consistent id s c s' :
  consistent s -> Prisma.column.delete id s = inr (c, s') ->
  consistent s'.
Proof.
  intros [(Hb & Ht & Hc) Ho] H. unfold Prisma.column.delete in H.
  prisma_inv H. inversion H; subst; clear H. split.
  - split; [|split]; simpl; try assumption. now apply NoDup_keys_filter.
  - apply no_orphans_iff in Ho as [Hot Hoc]. apply no_orphans_iff. simpl.
    split; [assumption|]. intros x Hx.
    apply list_elem_of_filter in Hx as [_ Hx]. auto.
Qed.

(** ** The store invariants under the handlers *)

Lemma validated_consistent chains req handler s :
  (forall req', consistent (handler req' s).2) ->
  consistent s -> consistent (validated chains req handler s).2.
Proof.
  intros Hh Hs. unfold validated.
  destruct (validate chains req) as [req' [|e errs]]; simpl; auto.
Qed.

Lemma handle_consistent cuid r s :
  consistent s -> consistent (handle cuid r s).2.
Proof.
  intros Hs.
  destruct r; simpl;
    unfold POST_boards, PUT_board, POST_tasks, PUT_task, POST_columns, PUT_column;
    try (apply validated_consistent; [|exact Hs]; intros req'; cbv beta zeta).
  - exact Hs.
  - unfold GET_board. now destruct (Prisma.board.findUnique s id).
  - destruct (Prisma.board.create _ _ s) as [e|[b s']] eqn:E; simpl;
      [exact Hs|]. eapply board_create_consistent; eassumption.
  - destruct (Prisma.board.update _ _ s) as [e|[b s']] eqn:E; simpl;
      [exact Hs|]. eapply board_update_consistent; eassumption.
  - unfold DELETE_board.
    destruct (Prisma.board.delete id s) as [e|[b s']] eqn:E; simpl;
      [exact Hs|]. eapply board_delete_consistent; eassumption.
  - exact Hs.
  - unfold GET_task. now destruct (Prisma.task.findUnique s id).
  - destruct (findBoard s _) as [e|[board|]]; simpl; try exact Hs.
    destruct (Prisma.task.create _ _ s) as [e|[t s']] eqn:E; simpl;
      [exact Hs|]. eapply task_create_consistent; eassumption.
  - destruct (Prisma.task.update _ _ s) as [e|[t s']] eqn:E; simpl;
      [exact Hs|]. eapply task_update_consistent; eassumption.
  - unfold DELETE_task.
    destruct (Prisma.task.delete id s) as [e|[t s']] eqn:E; simpl;
      [exact Hs|]. eapply task_delete_consistent; eassumption.
  - exact Hs.
  - exact Hs.
  - unfold GET_column. now destruct (Prisma.column.findUnique s id).
  - destruct (findBoard s _) as [e|[board|]]; simpl; try exact Hs.
    destruct (findLastColumn s _) as [e|lastColumn]; simpl; try exact Hs.
    destruct (Prisma.column.create _ _ s) as [e|[c s']] eqn:E; simpl;
      [exact Hs|]. eapply column_create_consistent; eassumption.
  - destruct (Prisma.column.update _ _ s) as [e|[c s']] eqn:E; simpl;
      [exact Hs|]. eapply column_update_consistent; eassumption.
  - unfold DELETE_column.
    destruct (Prisma.column.delete id s) as [e|[c s']] eqn:E; simpl;
      [exact Hs|]. eapply column_delete_consistent; eassumption.
Qed.

(** Every store reached from the empty one is consistent. *)
Lemma reachable_consistent (trace : list (string * request)) :
  consistent (run trace empty_store).
Proof.
  assert (consistent empty_store) as H0.
  { repeat split; simpl; constructor. }
  revert H0. generalize empty_store. unfold run.
  induction trace as [|[cuid r] trace IH]; intros s Hs; simpl; [exact Hs|].
  apply IH. now apply handle_consistent.
Qed.

(** C1.  On a consistent store (unique ids, no orphans) every request
    leaves a consistent store; deleting a board B answers 200 and removes,
    in the one operation, B and exactly the Tasks and Columns whose boardId
    is the id of B; afterwards fetching B, any of those Tasks or any of
    those Columns by id answers 404. *)
Theorem board_delete_cascades (s : store) :
  consistent s ->
  (forall cuid r, consistent (handle cuid r s).2) /\
  (forall cuid B,
     B ∈ boards s ->
     let id := Board.id B in
     let result := handle cuid (DELETE_api_boards_id id) s in
     let s' := result.2 in
     result.1 = respond 200 (SuccessMessage "Board deleted successfully") /\
     boards s' = filter (fun b => Board.id b <> id) (boards s) /\
     tasks s' = filter (fun t => Task.boardId t <> id) (tasks s) /\
     columns s' = filter (fun c => Column.boardId c <> id) (columns s) /\
     (forall cuid',
        (handle cuid' (GET_api_boards_id id) s').1 =
          respond 404 (Failure "Board not found")) /\
     (forall cuid' t,
        t ∈ tasks s -> Task.boardId t = id ->
        (t ∉ tasks s') /\
        (handle cuid' (GET_api_tasks_id (Task.id t)) s').1 =
          respond 404 (Failure "Task not found")) /\
     (forall cuid' c,
        c ∈ columns s -> Column.boardId c = id ->
        (c ∉ columns s') /\
        (handle cuid' (GET_api_columns_id (Column.id c)) s').1 =
          respond 404 (Failure "Column not found"))).
Proof.
  intros Hs. split; [intros cuid r; now apply handle_consistent|].
  intros cuid B HB. cbv zeta. simpl.
  destruct Hs as [(Hb & Ht & Hc) _].
  assert (Prisma.board.delete (Board.id B) s =
          inr (B, mkStore
                    (filter (fun b => Board.id b <> Board.id B) (boards s))
                    (filter (fun t => Task.boardId t <> Board.id B) (tasks s))
                    (filter (fun c => Column.boardId c <> Board.id B) (columns s))))
    as Hdel.
  { unfold Prisma.board.delete, Prisma.board.findUnique.
    now rewrite (find_key_NoDup Board.id (boards s) B Hb HB). }
  unfold DELETE_board. rewrite Hdel. simpl.
  repeat (split; [reflexivity|]). split; [|split].
  - intros _. unfold GET_board, Prisma.board.findUnique. simpl.
    now rewrite (find_key_filter_ne Board.id).
  - intros _ t Hin Hboard. split.
    + rewrite list_elem_of_filter. intros [Hne _]. contradiction.
    + unfold GET_task, Prisma.task.findUnique. simpl.
      rewrite (find_key_filtered Task.id); auto.
  - intros _ c Hin Hboard. split.
    + rewrite list_elem_of_filter. intros [Hne _]. contradiction.
    + unfold GET_column, Prisma.column.findUnique. simpl.
      rewrite (find_key_filtered Column.id); auto.
Qed.

Lemma board_delete_cascades_witness :
  consistent sprint /\
  (handle "x" (GET_api_tasks_id "t1")
     (handle "x" (DELETE_api_boards_id "b1") sprint).2).1 =
    respond 404 (Failure "Task not found").
Proof.
  assert (consistent sprint) as Hs by (apply (bool_decide_unpack _); exact I).
  split; [exact Hs|].
  destruct (board_delete_cascades sprint Hs) as [_ Hdel].
  refine (proj2 (proj1 (proj2 (proj2 (proj2 (proj2 (proj2
            (Hdel "x" (Board.mk "b1" "Sprint 1" None) _))))))
            "x" (Task.mk "t1" "Fix bug" None "IN_REVIEW" MEDIUM "b1") _ _)).
  - left.
  - left.
  - reflexivity.
Defined.

(** ** Creating rows *)

Lemma object_lookup_ne k v l k' :
  k <> k' -> object ((k, v) :: l) !! k' = object l !! k'.
Proof. intros H. rewrite object_lookup_cons. now rewrite decide_False. Qed.

Lemma object_lookup_eq k v l :
  object ((k, v) :: l) !! k =
  match v with Some x => Some x | None => object l !! k end.
Proof. rewrite object_lookup_cons. now rewrite decide_True. Qed.

Arguments object : simpl never.

Ltac object_lookup :=
  repeat first
    [ rewrite object_lookup_eq
    | rewrite object_lookup_ne by discriminate
    | rewrite object_lookup_nil ].

Lemma required_String_inv v x :
  Prisma.required Prisma.String_ v = inr x -> v = Some (JStr x).
Proof. destruct v as [[]|]; simpl; congruence. Qed.

Lemma findBoard_inv s boardId board :
  findBoard s boardId = inr board ->
  exists id, boardId = Some (JStr id) /\ board = Prisma.board.findUnique s id.
Proof.
  unfold findBoard. intros H. prisma_inv H.
  apply required_String_inv in E. inversion H. eauto.
Qed.

Lemma column_row_written data c c' order boardId :
  Prisma.column.row data c = inr c' ->
  data !! "order" = Some (JNum order) ->
  data !! "boardId" = Some (JStr boardId) ->
  Column.order c' = order /\ Column.boardId c' = boardId.
Proof.
  unfold Prisma.column.row. intros H Ho Hb. rewrite Ho, Hb in H.
  prisma_inv H. inversion H; subst; clear H. simpl in *.
  destruct (bool_decide _); inversion E1. auto.
Qed.

(** What a 201 answer of [POST /api/columns] says. *)
Lemma POST_columns_created cuid req s body s' :
  POST_columns cuid req s = (respond 201 body, s') ->
  exists column,
    body = Success (ColumnRow column) /\
    s' = mkStore (boards s) (tasks s) (columns s ++ [column]) /\
    Column.order column =
      nextColumnOrder (Prisma.column.findFirst s (Column.boardId column)).
Proof.
  unfold POST_columns, validated. intros H.
  destruct (validate validateColumn req) as [req' [|e errs]];
    [|discriminate H]. cbv beta zeta in H.
  destruct (findBoard s (req' !! "boardId")) as [e|[board|]] eqn:Eb;
    try discriminate H.
  apply findBoard_inv in Eb as (id & Hid & _).
  unfold findLastColumn in H. rewrite Hid in H. simpl in H.
  destruct (Prisma.column.create _ _ s) as [e|[column s'']] eqn:Ec;
    [discriminate H|]. injection H as <- <-.
  apply column_create_inv in Ec as (Hrow & _ & _ & ->).
  eapply column_row_written in Hrow as [Ho Hb].
  2: { object_lookup. reflexivity. }
  2: { object_lookup. destruct (req' !! "title"), (req' !! "status");
       object_lookup; reflexivity. }
  exists column. rewrite Hb, Ho. auto.
Qed.

(** C5.  [nextColumnOrder] is 0 for a board without Columns and one more
    than the greatest [order] of the board's Columns otherwise (4 over
    the orders 0 and 3); a Column that [POST /api/columns] creates is
    appended with this value as its order, as on the board with the orders
    0 and 3. *)
Theorem nextColumnOrder_spec :
  (forall s boardId,
     let existing := filter (fun c => Column.boardId c = boardId) (columns s) in
     let order := nextColumnOrder (Prisma.column.findFirst s boardId) in
     (existing = [] -> order = 0) /\
     (existing <> [] ->
      exists last,
        last ∈ existing /\
        (forall c, c ∈ existing -> Column.order c <= Column.order last) /\
        order = Column.order last + 1)) /\
  nextColumnOrder (Prisma.column.findFirst gapped "b1") = 4 /\
  (forall cuid req s body s',
     handle cuid (POST_api_columns req) s = (respond 201 body, s') ->
     exists column,
       body = Success (ColumnRow column) /\
       columns s' = columns s ++ [column] /\
       Column.order column =
         nextColumnOrder (Prisma.column.findFirst s (Column.boardId column))) /\
  handle "c3"
    (POST_api_columns
       (<["title" := JStr "Done done"]>
          (<["status" := JStr "DONE_DONE"]> {[ "boardId" := JStr "b1" ]})))
    gapped =
  (respond 201 (Success (ColumnRow (Column.mk "c3" "Done done" "DONE_DONE" 4 "b1"))),
   mkStore (boards gapped) (tasks gapped)
           (columns gapped ++ [Column.mk "c3" "Done done" "DONE_DONE" 4 "b1"])).
Proof.
  split; [|split; [reflexivity|split; [|reflexivity]]].
  - intros s boardId existing order. subst order.
    unfold Prisma.column.findFirst. fold existing. split.
    + intros ->. reflexivity.
    + intros Hne.
      destruct (head (Prisma.orderBy Column.order true existing)) as [last|] eqn:E.
      * apply orderBy_head in E as [Hin Hmax]. exists last.
        split; [exact Hin|]. split; [|reflexivity].
        intros c Hc. specialize (Hmax c Hc). unfold Prisma.before in Hmax.
        now apply bool_decide_eq_true in Hmax.
      * apply orderBy_head_None in E. contradiction.
  - intros cuid req s body s' H. simpl in H.
    apply POST_columns_created in H as (column & -> & -> & Ho). eauto.
Qed.

(** ** Validation in front of the handlers *)

Ltac in_list :=
  solve [repeat first [apply list_elem_of_here | apply list_elem_of_further]].

Lemma validated_invalid chains req handler s :
  (validate chains req).2 <> [] ->
  validated chains req handler s =
    (respond 400 (ValidationFailed (validate chains req).2), s).
Proof.
  unfold validated. destruct (validate chains req) as [req' [|e errs]];
    simpl; [contradiction|reflexivity].
Qed.

Lemma validated_valid chains req handler s :
  (validate chains req).2 = [] ->
  validated chains req handler s = handler (validate chains req).1 s.
Proof.
  unfold validated. destruct (validate chains req) as [req' [|e errs]];
    simpl; [reflexivity|discriminate].
Qed.

(** The errors of a request are those of its chains, each on its field. *)
Lemma validate_errors chains (req : gmap string jsval) c e :
  NoDup (map field chains) -> c ∈ chains ->
  e ∈ (Validator.run c (req !! field c)).2 ->
  e ∈ (validate chains req).2.
Proof.
  intros Hnd Hc He. destruct (validate_spec chains req Hnd) as [-> _].
  apply list_elem_of_In, in_flat_map. exists c.
  split; now apply list_elem_of_In.
Qed.

Lemma validate_accepts chains (req : gmap string jsval) c :
  NoDup (map field chains) -> c ∈ chains ->
  (validate chains req).2 = [] ->
  (Validator.run c (req !! field c)).2 = [].
Proof.
  intros Hnd Hc Hv.
  destruct (Validator.run c (req !! field c)).2 as [|e errs] eqn:E;
    [reflexivity|].
  assert (e ∈ (validate chains req).2) as He.
  { eapply validate_errors; eauto. rewrite E. left. }
  rewrite Hv in He. inversion He.
Qed.

(** The sanitized body holds, for the field of a chain, what the chain
    made of it. *)
Lemma validate_lookup chains (req : gmap string jsval) c :
  NoDup (map field chains) -> c ∈ chains ->
  (validate chains req).1 !! field c = (Validator.run c (req !! field c)).1.
Proof.
  intros Hnd Hc. destruct (validate_spec chains req Hnd) as [_ ->].
  now rewrite (find_key_NoDup field chains c Hnd Hc).
Qed.

Lemma run_untrimmed c v :
  Validator.trim c = false -> (Validator.run c v).1 = v.
Proof.
  intros Ht. unfold Validator.run. rewrite Ht.
  destruct v, (optional c); reflexivity.
Qed.

Lemma run_required c v :
  optional c = false ->
  Validator.run c v =
    let v' := if trim c then Some (JStr (Js.trim (toString v))) else v in
    (v', if passes (validator c) v' then []
         else [{| param := field c; msg := withMessage c |}]).
Proof. intros Ho. unfold Validator.run. rewrite Ho. now destruct v. Qed.

Lemma validateBoard_fields : NoDup (map field validateBoard).
Proof. apply (bool_decide_unpack _). exact I. Qed.

Lemma validateTask_fields : NoDup (map field validateTask).
Proof. apply (bool_decide_unpack _). exact I. Qed.

Lemma validateTaskUpdate_fields : NoDup (map field validateTaskUpdate).
Proof. apply (bool_decide_unpack _). exact I. Qed.

(** ** Boards *)

(** C4 (the code departs from it).  [PUT /api/boards/:id] runs the chains
    of board creation, in which [title] is not optional: a body without
    [title] is answered 400 with the message for [title], whatever the
    board and the description are, and the store is left as it was; so on
    the sample board. *)
Theorem PUT_board_without_title :
  (forall cuid id req s,
     exists details,
       handle cuid (PUT_api_boards_id id (delete "title" req)) s =
       (respond 400
          (ValidationFailed
             (mkError "title" "Title must be between 1 and 100 characters"
              :: details)), s)) /\
  handle "x" (PUT_api_boards_id "b1" {[ "description" := JStr "Second sprint" ]})
         sprint =
  (respond 400
     (ValidationFailed
        [mkError "title" "Title must be between 1 and 100 characters"]),
   sprint).
Proof.
  split; [|reflexivity].
  intros cuid id req s. simpl. unfold PUT_board.
  destruct (validate_spec validateBoard (delete "title" req) validateBoard_fields)
    as [Herrs _].
  remember (validate validateBoard (delete "title" req)) as result.
  simpl in Herrs. rewrite lookup_delete_eq in Herrs. simpl in Herrs.
  subst result. rewrite validated_invalid; rewrite Herrs; [|discriminate].
  eexists. reflexivity.
Qed.




(** ** Tasks *)

Lemma validateTask_boardId req :
  (validate validateTask req).1 !! "boardId" = req !! "boardId".
Proof.
  pose (c := body "boardId" false false isString "Board ID is required").
  rewrite <- (run_untrimmed c (req !! "boardId") eq_refl).
  apply (validate_lookup validateTask req c validateTask_fields).
  in_list.
Qed.

(** C6.  A [POST /api/tasks] that passes validation and names a board that
    does not exist is answered 404, and the store is left as it was. *)
Theorem POST_tasks_missing_board cuid req s boardId :
  (validate validateTask req).2 = [] ->
  req !! "boardId" = Some (JStr boardId) ->
  Prisma.board.findUnique s boardId = None ->
  handle cuid (POST_api_tasks req) s =
    (respond 404 (Failure "Board not found"), s).
Proof.
  intros Hvalid Hb Hnone. simpl. unfold POST_tasks.
  rewrite validated_valid by exact Hvalid. cbv beta zeta.
  rewrite validateTask_boardId, Hb. unfold findBoard. simpl.
  now rewrite Hnone.
Qed.

Lemma POST_tasks_missing_board_witness :
  handle "t2"
    (POST_api_tasks
       (<["title" := JStr "Write tests"]> {[ "boardId" := JStr "b9" ]}))
    sprint =
  (respond 404 (Failure "Board not found"), sprint).
Proof.
  apply (POST_tasks_missing_board "t2" _ sprint "b9"); reflexivity.
Defined.

(** C8.  [PUT /api/tasks/:id] with the body [{status: st}] on an existing
    task is answered 200 for every string [st]: the stored task takes the
    status [st] as given and keeps its id, title, description, priority
    and boardId; boards, columns and the other tasks are left as they
    were. *)
Theorem PUT_task_status cuid s id t st :
  Prisma.task.findUnique s id = Some t ->
  let t' := Task.mk (Task.id t) (Task.title t) (Task.description t) st
                    (Task.priority t) (Task.boardId t) in
  let s' := mkStore (boards s)
              (map (fun x => if bool_decide (Task.id x = id) then t' else x)
                   (tasks s))
              (columns s) in
  handle cuid (PUT_api_tasks_id id {[ "status" := JStr st ]}) s =
    (respond 200 (Success (TaskData (Prisma.task.include_board s' t'))), s') /\
  Prisma.task.findUnique s' id = Some t' /\
  forall id', id' <> id ->
    Prisma.task.findUnique s' id' = Prisma.task.findUnique s id'.
Proof.
  intros Hfind t' s'. split; [|split].
  - simpl. unfold PUT_task.
    rewrite validated_valid by reflexivity. cbv beta zeta.
    change (object _) with ({[ "status" := JStr st ]} : gmap string jsval).
    unfold Prisma.task.update.
    change (Prisma.task.row _ (Task.mk id "" None "" MEDIUM ""))
      with (inr (Task.mk id "" None st MEDIUM "") : Prisma.result Task.t).
    simpl. rewrite Hfind.
    change (Prisma.task.row _ t) with (inr t' : Prisma.result Task.t).
    reflexivity.
  - unfold Prisma.task.findUnique in *. simpl.
    apply (find_key_replace Task.id) with (x := t); [|exact Hfind].
    apply (find_key_Some Task.id) in Hfind as [_ Hid]. exact Hid.
  - intros id' Hne. unfold Prisma.task.findUnique. simpl.
    apply (find_key_Some Task.id) in Hfind as [_ Hid].
    induction (tasks s) as [|x l IH]; [reflexivity|]. simpl.
    destruct (bool_decide (Task.id x = id)) eqn:Ex; simpl.
    + apply bool_decide_eq_true in Ex.
      rewrite !bool_decide_eq_false_2 by congruence. exact IH.
    + destruct (bool_decide (Task.id x = id')); [reflexivity|exact IH].
Qed.

Lemma PUT_task_status_witness :
  Prisma.task.findUnique
    (handle "x" (PUT_api_tasks_id "t1" {[ "status" := JStr "no such column" ]})
            sprint).2 "t1" =
  Some (Task.mk "t1" "Fix bug" None "no such column" MEDIUM "b1").
Proof.
  pose proof (PUT_task_status "x" sprint "t1"
                (Task.mk "t1" "Fix bug" None "IN_REVIEW" MEDIUM "b1")
                "no such column" eq_refl) as [Hput [Hget _]].
  rewrite Hput. exact Hget.
Defined.

Lemma decimal_not_priority n :
  NilZero.string_of_int (Z.to_int n) ∉ ["LOW"; "MEDIUM"; "HIGH"].
Proof.
  intros H. apply list_elem_of_In in H. simpl in H.
  destruct (Z.to_int n) as [u|u]; destruct u; simpl in H;
    repeat (destruct H as [H|H]; [discriminate H|]); exact H.
Qed.

(** A priority that passes [isIn] is one of the three strings. *)
Lemma isIn_priority x :
  passes (isIn ["LOW"; "MEDIUM"; "HIGH"]) (Some x) = true ->
  exists p, x = JStr p /\ p ∈ ["LOW"; "MEDIUM"; "HIGH"].
Proof.
  unfold passes. rewrite bool_decide_eq_true. destruct x as [|[]|n|p]; simpl.
  - intros H. apply list_elem_of_In in H. simpl in H.
    repeat (destruct H as [H|H]; [discriminate H|]). destruct H.
  - intros H. apply list_elem_of_In in H. simpl in H.
    repeat (destruct H as [H|H]; [discriminate H|]). destruct H.
  - intros H. apply list_elem_of_In in H. simpl in H.
    repeat (destruct H as [H|H]; [discriminate H|]). destruct H.
  - intros H. now apply decimal_not_priority in H.
  - eauto.
Qed.

Lemma run_optional_None c : optional c = true -> Validator.run c None = (None, []).
Proof. intros Ho. unfold Validator.run. now rewrite Ho. Qed.

Lemma run_Some c x :
  Validator.run c (Some x) =
    let v' := if trim c then Some (JStr (Js.trim (toString (Some x)))) else Some x in
    (v', if passes (validator c) v' then []
         else [{| param := field c; msg := withMessage c |}]).
Proof. unfold Validator.run. now destruct (optional c). Qed.


Lemma validate_lookup_field chains (req : gmap string jsval) c f :
  NoDup (map field chains) -> c ∈ chains -> field c = f ->
  (validate chains req).1 !! f = (Validator.run c (req !! f)).1.
Proof. intros Hnd Hc <-. now apply validate_lookup. Qed.

Lemma task_create_row cuid s title description status pstr priority boardId board :
  Prisma.Priority_ (JStr pstr) = inr priority ->
  Prisma.task.findUnique s cuid = None ->
  Prisma.board.findUnique s boardId = Some board ->
  let task := Task.mk cuid title description status priority boardId in
  Prisma.task.create cuid
    (object [("title", Some (JStr title));
             ("description", JStr <$> description);
             ("status", Some (JStr status));
             ("priority", Some (JStr pstr));
             ("boardId", Some (JStr boardId))]) s =
  inr (task, mkStore (boards s) (tasks s ++ [task]) (columns s)).
Proof.
  intros Hp Hfresh Hboard task.
  unfold Prisma.task.create, Prisma.task.row. object_lookup.
  destruct description as [d|]; cbn [fmap option_fmap option_map];
    object_lookup; cbn [Prisma.required Prisma.defaulted Prisma.String_
                          Prisma.String_opt Prisma.bind Task.title
                          Task.description Task.status Task.priority
                          Task.boardId Task.id];
    rewrite Hp; cbn [Prisma.bind]; rewrite Hfresh;
    unfold Prisma.references; cbn [Task.boardId]; rewrite Hboard;
    reflexivity.
Qed.

Lemma board_ref_found s boardId board :
  Prisma.board.findUnique s boardId = Some board ->
  Prisma.board_ref s boardId = Some (boardId, Board.title board).
Proof.
  intros H. unfold Prisma.board_ref. unfold Prisma.board.findUnique in H.
  rewrite H. simpl. apply (find_key_Some Board.id) in H as [_ ->].
  reflexivity.
Qed.

(** C10.  A [POST /api/tasks] whose [status] is the empty string, whose
    other fields are valid, whose board exists and whose generated id is
    fresh passes validation and is answered 201; the task that is created
    and stored has the status TODO, not the empty string. *)
Theorem POST_tasks_empty_status cuid req s boardId board :
  req !! "status" = Some (JStr "") ->
  (forall c, c ∈ validateTask -> field c <> "status" ->
             (Validator.run c (req !! field c)).2 = []) ->
  req !! "boardId" = Some (JStr boardId) ->
  Prisma.board.findUnique s boardId = Some board ->
  Prisma.task.findUnique s cuid = None ->
  (validate validateTask req).2 = [] /\
  exists task,
    Task.id task = cuid /\
    Task.status task = "TODO" /\
    Task.boardId task = boardId /\
    handle cuid (POST_api_tasks req) s =
      (respond 201 (Success (TaskData (task, Some (boardId, Board.title board)))),
       mkStore (boards s) (tasks s ++ [task]) (columns s)).
Proof.
  intros Hstatus Hothers Hb Hboard Hfresh.
  pose (ctitle := body "title" false true (isLength 1 (Some 200%nat))
                    "Title must be between 1 and 200 characters").
  pose (cdesc := body "description" true true (isLength 0 (Some 1000%nat))
                   "Description must be less than 1000 characters").
  pose (cstatus := body "status" true false isString "Status must be a string").
  pose (cprio := body "priority" true false (isIn ["LOW"; "MEDIUM"; "HIGH"])
                   "Priority must be LOW, MEDIUM, or HIGH").
  pose (cboard := body "boardId" false false isString "Board ID is required").
  pose proof (Hothers ctitle ltac:(in_list) ltac:(discriminate)) as Htitle.
  pose proof (Hothers cdesc ltac:(in_list) ltac:(discriminate)) as Hdesc.
  pose proof (Hothers cprio ltac:(in_list) ltac:(discriminate)) as Hprio.
  pose proof (Hothers cboard ltac:(in_list) ltac:(discriminate)) as Hboardid.
  unfold ctitle, cdesc, cprio, cboard in Htitle, Hdesc, Hprio, Hboardid.
  cbn [field] in Htitle, Hdesc, Hprio, Hboardid.
  assert (Hvalid : (validate validateTask req).2 = []).
  { destruct (validate_spec validateTask req validateTask_fields) as [-> _].
    unfold validateTask. cbn [flat_map field].
    rewrite Htitle, Hdesc, Hprio, Hboardid, Hstatus. reflexivity. }
  split; [exact Hvalid|].
  simpl. unfold POST_tasks. rewrite validated_valid by exact Hvalid.
  cbv beta zeta. rewrite validateTask_boardId, Hb.
  unfold findBoard. cbn [Prisma.required Prisma.String_ Prisma.bind].
  rewrite Hboard.
  rewrite (validate_lookup_field validateTask req ctitle "title" validateTask_fields)
    by first [in_list | reflexivity].
  rewrite (validate_lookup_field validateTask req cdesc "description" validateTask_fields)
    by first [in_list | reflexivity].
  rewrite (validate_lookup_field validateTask req cstatus "status" validateTask_fields)
    by first [in_list | reflexivity].
  rewrite (validate_lookup_field validateTask req cprio "priority" validateTask_fields)
    by first [in_list | reflexivity].
  rewrite (run_required ctitle) by reflexivity. cbn [fst ctitle trim].
  set (title := Js.trim (toString (req !! "title"))). clearbody title.
  rewrite Hstatus.
  change (or (Validator.run cstatus (Some (JStr ""))).1 (JStr "TODO"))
    with (Some (JStr "TODO")).
  assert (exists description,
            (Validator.run cdesc (req !! "description")).1 = JStr <$> description)
    as [description ->].
  { destruct (req !! "description") as [d|].
    - rewrite run_Some. eexists (Some _). reflexivity.
    - exists None. reflexivity. }
  assert (exists pstr priority,
            or (Validator.run cprio (req !! "priority")).1 (JStr "MEDIUM") =
              Some (JStr pstr) /\
            Prisma.Priority_ (JStr pstr) = inr priority)
    as (pstr & priority & -> & Hp).
  { destruct (req !! "priority") as [p|].
    - rewrite run_Some in Hprio |- *. cbn [trim fst snd cprio validator] in *.
      destruct (passes _ (Some p)) eqn:Hpass; [|discriminate Hprio].
      apply isIn_priority in Hpass as (q & -> & Hq).
      repeat (apply elem_of_cons in Hq as [->|Hq];
              [do 2 eexists; split; reflexivity|]).
      inversion Hq.
    - exists "MEDIUM", MEDIUM. split; reflexivity. }
  rewrite (task_create_row cuid s title description "TODO" pstr priority
             boardId board Hp Hfresh Hboard).
  exists (Task.mk cuid title description "TODO" priority boardId).
  repeat (split; [reflexivity|]).
  unfold Prisma.task.include_board. cbn [Task.boardId].
  rewrite (board_ref_found _ boardId board) by exact Hboard. reflexivity.
Qed.

Lemma POST_tasks_empty_status_witness :
  let req : gmap string jsval :=
    <["title" := JStr "Write tests"]>
      (<["status" := JStr ""]> {[ "boardId" := JStr "b1" ]}) in
  (validate validateTask req).2 = [] /\
  exists task,
    Task.id task = "t2" /\
    Task.status task = "TODO" /\
    Task.boardId task = "b1" /\
    handle "t2" (POST_api_tasks req) sprint =
      (respond 201 (Success (TaskData (task, Some ("b1", "Sprint 1")))),
       mkStore (boards sprint) (tasks sprint ++ [task]) (columns sprint)).
Proof.
  apply (POST_tasks_empty_status "t2" _ sprint "b1" (Board.mk "b1" "Sprint 1" None)).
  - reflexivity.
  - intros c Hc Hfield.
    repeat (apply elem_of_cons in Hc as [->|Hc];
            [first [reflexivity | contradiction]|]).
    inversion Hc.
  - reflexivity.
  - reflexivity.
  - reflexivity.
Defined.

(** ** Further properties of the handlers *)

Ltac case_matches H :=
  repeat match type of H with
         | context [match ?x with _ => _ end] => destruct x eqn:?
         end.

Lemma handle_rejected cuid r s response s' :
  handle cuid r s = (response, s') ->
  ~ (200 <= status response <= 299) -> s' = s.
Proof.
  intros H Hstatus.
  destruct r; simpl in H;
    unfold GET_boards, GET_board, POST_boards, PUT_board, DELETE_board,
           GET_tasks, GET_task, POST_tasks, PUT_task, DELETE_task,
           GET_columns, GET_board_columns, GET_column, POST_columns,
           PUT_column, DELETE_column, validated, caught in H;
    case_matches H; injection H as <- <-; try reflexivity;
    exfalso; apply Hstatus; simpl; lia.
Qed.

(** X1.  When the API client throws (the answer is not 2xx), the request
    has left the store exactly as it was: no handler writes before it
    fails. *)
Theorem failed_request_keeps_store cuid r s :
  (apiService.request cuid r s).1 = None ->
  (apiService.request cuid r s).2 = s /\ (handle cuid r s).2 = s.
Proof.
  unfold apiService.request.
  destruct (handle cuid r s) as [response s'] eqn:E. simpl.
  destruct (bool_decide (200 <= status response <= 299)) eqn:Hok;
    [discriminate|]. intros _.
  apply bool_decide_eq_false in Hok.
  assert (s' = s) by (eapply handle_rejected; eauto). auto.
Qed.

Lemma failed_request_keeps_store_witness :
  (apiService.request "x" (DELETE_api_boards_id "b9") sprint).2 = sprint /\
  (handle "x" (DELETE_api_boards_id "b9") sprint).2 = sprint.
Proof.
  apply (failed_request_keeps_store "x" (DELETE_api_boards_id "b9") sprint).
  reflexivity.
Defined.

Lemma validateColumn_fields : NoDup (map field validateColumn).
Proof. apply (bool_decide_unpack _). exact I. Qed.

Lemma validateColumnUpdate_fields : NoDup (map field validateColumnUpdate).
Proof. apply (bool_decide_unpack _). exact I. Qed.

(** X2.  Deleting an id that names no row answers 404 with the message of
    the entity and leaves the store as it was, for boards, tasks and
    columns alike. *)
Theorem DELETE_missing cuid id s :
  (Prisma.board.findUnique s id = None ->
   handle cuid (DELETE_api_boards_id id) s =
     (respond 404 (Failure "Board not found"), s)) /\
  (Prisma.task.findUnique s id = None ->
   handle cuid (DELETE_api_tasks_id id) s =
     (respond 404 (Failure "Task not found"), s)) /\
  (Prisma.column.findUnique s id = None ->
   handle cuid (DELETE_api_columns_id id) s =
     (respond 404 (Failure "Column not found"), s)).
Proof.
  repeat split; intros H; simpl.
  - unfold DELETE_board, Prisma.board.delete. now rewrite H.
  - unfold DELETE_task, Prisma.task.delete. now rewrite H.
  - unfold DELETE_column, Prisma.column.delete. now rewrite H.
Qed.

(** X3.  A [POST /api/columns] that passes validation and names a board
    that does not exist is answered 404 before the order is computed, and
    no column is stored. *)
Theorem POST_columns_missing_board cuid req s boardId :
  (validate validateColumn req).2 = [] ->
  req !! "boardId" = Some (JStr boardId) ->
  Prisma.board.findUnique s boardId = None ->
  handle cuid (POST_api_columns req) s =
    (respond 404 (Failure "Board not found"), s).
Proof.
  intros Hvalid Hb Hnone. simpl. unfold POST_columns.
  rewrite validated_valid by exact Hvalid. cbv beta zeta.
  pose (c := body "boardId" false false isString "Board ID is required").
  rewrite (validate_lookup_field validateColumn req c "boardId"
             validateColumn_fields) by first [in_list | reflexivity].
  rewrite (run_untrimmed c) by reflexivity. rewrite Hb.
  unfold findBoard. simpl. now rewrite Hnone.
Qed.

Lemma POST_columns_missing_board_witness :
  handle "c9"
    (POST_api_columns
       (<["title" := JStr "Blocked"]>
          (<["status" := JStr "BLOCKED"]> {[ "boardId" := JStr "b9" ]})))
    sprint =
  (respond 404 (Failure "Board not found"), sprint).
Proof.
  apply (POST_columns_missing_board "c9" _ sprint "b9"); reflexivity.
Defined.

(** X4.  Deleting a column removes the rows of that id from the column
    table and nothing else: boards and tasks are untouched, so every task
    query answers as before, also for the tasks that carry the status of
    the deleted column. *)
Theorem DELETE_column_keeps_tasks cuid id s column :
  Prisma.column.findUnique s id = Some column ->
  let s' := mkStore (boards s) (tasks s)
              (filter (fun c => Column.id c <> id) (columns s)) in
  handle cuid (DELETE_api_columns_id id) s =
    (respond 200 (SuccessMessage "Column deleted successfully"), s') /\
  (forall cuid' boardId status,
     (handle cuid' (GET_api_tasks boardId status) s').1 =
     (handle cuid' (GET_api_tasks boardId status) s).1) /\
  (forall cuid' taskId,
     (handle cuid' (GET_api_tasks_id taskId) s').1 =
     (handle cuid' (GET_api_tasks_id taskId) s).1).
Proof.
  intros Hfind s'. split; [|split].
  - simpl. unfold DELETE_column, Prisma.column.delete. now rewrite Hfind.
  - reflexivity.
  - intros cuid' taskId. simpl. unfold GET_task.
    change (Prisma.task.findUnique s' taskId)
      with (Prisma.task.findUnique s taskId).
    now destruct (Prisma.task.findUnique s taskId).
Qed.

Lemma DELETE_column_keeps_tasks_witness :
  (handle "x" (GET_api_tasks (Some "b1") (Some "IN_REVIEW"))
     (handle "x" (DELETE_api_columns_id "c1") sprint).2).1 =
  (handle "x" (GET_api_tasks (Some "b1") (Some "IN_REVIEW")) sprint).1.
Proof.
  destruct (DELETE_column_keeps_tasks "x" "c1" sprint
              (Column.mk "c1" "In Review" "IN_REVIEW" 0 "b1") eq_refl)
    as (Hdel & Htasks & _).
  rewrite Hdel. apply Htasks.
Defined.

(** ** List facts used below *)

Lemma filter_none {A} (P : A -> Prop) `{!forall x, Decision (P x)} (l : list A) :
  (forall x, x ∈ l -> ~ P x) -> filter P l = [].
Proof.
  induction l as [|x l IH]; intros HP; [reflexivity|].
  rewrite filter_cons, decide_False by (apply HP; left).
  apply IH. intros y Hy. apply HP. now right.
Qed.

Lemma filter_all {A} (P : A -> Prop) `{!forall x, Decision (P x)} (l : list A) :
  (forall x, x ∈ l -> P x) -> filter P l = l.
Proof.
  induction l as [|x l IH]; intros HP; [reflexivity|].
  rewrite filter_cons, decide_True by (apply HP; left).
  f_equal. apply IH. intros y Hy. apply HP. now right.
Qed.

(** On a consistent store no task belongs to a board that does not
    exist. *)
Lemma no_tasks_of_missing_board s boardId :
  consistent s -> Prisma.board.findUnique s boardId = None ->
  filter (fun t => Task.boardId t = boardId) (tasks s) = [].
Proof.
  intros [_ Ho] Hnone. apply no_orphans_iff in Ho as [Hot _].
  apply filter_none. intros t Ht Hb. apply Hot in Ht. rewrite Hb in Ht.
  unfold Prisma.board.findUnique in Hnone.
  now apply (find_key_None Board.id) in Hnone.
Qed.

Lemma find_key_snoc {R} (key : R -> string) l x :
  List.find (fun y => bool_decide (key y = key x)) l = None ->
  List.find (fun y => bool_decide (key y = key x)) (l ++ [x]) = Some x.
Proof.
  induction l as [|y l IH]; simpl.
  - intros _. now rewrite bool_decide_eq_true_2.
  - destruct (bool_decide (key y = key x)); [discriminate|exact IH].
Qed.

(** ** Creating a board *)

(** A valid body and a fresh id: the board is created with the trimmed
    title and description. *)
Lemma POST_boards_accepted cuid req s :
  consistent s ->
  (1 <= String.length (Js.trim (toString (req !! "title"))) <= 100)%nat ->
  (forall v, req !! "description" = Some v ->
             String.length (Js.trim (toString (Some v))) <= 500)%nat ->
  Prisma.board.findUnique s cuid = None ->
  let board :=
    Board.mk cuid (Js.trim (toString (req !! "title")))
             ((fun v => Js.trim (toString (Some v))) <$> req !! "description") in
  handle cuid (POST_api_boards req) s =
    (respond 201 (Success (BoardData (board, []))),
     mkStore (boards s ++ [board]) (tasks s) (columns s)).
Proof.
  intros Hs Htitle Hdesc Hfresh board.
  pose (ctitle := body "title" false true (isLength 1 (Some 100%nat))
                    "Title must be between 1 and 100 characters").
  pose (cdesc := body "description" true true (isLength 0 (Some 500%nat))
                   "Description must be less than 500 characters").
  assert (Hrt : Validator.run ctitle (req !! "title") =
                (Some (JStr (Js.trim (toString (req !! "title")))), [])).
  { rewrite run_required by reflexivity. cbn [ctitle trim validator].
    unfold passes. cbn [toString from_option].
    destruct Htitle as [H1 H2].
    apply Nat.leb_le in H1, H2. now rewrite H1, H2. }
  assert (Hrd : Validator.run cdesc (req !! "description") =
                (JStr <$> Board.description board, [])).
  { unfold board. cbn [Board.description].
    destruct (req !! "description") as [v|] eqn:Ev; [|reflexivity].
    rewrite run_Some. cbn [cdesc trim validator fmap option_fmap option_map].
    unfold passes. cbn [from_option].
    change (toString (Some (JStr ?x))) with x.
    specialize (Hdesc v eq_refl). apply Nat.leb_le in Hdesc.
    now rewrite Hdesc. }
  assert (Hvalid : (validate validateBoard req).2 = []).
  { destruct (validate_spec validateBoard req validateBoard_fields) as [-> _].
    unfold validateBoard. cbn [flat_map field].
    fold ctitle cdesc. now rewrite Hrt, Hrd. }
  simpl. unfold POST_boards. rewrite validated_valid by exact Hvalid.
  cbv beta zeta.
  rewrite (validate_lookup_field validateBoard req ctitle "title"
             validateBoard_fields) by first [in_list | reflexivity].
  rewrite (validate_lookup_field validateBoard req cdesc "description"
             validateBoard_fields) by first [in_list | reflexivity].
  rewrite Hrt, Hrd. cbn [fst].
  unfold Prisma.board.create, Prisma.board.row. object_lookup.
  destruct (Board.description board) as [d|] eqn:Ed;
    cbn [fmap option_fmap option_map]; object_lookup;
    cbn [Prisma.required Prisma.defaulted Prisma.String_ Prisma.String_opt
           Prisma.bind Board.title Board.description Board.id];
    rewrite Hfresh; unfold Prisma.board.include_tasks;
    cbn [Board.id tasks];
    rewrite (no_tasks_of_missing_board s cuid Hs Hfresh);
    unfold board in Ed |- *; cbn [Board.description] in Ed;
    rewrite Ed; reflexivity.
Qed.

(** X5.  On a consistent store, [POST /api/boards] with a title of ASCII
    text whose trimmed length is between 1 and 100, a description (if
    any) of ASCII text whose trimmed length is at most 500 and a fresh id
    is answered 201; the stored board holds the trimmed title and
    description and has no tasks, the store stays consistent, and fetching
    the board by its id returns what the creation returned. *)
Theorem POST_boards_created cuid req s title description :
  consistent s ->
  req !! "title" = Some (JStr title) ->
  req !! "description" = JStr <$> description ->
  Js.ascii_text title ->
  (1 <= String.length (Js.trim title) <= 100)%nat ->
  (forall d, description = Some d ->
             Js.ascii_text d /\ (String.length (Js.trim d) <= 500)%nat) ->
  Prisma.board.findUnique s cuid = None ->
  let board := Board.mk cuid (Js.trim title) (Js.trim <$> description) in
  let s' := mkStore (boards s ++ [board]) (tasks s) (columns s) in
  handle cuid (POST_api_boards req) s =
    (respond 201 (Success (BoardData (board, []))), s') /\
  consistent s' /\
  forall cuid',
    (handle cuid' (GET_api_boards_id cuid) s').1 =
      respond 200 (Success (BoardData (board, []))).
Proof.
  intros Hs Ht Hd _ Htitle Hdesc Hfresh board s'.
  assert (handle cuid (POST_api_boards req) s =
            (respond 201 (Success (BoardData (board, []))), s')) as Hcreate.
  { pose proof (POST_boards_accepted cuid req s Hs) as H.
    rewrite Ht, Hd in H. unfold board, s'.
    destruct description as [d|]; apply H;
      first [exact Htitle | exact Hfresh | idtac].
    - intros v [= <-]. now apply Hdesc.
    - intros v Hv. discriminate Hv. }
  split; [exact Hcreate|]. split.
  - pose proof (handle_consistent cuid (POST_api_boards req) s Hs) as Hc.
    now rewrite Hcreate in Hc.
  - intros cuid'.
    assert (Prisma.board.findUnique s' cuid = Some board) as Hfound
      by (apply (find_key_snoc Board.id (boards s) board); exact Hfresh).
    cbn [handle]. unfold GET_board. rewrite Hfound.
    unfold Prisma.board.include_tasks. cbn [fst Board.id board tasks s'].
    now rewrite (no_tasks_of_missing_board s cuid Hs Hfresh).
Qed.

Lemma POST_boards_created_witness :
  handle "b2" (POST_api_boards {[ "title" := JStr "  Sprint 2 " ]}) sprint =
    (respond 201 (Success (BoardData (Board.mk "b2" "Sprint 2" None, []))),
     mkStore (boards sprint ++ [Board.mk "b2" "Sprint 2" None])
             (tasks sprint) (columns sprint)).
Proof.
  refine (proj1 (POST_boards_created "b2" {[ "title" := JStr "  Sprint 2 " ]}
                   sprint "  Sprint 2 " None _ _ _ _ _ _ _)).
  - apply (bool_decide_unpack _). exact I.
  - reflexivity.
  - reflexivity.
  - apply (bool_decide_unpack _). vm_compute. exact I.
  - vm_compute. lia.
  - intros d Hd. discriminate Hd.
  - reflexivity.
Defined.

(** ** Updating a column *)

(** X6.  [PUT /api/columns/:id] patches the provided fields only: with the
    body [{title: t}], [t] an ASCII text of trimmed length 1 to 100, an
    existing column takes the trimmed title and keeps its status, order
    and board, and the other rows are left as they were. *)
Theorem PUT_column_title cuid s id column t :
  Prisma.column.findUnique s id = Some column ->
  Js.ascii_text t ->
  (1 <= String.length (Js.trim t) <= 100)%nat ->
  let column' :=
    Column.mk (Column.id column) (Js.trim t) (Column.status column)
              (Column.order column) (Column.boardId column) in
  let s' :=
    mkStore (boards s) (tasks s)
      (map (fun x => if bool_decide (Column.id x = id) then column' else x)
           (columns s)) in
  handle cuid (PUT_api_columns_id id {[ "title" := JStr t ]}) s =
    (respond 200 (Success (ColumnRow column')), s') /\
  Prisma.column.findUnique s' id = Some column'.
Proof.
  intros Hfind _ [H1 H2] column' s'.
  pose (req := {[ "title" := JStr t ]} : gmap string jsval).
  pose (ctitle := body "title" true true (isLength 1 (Some 100%nat))
                    "Title must be between 1 and 100 characters").
  assert (Hrt : Validator.run ctitle (req !! "title") = (Some (JStr (Js.trim t)), [])).
  { unfold req. rewrite lookup_singleton_eq, run_Some.
    cbn [ctitle trim validator]. unfold passes. cbn [from_option toString].
    apply Nat.leb_le in H1, H2. now rewrite H1, H2. }
  assert (Hvalid : (validate validateColumnUpdate req).2 = []).
  { destruct (validate_spec validateColumnUpdate req validateColumnUpdate_fields)
      as [-> _].
    unfold validateColumnUpdate. cbn [flat_map field]. fold ctitle.
    rewrite Hrt. reflexivity. }
  split.
  - simpl. unfold PUT_column. fold req.
    rewrite validated_valid by exact Hvalid. cbv beta zeta.
    rewrite (validate_lookup_field validateColumnUpdate req ctitle "title"
               validateColumnUpdate_fields) by first [in_list | reflexivity].
    rewrite Hrt. cbn [fst].
    pose (cstatus := body "status" true true (isLength 1 (Some 50%nat))
                       "Status must be between 1 and 50 characters").
    pose (corder := body "order" true false (isInt 0)
                      "Order must be a non-negative integer").
    rewrite (validate_lookup_field validateColumnUpdate req cstatus "status"
               validateColumnUpdate_fields) by first [in_list | reflexivity].
    rewrite (validate_lookup_field validateColumnUpdate req corder "order"
               validateColumnUpdate_fields) by first [in_list | reflexivity].
    change (Validator.run cstatus (req !! "status")).1 with (@None jsval).
    change (Validator.run corder (req !! "order")).1 with (@None jsval).
    unfold Prisma.column.update, Prisma.column.row. object_lookup.
    cbn [Prisma.defaulted Prisma.String_ Prisma.bind]. rewrite Hfind.
    cbn [Prisma.bind]. unfold Prisma.references. object_lookup.
    reflexivity.
  - unfold Prisma.column.findUnique in *. cbn [columns s'].
    apply (find_key_replace Column.id) with (x := column); [|exact Hfind].
    now apply (find_key_Some Column.id) in Hfind as [_ Hid].
Qed.

Lemma PUT_column_title_witness :
  Prisma.column.findUnique
    (handle "x" (PUT_api_columns_id "c2" {[ "title" := JStr " Review " ]}) sprint).2
    "c2" =
  Some (Column.mk "c2" "Review" "QA" 1 "b1").
Proof.
  destruct (PUT_column_title "x" sprint "c2" (Column.mk "c2" "QA" "QA" 1 "b1")
              " Review " eq_refl
              ltac:(apply (bool_decide_unpack _); vm_compute; exact I)
              ltac:(vm_compute; lia)) as [Hput Hget].
  rewrite Hput. exact Hget.
Defined.

(** X7.  An [order] sent as a numeric string (digits after an optional
    sign, leading zeroes allowed, not negative) passes [isInt] but is
    handed to the store as a string: the update of an existing column
    fails on the type of the argument, the answer is 500, and the column
    keeps its order. *)
Theorem PUT_column_order_string cuid s id column o :
  Prisma.column.findUnique s id = Some column ->
  passes (isInt 0) (Some (JStr o)) = true ->
  (validate validateColumnUpdate {[ "order" := JStr o ]}).2 = [] /\
  handle cuid (PUT_api_columns_id id {[ "order" := JStr o ]}) s =
    (respond 500 (Failure "Failed to update column"), s).
Proof.
  intros Hfind Hint.
  pose (req := {[ "order" := JStr o ]} : gmap string jsval).
  pose (corder := body "order" true false (isInt 0)
                    "Order must be a non-negative integer").
  assert (Hro : Validator.run corder (req !! "order") = (Some (JStr o), [])).
  { unfold req. rewrite lookup_singleton_eq, run_Some.
    cbn [corder trim validator]. now rewrite Hint. }
  assert (Hvalid : (validate validateColumnUpdate req).2 = []).
  { destruct (validate_spec validateColumnUpdate req validateColumnUpdate_fields)
      as [-> _].
    unfold validateColumnUpdate. cbn [flat_map field]. fold corder.
    rewrite Hro. reflexivity. }
  split; [exact Hvalid|].
  simpl. unfold PUT_column. fold req.
  rewrite validated_valid by exact Hvalid. cbv beta zeta.
  rewrite (validate_lookup_field validateColumnUpdate req corder "order"
             validateColumnUpdate_fields) by first [in_list | reflexivity].
  rewrite Hro. cbn [fst].
  pose (ctitle := body "title" true true (isLength 1 (Some 100%nat))
                    "Title must be between 1 and 100 characters").
  pose (cstatus := body "status" true true (isLength 1 (Some 50%nat))
                     "Status must be between 1 and 50 characters").
  rewrite (validate_lookup_field validateColumnUpdate req ctitle "title"
             validateColumnUpdate_fields) by first [in_list | reflexivity].
  rewrite (validate_lookup_field validateColumnUpdate req cstatus "status"
             validateColumnUpdate_fields) by first [in_list | reflexivity].
  change (Validator.run ctitle (req !! "title")).1 with (@None jsval).
  change (Validator.run cstatus (req !! "status")).1 with (@None jsval).
  unfold Prisma.column.update, Prisma.column.row. object_lookup.
  reflexivity.
Qed.

Lemma PUT_column_order_string_witness :
  handle "x" (PUT_api_columns_id "c2" {[ "order" := JStr "05" ]}) sprint =
    (respond 500 (Failure "Failed to update column"), sprint).
Proof.
  exact (proj2 (PUT_column_order_string "x" sprint "c2"
                  (Column.mk "c2" "QA" "QA" 1 "b1") "05" eq_refl eq_refl)).
Defined.

(** ** Creating a task *)

(** What [POST /api/tasks] stores for a valid body that names an existing
    board. *)
Lemma POST_tasks_accepted cuid req s boardId board :
  (validate validateTask req).2 = [] ->
  req !! "boardId" = Some (JStr boardId) ->
  Prisma.board.findUnique s boardId = Some board ->
  Prisma.task.findUnique s cuid = None ->
  exists task,
    handle cuid (POST_api_tasks req) s =
      (respond 201 (Success (TaskData (task, Some (boardId, Board.title board)))),
       mkStore (boards s) (tasks s ++ [task]) (columns s)) /\
    Task.id task = cuid /\
    Task.boardId task = boardId /\
    Task.title task = Js.trim (toString (req !! "title")) /\
    Task.status task =
      match req !! "status" with
      | Some (JStr st) => if decide (st = "") then "TODO" else st
      | _ => "TODO"
      end /\
    (req !! "priority" = None -> Task.priority task = MEDIUM).
Proof.
  intros Hvalid Hb Hboard Hfresh.
  pose (ctitle := body "title" false true (isLength 1 (Some 200%nat))
                    "Title must be between 1 and 200 characters").
  pose (cdesc := body "description" true true (isLength 0 (Some 1000%nat))
                   "Description must be less than 1000 characters").
  pose (cstatus := body "status" true false isString "Status must be a string").
  pose (cprio := body "priority" true false (isIn ["LOW"; "MEDIUM"; "HIGH"])
                   "Priority must be LOW, MEDIUM, or HIGH").
  pose proof (validate_accepts validateTask req cstatus validateTask_fields
                ltac:(in_list) Hvalid) as Hstatus.
  pose proof (validate_accepts validateTask req cprio validateTask_fields
                ltac:(in_list) Hvalid) as Hprio.
  cbn [field cstatus cprio] in Hstatus, Hprio.
  simpl. unfold POST_tasks. rewrite validated_valid by exact Hvalid.
  cbv beta zeta. rewrite validateTask_boardId, Hb.
  unfold findBoard. cbn [Prisma.required Prisma.String_ Prisma.bind].
  rewrite Hboard.
  rewrite (validate_lookup_field validateTask req ctitle "title" validateTask_fields)
    by first [in_list | reflexivity].
  rewrite (validate_lookup_field validateTask req cdesc "description" validateTask_fields)
    by first [in_list | reflexivity].
  rewrite (validate_lookup_field validateTask req cstatus "status" validateTask_fields)
    by first [in_list | reflexivity].
  rewrite (validate_lookup_field validateTask req cprio "priority" validateTask_fields)
    by first [in_list | reflexivity].
  rewrite (run_required ctitle) by reflexivity. cbn [fst ctitle trim].
  set (title := Js.trim (toString (req !! "title"))).
  assert (exists description,
            (Validator.run cdesc (req !! "description")).1 = JStr <$> description)
    as [description ->].
  { destruct (req !! "description") as [d|].
    - rewrite run_Some. eexists (Some _). reflexivity.
    - exists None. reflexivity. }
  assert (exists status,
            or (Validator.run cstatus (req !! "status")).1 (JStr "TODO") =
              Some (JStr status) /\
            status = match req !! "status" with
                     | Some (JStr st) => if decide (st = "") then "TODO" else st
                     | _ => "TODO"
                     end)
    as (status & -> & Hst).
  { destruct (req !! "status") as [v|].
    - rewrite run_Some in Hstatus |- *. cbn [trim fst snd cstatus validator] in *.
      destruct v as [| | |st]; try discriminate Hstatus.
      unfold or, truthy. destruct (decide (st = "")) as [->|Hne].
      + eexists. split; reflexivity.
      + rewrite bool_decide_eq_false_2 by exact Hne. eexists. split; reflexivity.
    - eexists. split; reflexivity. }
  assert (exists pstr priority,
            or (Validator.run cprio (req !! "priority")).1 (JStr "MEDIUM") =
              Some (JStr pstr) /\
            Prisma.Priority_ (JStr pstr) = inr priority /\
            (req !! "priority" = None -> priority = MEDIUM))
    as (pstr & priority & -> & Hp & Hdefault).
  { destruct (req !! "priority") as [p|].
    - rewrite run_Some in Hprio |- *. cbn [trim fst snd cprio validator] in *.
      destruct (passes _ (Some p)) eqn:Hpass; [|discriminate Hprio].
      apply isIn_priority in Hpass as (q & -> & Hq).
      repeat (apply elem_of_cons in Hq as [->|Hq];
              [do 2 eexists; split; [reflexivity|split; [reflexivity|discriminate]]|]).
      inversion Hq.
    - exists "MEDIUM", MEDIUM. repeat split; reflexivity. }
  rewrite (task_create_row cuid s title description status pstr priority
             boardId board Hp Hfresh Hboard).
  exists (Task.mk cuid title description status priority boardId).
  split.
  - unfold Prisma.task.include_board. cbn [Task.boardId].
    rewrite (board_ref_found _ boardId board) by exact Hboard. reflexivity.
  - repeat (split; [reflexivity|]). split; [exact Hst|exact Hdefault].
Qed.

(** X8.  A [POST /api/tasks] that passes validation, with a title of
    ASCII text, names an existing board and draws a fresh id is answered
    201 and appends one task: its title is the trimmed title, its status
    is the status of the body as given (not trimmed) unless that is absent
    or empty, when it is TODO, and its priority is MEDIUM when the body has
    none. *)
Theorem POST_tasks_created cuid req s boardId board title :
  (validate validateTask req).2 = [] ->
  req !! "title" = Some (JStr title) ->
  Js.ascii_text title ->
  req !! "boardId" = Some (JStr boardId) ->
  Prisma.board.findUnique s boardId = Some board ->
  Prisma.task.findUnique s cuid = None ->
  exists task,
    handle cuid (POST_api_tasks req) s =
      (respond 201 (Success (TaskData (task, Some (boardId, Board.title board)))),
       mkStore (boards s) (tasks s ++ [task]) (columns s)) /\
    Task.id task = cuid /\
    Task.boardId task = boardId /\
    Task.title task = Js.trim title /\
    Task.status task =
      match req !! "status" with
      | Some (JStr st) => if decide (st = "") then "TODO" else st
      | _ => "TODO"
      end /\
    (req !! "priority" = None -> Task.priority task = MEDIUM).
Proof.
  intros Hvalid Ht _ Hb Hboard Hfresh.
  destruct (POST_tasks_accepted cuid req s boardId board Hvalid Hb Hboard Hfresh)
    as (task & Hcreate & Hid & Hbid & Htitle & Hrest).
  rewrite Ht in Htitle. exists task.
  split; [exact Hcreate|]. split; [exact Hid|]. split; [exact Hbid|].
  split; [exact Htitle|exact Hrest].
Qed.

Lemma POST_tasks_created_witness :
  exists task,
    handle "t2"
      (POST_api_tasks
         (<["title" := JStr " Write tests "]>
            (<["status" := JStr " QA "]> {[ "boardId" := JStr "b1" ]})))
      sprint =
      (respond 201 (Success (TaskData (task, Some ("b1", "Sprint 1")))),
       mkStore (boards sprint) (tasks sprint ++ [task]) (columns sprint)) /\
    Task.title task = "Write tests" /\
    Task.status task = " QA ".
Proof.
  destruct (POST_tasks_created "t2"
              (<["title" := JStr " Write tests "]>
                 (<["status" := JStr " QA "]> {[ "boardId" := JStr "b1" ]}))
              sprint "b1" (Board.mk "b1" "Sprint 1" None) " Write tests ")
    as (task & Hcreate & _ & _ & Htitle & Hstatus & _).
  - reflexivity.
  - reflexivity.
  - apply (bool_decide_unpack _). vm_compute. exact I.
  - reflexivity.
  - reflexivity.
  - reflexivity.
  - exists task. split; [exact Hcreate|]. split; [exact Htitle|exact Hstatus].
Defined.

(** ** [orderBy] under appending, filtering and patching *)

Section OrderByMore.
Context {A : Type}.
Variable key : A -> Z.
Variable descending : bool.

Local Abbreviation before := (Prisma.before key descending).
Local Abbreviation insert_sorted := (Prisma.insert_sorted key descending).
Local Abbreviation orderBy := (Prisma.orderBy key descending).

Lemma insert_sorted_first x l :
  (forall y, y ∈ l -> before x y = true) -> insert_sorted x l = x :: l.
Proof.
  destruct l as [|y l]; [reflexivity|]. intros H. simpl.
  now rewrite H by left.
Qed.

Lemma insert_sorted_snoc x l z :
  before x z = true ->
  insert_sorted x (l ++ [z]) = insert_sorted x l ++ [z].
Proof.
  intros Hxz. induction l as [|y l IH]; simpl.
  - now rewrite Hxz.
  - destruct (before x y); [reflexivity|]. now rewrite IH.
Qed.

(** A row that comes after every row of the table is ordered last. *)
Lemma orderBy_snoc l z :
  (forall x, x ∈ l -> before x z = true) -> orderBy (l ++ [z]) = orderBy l ++ [z].
Proof.
  induction l as [|x l IH]; intros H; [reflexivity|]. simpl.
  rewrite IH by (intros y Hy; apply H; now right).
  apply insert_sorted_snoc. apply H. left.
Qed.

Lemma insert_sorted_filter (P : A -> Prop) `{!forall x, Decision (P x)} x l :
  StronglySorted (fun a b => before a b = true) l ->
  filter P (insert_sorted x l) =
  if decide (P x) then insert_sorted x (filter P l) else filter P l.
Proof.
  induction 1 as [|y l Hl IH Hy]; simpl.
  - rewrite filter_cons, filter_nil. now destruct (decide (P x)).
  - destruct (before x y) eqn:Hxy.
    + rewrite filter_cons. destruct (decide (P x)) as [HPx|HPx]; [|reflexivity].
      symmetry. apply insert_sorted_first. intros z Hz.
      apply list_elem_of_filter in Hz as [_ Hz].
      apply elem_of_cons in Hz as [->|Hz]; [exact Hxy|].
      rewrite Forall_forall in Hy. specialize (Hy z Hz).
      eapply (before_trans key descending); eassumption.
    + rewrite !filter_cons, IH.
      destruct (decide (P y)), (decide (P x)); simpl; try reflexivity.
      now rewrite Hxy.
Qed.

(** Filtering an ordered table is ordering the filtered table. *)
Lemma orderBy_filter (P : A -> Prop) `{!forall x, Decision (P x)} l :
  filter P (orderBy l) = orderBy (filter P l).
Proof.
  induction l as [|x l IH]; [reflexivity|]. simpl.
  rewrite insert_sorted_filter by apply orderBy_strongly.
  rewrite filter_cons, IH. now destruct (decide (P x)).
Qed.

(** A patch that keeps the key keeps the order of the table. *)
Lemma orderBy_map (f : A -> A) l :
  (forall x, key (f x) = key x) ->
  orderBy (map f l) = map f (orderBy l).
Proof.
  intros Hf.
  assert (forall x m, insert_sorted (f x) (map f m) = map f (insert_sorted x m))
    as Hins.
  { intros x m. induction m as [|y m IH]; [reflexivity|]. simpl.
    unfold Prisma.before. rewrite !Hf.
    destruct descending; destruct (bool_decide _); simpl; now rewrite ?IH. }
  induction l as [|x l IH]; [reflexivity|]. simpl. now rewrite IH, Hins.
Qed.
End OrderByMore.

(** ** The column list of the client *)

Lemma column_row_all data c title st order boardId :
  data !! "title" = Some (JStr title) ->
  data !! "status" = Some (JStr st) ->
  data !! "order" = Some (JNum order) ->
  data !! "boardId" = Some (JStr boardId) ->
  forall c', Prisma.column.row data c = inr c' ->
  c' = Column.mk (Column.id c) title st order boardId.
Proof.
  unfold Prisma.column.row. intros -> -> -> -> c' H. simpl in H.
  destruct (bool_decide _); [|discriminate H]. simpl in H. now inversion H.
Qed.

(** What a 2xx answer of [POST /api/columns] is, for a body of three
    strings. *)
Lemma POST_columns_ok cuid req s response s' title st boardId :
  req !! "title" = Some (JStr title) ->
  req !! "status" = Some (JStr st) ->
  req !! "boardId" = Some (JStr boardId) ->
  POST_columns cuid req s = (response, s') ->
  200 <= status response <= 299 ->
  let column :=
    Column.mk cuid (Js.trim title) (Js.trim st)
              (nextColumnOrder (Prisma.column.findFirst s boardId)) boardId in
  response = respond 201 (Success (ColumnRow column)) /\
  s' = mkStore (boards s) (tasks s) (columns s ++ [column]).
Proof.
  intros Ht Hst Hb H Hok column. unfold POST_columns, validated in H.
  pose (ctitle := body "title" false true (isLength 1 (Some 100%nat))
                    "Title must be between 1 and 100 characters").
  pose (cstatus := body "status" false true (isLength 1 (Some 50%nat))
                     "Status must be between 1 and 50 characters").
  pose (cboard := body "boardId" false false isString "Board ID is required").
  pose proof (validate_lookup_field validateColumn req ctitle "title"
                validateColumn_fields ltac:(in_list) eq_refl) as Lt.
  pose proof (validate_lookup_field validateColumn req cstatus "status"
                validateColumn_fields ltac:(in_list) eq_refl) as Ls.
  pose proof (validate_lookup_field validateColumn req cboard "boardId"
                validateColumn_fields ltac:(in_list) eq_refl) as Lb.
  rewrite Ht, run_Some in Lt. rewrite Hst, run_Some in Ls.
  rewrite Hb, run_Some in Lb.
  cbn [ctitle cstatus cboard trim fst toString] in Lt, Ls, Lb.
  destruct (validate validateColumn req) as [req' [|e errs]];
    [|injection H as <- <-; simpl in Hok; lia].
  cbn [fst] in Lt, Ls, Lb. cbv beta zeta in H. rewrite Lt, Ls, Lb in H.
  unfold findBoard, findLastColumn in H.
  cbn [Prisma.required Prisma.String_ Prisma.bind] in H.
  destruct (Prisma.board.findUnique s boardId);
    [|injection H as <- <-; simpl in Hok; lia].
  destruct (Prisma.column.create _ _ s) as [e|[c s'']] eqn:Ec;
    [injection H as <- <-; simpl in Hok; lia|].
  injection H as <- <-.
  apply column_create_inv in Ec as (Hrow & _ & _ & ->).
  eapply column_row_all in Hrow; [|object_lookup; reflexivity..].
  cbn [Column.id] in Hrow. subst c. split; reflexivity.
Qed.

Lemma nextColumnOrder_above s boardId c :
  c ∈ filter (fun c => Column.boardId c = boardId) (columns s) ->
  Column.order c <= nextColumnOrder (Prisma.column.findFirst s boardId).
Proof.
  intros Hc. unfold Prisma.column.findFirst.
  destruct (head _) as [last|] eqn:E.
  - apply orderBy_head in E as [_ Hmax]. specialize (Hmax c Hc).
    unfold Prisma.before in Hmax. apply bool_decide_eq_true in Hmax.
    simpl. lia.
  - apply orderBy_head_None in E. rewrite E in Hc. inversion Hc.
Qed.

(** X9.  [handleCreateColumn] keeps the column list of the client equal
    to what a refetch would return: when the list is the fetched one, then
    after the call, whether the server created the column or refused, the
    new list is again the fetched one (a created column is ordered last). *)
Theorem handleCreateColumn_in_sync cuid boardId title s :
  let result := handleCreateColumn cuid boardId title (fetchColumns s boardId) s in
  result.1 = fetchColumns result.2 boardId.
Proof.
  unfold handleCreateColumn, useColumns.createColumn.
  destruct (apiService.request cuid _ s) as [answer s'] eqn:E.
  unfold apiService.request in E.
  destruct (handle cuid _ s) as [response s''] eqn:Eh.
  injection E as <- <-.
  destruct (bool_decide (200 <= status response <= 299)) eqn:Hok.
  - apply bool_decide_eq_true in Hok. simpl in Eh.
    eapply POST_columns_ok in Eh as [-> ->]; [|object_lookup; reflexivity..|exact Hok].
    cbn [fst snd json]. rewrite !fetchColumns_eq. cbn [columns].
    rewrite filter_app, filter_cons, decide_True, filter_nil by reflexivity.
    symmetry. apply orderBy_snoc. intros c Hc.
    unfold Prisma.before. apply bool_decide_eq_true. cbn [Column.order].
    now apply nextColumnOrder_above.
  - apply bool_decide_eq_false in Hok.
    apply handle_rejected in Eh; [|exact Hok]. subst s''. reflexivity.
Qed.

Lemma ltrim_no_space l :
  match l with [] => True | c :: _ => Js.is_space c = false end ->
  Js.ltrim_chars Js.is_space l = l.
Proof. destruct l as [|c l]; [reflexivity|]. simpl. now intros ->. Qed.

Lemma trim_no_space s :
  Forall (fun c => Js.is_space c = false) (list_ascii_of_string s) ->
  Js.trim s = s.
Proof.
  intros H. unfold Js.trim, Js.trim_chars, Js.rtrim_chars.
  rewrite (ltrim_no_space (list_ascii_of_string s)) by now destruct H.
  rewrite ltrim_no_space.
  - now rewrite rev_involutive, string_of_list_ascii_of_string.
  - apply Forall_rev in H. now destruct H.
Qed.

Lemma deriveStatusKey_trim title :
  Js.trim (deriveStatusKey title) = deriveStatusKey title.
Proof.
  apply trim_no_space. unfold deriveStatusKey, Js.replace_spaces.
  rewrite list_ascii_of_string_of_list_ascii.
  now apply replace_space_runs_no_space.
Qed.

(** X10.  For a title of ASCII text, a column that [handleCreateColumn]
    creates is stored under the status key the client derived from the
    title, unchanged by the server's trimming, next to the trimmed title;
    and a title whose derived key is longer than 50 characters is
    refused: neither the store nor the list of the client changes. *)
Theorem handleCreateColumn_status cuid boardId title local s :
  Js.ascii_text title ->
  let result := handleCreateColumn cuid boardId title local s in
  (result.2 <> s ->
   exists order,
     let column :=
       Column.mk cuid (Js.trim title) (deriveStatusKey title) order boardId in
     result = (local ++ [column],
               mkStore (boards s) (tasks s) (columns s ++ [column]))) /\
  ((50 < String.length (deriveStatusKey title))%nat -> result = (local, s)).
Proof.
  intros _. cbv zeta. unfold handleCreateColumn, useColumns.createColumn.
  destruct (apiService.request cuid _ s) as [answer s'] eqn:E.
  unfold apiService.request in E.
  destruct (handle cuid _ s) as [response s''] eqn:Eh.
  injection E as <- <-.
  destruct (bool_decide (200 <= status response <= 299)) eqn:Hok.
  - apply bool_decide_eq_true in Hok. simpl in Eh.
    pose proof Eh as Eh'.
    eapply POST_columns_ok in Eh as [Hr Hs]; [|object_lookup; reflexivity..|exact Hok].
    rewrite Hr, Hs.
    cbn [fst snd json useColumns.title useColumns.status useColumns.boardId].
    rewrite deriveStatusKey_trim. split.
    + intros _. eexists. reflexivity.
    + intros Hlong. exfalso.
      unfold POST_columns in Eh'.
      pose (cstatus := body "status" false true (isLength 1 (Some 50%nat))
                         "Status must be between 1 and 50 characters").
      rewrite validated_invalid in Eh';
        [injection Eh' as Hr' _; rewrite Hr in Hr'; discriminate Hr'|].
      intros Hnil.
      pose proof (validate_accepts validateColumn _ cstatus validateColumn_fields
                    ltac:(in_list) Hnil) as Hacc.
      revert Hacc. unfold cstatus. cbn [field]. object_lookup. rewrite run_Some.
      cbn [trim validator withMessage snd toString useColumns.status].
      rewrite deriveStatusKey_trim. unfold passes. cbn [toString from_option].
      apply Nat.leb_gt in Hlong. rewrite Hlong, andb_false_r. discriminate.
  - apply bool_decide_eq_false in Hok.
    apply handle_rejected in Eh; [|exact Hok]. subst s''. cbn [fst snd].
    split; [intros Hne; contradiction|reflexivity].
Qed.

Lemma handleCreateColumn_status_witness :
  exists order,
    handleCreateColumn "c3" "b1" " Code  Review" (fetchColumns sprint "b1")
                       sprint =
      (fetchColumns sprint "b1" ++
         [Column.mk "c3" "Code  Review" "_CODE_REVIEW" order "b1"],
       mkStore (boards sprint) (tasks sprint)
               (columns sprint ++
                  [Column.mk "c3" "Code  Review" "_CODE_REVIEW" order "b1"])).
Proof.
  refine (proj1 (handleCreateColumn_status "c3" "b1" " Code  Review"
                   (fetchColumns sprint "b1") sprint _) _).
  - apply (bool_decide_unpack _). vm_compute. exact I.
  - vm_compute. intros H. discriminate H.
Defined.

Lemma DELETE_column_ok id s response s' :
  DELETE_column id s = (response, s') ->
  200 <= status response <= 299 ->
  apiService.success (json response) = true /\
  s' = mkStore (boards s) (tasks s)
         (filter (fun c => Column.id c <> id) (columns s)).
Proof.
  unfold DELETE_column, Prisma.column.delete, caught. intros H Hok.
  destruct (Prisma.column.findUnique s id);
    injection H as <- <-; [split; reflexivity|simpl in Hok; lia].
Qed.

(** X11.  [useColumns.deleteColumn] keeps the column list of the client
    equal to what a refetch would return: dropping the id from the fetched
    list is fetching after the deletion, and a refused deletion changes
    neither side. *)
Theorem deleteColumn_in_sync cuid id boardId s :
  let result := useColumns.deleteColumn cuid id (fetchColumns s boardId) s in
  result.1 = fetchColumns result.2 boardId.
Proof.
  unfold useColumns.deleteColumn.
  destruct (apiService.request cuid _ s) as [answer s'] eqn:E.
  unfold apiService.request in E.
  destruct (handle cuid _ s) as [response s''] eqn:Eh.
  injection E as <- <-.
  destruct (bool_decide (200 <= status response <= 299)) eqn:Hok.
  - apply bool_decide_eq_true in Hok. simpl in Eh.
    apply DELETE_column_ok in Eh as [-> ->]; [|exact Hok].
    cbn [fst snd]. rewrite !fetchColumns_eq. cbn [columns].
    rewrite orderBy_filter. f_equal.
    rewrite !list_filter_filter. apply list_filter_iff. tauto.
  - apply bool_decide_eq_false in Hok.
    apply handle_rejected in Eh; [|exact Hok]. subst s''. reflexivity.
Qed.

(** Without [order] and [boardId], the data of an update is a patch of
    title and status that applies to every row alike. *)
Lemma column_row_patch data c c' :
  Prisma.column.row data c = inr c' ->
  data !! "order" = None -> data !! "boardId" = None ->
  exists patch : Column.t -> Column.t,
    (forall x, Prisma.column.row data x = inr (patch x)) /\
    (forall x, Column.id (patch x) = Column.id x /\
               Column.order (patch x) = Column.order x /\
               Column.boardId (patch x) = Column.boardId x).
Proof.
  unfold Prisma.column.row. intros H Ho Hb. rewrite Ho, Hb in *.
  destruct (data !! "title") as [[]|]; try discriminate H;
    destruct (data !! "status") as [[]|]; try discriminate H;
    simpl in *; eexists (fun x => Column.mk _ _ _ _ _);
    (split; [intros x; reflexivity|intros x; repeat split]).
Qed.

Lemma map_ext_elem {A B} (f g : A -> B) (l : list A) :
  (forall x, x ∈ l -> f x = g x) -> map f l = map g l.
Proof.
  intros H. apply map_ext_in. intros x Hx. apply H. now apply list_elem_of_In.
Qed.

Lemma filter_map_comm {A} (P : A -> Prop) `{!forall x, Decision (P x)}
    (f : A -> A) (l : list A) :
  (forall x, P (f x) <-> P x) -> filter P (map f l) = map f (filter P l).
Proof.
  intros HP. induction l as [|x l IH]; [reflexivity|]. simpl.
  rewrite !filter_cons, IH.
  destruct (decide (P (f x))) as [H1|H1], (decide (P x)) as [H2|H2];
    try reflexivity; exfalso; [apply H2|apply H1]; now apply HP.
Qed.

(** What a 2xx answer of [PUT /api/columns/:id] is when the body has no
    [order]: the update patches title and status of the rows of that id. *)
Lemma PUT_column_ok id req s response s' :
  req !! "order" = None ->
  PUT_column id req s = (response, s') ->
  200 <= status response <= 299 ->
  exists c (patch : Column.t -> Column.t),
    Prisma.column.findUnique s id = Some c /\
    response = respond 200 (Success (ColumnRow (patch c))) /\
    (forall x, Column.id (patch x) = Column.id x /\
               Column.order (patch x) = Column.order x /\
               Column.boardId (patch x) = Column.boardId x) /\
    s' = mkStore (boards s) (tasks s)
           (map (fun x => if bool_decide (Column.id x = id) then patch c else x)
                (columns s)).
Proof.
  intros Horder H Hok. unfold PUT_column, validated in H.
  pose (corder := body "order" true false (isInt 0)
                    "Order must be a non-negative integer").
  pose proof (validate_lookup_field validateColumnUpdate req corder "order"
                validateColumnUpdate_fields ltac:(in_list) eq_refl) as Lo.
  rewrite Horder in Lo. cbn [corder Validator.run optional fst] in Lo.
  destruct (validate validateColumnUpdate req) as [req' [|e errs]];
    [|injection H as <- <-; simpl in Hok; lia].
  cbn [fst] in Lo. cbv beta zeta in H. rewrite Lo in H.
  destruct (Prisma.column.update _ _ s) as [e|[c' s'']] eqn:Eu;
    [injection H as <- <-; destruct e; simpl in Hok; lia|].
  injection H as <- <-.
  apply column_update_inv in Eu as (c & Hfind & Hrow & _ & ->).
  destruct (column_row_patch _ c c' Hrow) as (patch & Hpatch & Hkeep);
    [object_lookup; reflexivity..|].
  rewrite Hpatch in Hrow. injection Hrow as <-.
  exists c, patch. auto.
Qed.

(** X12.  On a consistent store, [useColumns.updateColumn] (which sends a
    title and a status, never an order) keeps the column list of the
    client equal to what a refetch would return: replacing the column in
    place is fetching after the update, since the order is untouched. *)
Theorem updateColumn_in_sync cuid id data boardId s :
  consistent s ->
  let result := useColumns.updateColumn cuid id data (fetchColumns s boardId) s in
  result.1 = fetchColumns result.2 boardId.
Proof.
  intros [(_ & _ & Hc) _]. cbv zeta. unfold useColumns.updateColumn.
  destruct (apiService.request cuid _ s) as [answer s'] eqn:E.
  unfold apiService.request in E.
  destruct (handle cuid _ s) as [response s''] eqn:Eh.
  injection E as <- <-.
  destruct (bool_decide (200 <= status response <= 299)) eqn:Hok.
  - apply bool_decide_eq_true in Hok. simpl in Eh.
    apply PUT_column_ok in Eh as (c & patch & Hfind & -> & Hkeep & ->);
      [|object_lookup; reflexivity|exact Hok].
    cbn [fst snd json]. rewrite !fetchColumns_eq. cbn [columns].
    set (f := fun x : Column.t =>
           if bool_decide (Column.id x = id) then patch x else x).
    assert (forall x, x ∈ columns s ->
              (if bool_decide (Column.id x = id) then patch c else x) = f x)
      as Hsame.
    { intros x Hx. unfold f.
      destruct (bool_decide (Column.id x = id)) eqn:Ex; [|reflexivity].
      apply bool_decide_eq_true in Ex.
      pose proof (find_key_NoDup Column.id (columns s) x Hc Hx) as Hfx.
      rewrite Ex in Hfx. unfold Prisma.column.findUnique in Hfind.
      rewrite Hfind in Hfx. now injection Hfx as ->. }
    rewrite (map_ext_elem _ f (columns s)) by exact Hsame.
    rewrite (map_ext_elem _ f (Prisma.orderBy _ _ _)).
    + rewrite filter_map_comm.
      * symmetry. apply orderBy_map. intros x. unfold f.
        destruct (bool_decide (Column.id x = id)); [apply Hkeep|reflexivity].
      * intros x. unfold f.
        destruct (bool_decide (Column.id x = id)); [|reflexivity].
        now destruct (Hkeep x) as (_ & _ & ->).
    + intros x Hx. apply Hsame.
      rewrite orderBy_perm in Hx. now apply list_elem_of_filter in Hx as [_ Hx].
  - apply bool_decide_eq_false in Hok.
    apply handle_rejected in Eh; [|exact Hok]. subst s''. reflexivity.
Qed.

Lemma updateColumn_in_sync_witness :
  (useColumns.updateColumn "x" "c1"
     (useColumns.mkUpdate (Some "Reviewing") None) (fetchColumns sprint "b1")
     sprint).1 =
  fetchColumns
    (useColumns.updateColumn "x" "c1"
       (useColumns.mkUpdate (Some "Reviewing") None) (fetchColumns sprint "b1")
       sprint).2 "b1".
Proof.
  apply (updateColumn_in_sync "x" "c1"
           (useColumns.mkUpdate (Some "Reviewing") None) "b1" sprint).
  apply (bool_decide_unpack _). exact I.
Defined.

(** ** The board and task lists of the client *)

Lemma fetchBoards_eq s :
  useBoards.fetchBoards s =
  map (Prisma.board.include_tasks s) (rev (boards s)).
Proof. reflexivity. Qed.

Lemma query_idempotent q : query (query q) = query q.
Proof.
  destruct q as [x|]; [|reflexivity]. simpl.
  destruct (decide (x = "")) as [->|Hx]; [reflexivity|].
  simpl. now rewrite decide_False.
Qed.

Lemma fetchTasks_eq boardId s :
  useTasks.fetchTasks boardId s =
  map (Prisma.task.include_board s)
      (filter (fun t => Prisma.where_eq (query boardId) (Task.boardId t))
              (tasks s)).
Proof.
  unfold useTasks.fetchTasks, apiService.request. simpl.
  unfold Prisma.task.findMany. rewrite query_idempotent. f_equal.
  apply list_filter_iff. intros t. simpl. now rewrite andb_true_r.
Qed.

(** What a 2xx answer of [POST /api/boards] is. *)
Lemma POST_boards_ok cuid req s response s' :
  POST_boards cuid req s = (response, s') ->
  200 <= status response <= 299 ->
  exists board,
    response =
      respond 201 (Success (BoardData (Prisma.board.include_tasks s' board))) /\
    s' = mkStore (boards s ++ [board]) (tasks s) (columns s).
Proof.
  unfold POST_boards, validated. intros H Hok.
  destruct (validate validateBoard req) as [req' [|e errs]];
    [|injection H as <- <-; simpl in Hok; lia].
  cbv beta zeta in H.
  destruct (Prisma.board.create _ _ s) as [e|[board s'']] eqn:Ec;
    [injection H as <- <-; simpl in Hok; lia|].
  injection H as <- <-. exists board. split; [reflexivity|].
  unfold Prisma.board.create in Ec. prisma_inv Ec. now inversion Ec.
Qed.

(** X13.  [useBoards.createBoard] keeps the board list of the client equal
    to what a refetch would return: the list comes newest first, and the
    new board is put in front of it with the (empty) task list the server
    returned; a refused creation changes neither side. *)
Theorem createBoard_in_sync cuid data s :
  let result := useBoards.createBoard cuid data (useBoards.fetchBoards s) s in
  result.1 = useBoards.fetchBoards result.2.
Proof.
  cbv zeta. unfold useBoards.createBoard.
  destruct (apiService.request cuid _ s) as [answer s'] eqn:E.
  unfold apiService.request in E.
  destruct (handle cuid _ s) as [response s''] eqn:Eh.
  injection E as <- <-.
  destruct (bool_decide (200 <= status response <= 299)) eqn:Hok.
  - apply bool_decide_eq_true in Hok. simpl in Eh.
    apply POST_boards_ok in Eh as (board & -> & ->); [|exact Hok].
    cbn [fst snd json]. rewrite !fetchBoards_eq. cbn [boards].
    rewrite rev_app_distr. reflexivity.
  - apply bool_decide_eq_false in Hok.
    apply handle_rejected in Eh; [|exact Hok]. subst s''. reflexivity.
Qed.

Lemma DELETE_board_ok id s response s' :
  DELETE_board id s = (response, s') ->
  200 <= status response <= 299 ->
  s' = mkStore (filter (fun x => Board.id x <> id) (boards s))
               (filter (fun t => Task.boardId t <> id) (tasks s))
               (filter (fun c => Column.boardId c <> id) (columns s)).
Proof.
  unfold DELETE_board, Prisma.board.delete, caught. intros H Hok.
  destruct (Prisma.board.findUnique s id);
    injection H as <- <-; [reflexivity|simpl in Hok; lia].
Qed.

Lemma filter_rev {A} (P : A -> Prop) `{!forall x, Decision (P x)} (l : list A) :
  filter P (rev l) = rev (filter P l).
Proof.
  induction l as [|x l IH]; [reflexivity|]. simpl.
  rewrite filter_app, IH, !filter_cons, filter_nil.
  destruct (decide (P x)); simpl; rewrite ?app_nil_r; reflexivity.
Qed.

Lemma filter_map {A B} (P : B -> Prop) `{!forall x, Decision (P x)}
    (f : A -> B) (l : list A) :
  filter P (map f l) = map f (filter (fun x => P (f x)) l).
Proof.
  induction l as [|x l IH]; [reflexivity|]. simpl.
  rewrite !filter_cons, IH. now destruct (decide (P (f x))).
Qed.

(** X14.  [useBoards.deleteBoard] keeps the board list of the client equal
    to what a refetch would return: the other boards keep their position
    and their tasks, since the cascade removes the tasks of the deleted
    board only; a refused deletion changes neither side. *)
Theorem deleteBoard_in_sync cuid id s :
  let result := useBoards.deleteBoard cuid id (useBoards.fetchBoards s) s in
  result.1 = useBoards.fetchBoards result.2.
Proof.
  cbv zeta. unfold useBoards.deleteBoard.
  destruct (apiService.request cuid _ s) as [answer s'] eqn:E.
  unfold apiService.request in E.
  destruct (handle cuid _ s) as [response s''] eqn:Eh.
  injection E as <- <-.
  destruct (bool_decide (200 <= status response <= 299)) eqn:Hok.
  - apply bool_decide_eq_true in Hok. simpl in Eh.
    apply DELETE_board_ok in Eh as ->; [|exact Hok].
    cbn [fst snd]. rewrite !fetchBoards_eq. cbn [boards].
    rewrite filter_map, filter_rev. apply map_ext_elem.
    intros b Hb. rewrite <- filter_rev in Hb.
    apply list_elem_of_filter in Hb as [Hne _]. cbn [fst] in Hne.
    unfold Prisma.board.include_tasks. cbn [tasks]. f_equal.
    rewrite list_filter_filter. apply list_filter_iff. intros t.
    split; [|tauto]. intros Ht. split; [exact Ht|congruence].
  - apply bool_decide_eq_false in Hok.
    apply handle_rejected in Eh; [|exact Hok]. subst s''. reflexivity.
Qed.

(** What a 2xx answer of [DELETE /api/tasks/:id] is. *)
Lemma DELETE_task_ok id s response s' :
  DELETE_task id s = (response, s') ->
  200 <= status response <= 299 ->
  s' = mkStore (boards s) (filter (fun x => Task.id x <> id) (tasks s))
               (columns s).
Proof.
  unfold DELETE_task, Prisma.task.delete, caught. intros H Hok.
  destruct (Prisma.task.findUnique s id);
    injection H as <- <-; [reflexivity|simpl in Hok; lia].
Qed.

(** X15.  [useTasks.deleteTask] keeps the task list of the client equal to
    what a refetch would return, with or without a board filter; a refused
    deletion changes neither side. *)
Theorem deleteTask_in_sync cuid id boardId s :
  let result := useTasks.deleteTask cuid id (useTasks.fetchTasks boardId s) s in
  result.1 = useTasks.fetchTasks boardId result.2.
Proof.
  cbv zeta. unfold useTasks.deleteTask.
  destruct (apiService.request cuid _ s) as [answer s'] eqn:E.
  unfold apiService.request in E.
  destruct (handle cuid _ s) as [response s''] eqn:Eh.
  injection E as <- <-.
  destruct (bool_decide (200 <= status response <= 299)) eqn:Hok.
  - apply bool_decide_eq_true in Hok. simpl in Eh.
    apply DELETE_task_ok in Eh as ->; [|exact Hok].
    cbn [fst snd]. rewrite !fetchTasks_eq. cbn [tasks].
    rewrite filter_map. cbn [fst].
    change (Prisma.task.include_board (mkStore (boards s) ?t ?c))
      with (Prisma.task.include_board s).
    f_equal. rewrite !list_filter_filter. apply list_filter_iff. tauto.
  - apply bool_decide_eq_false in Hok.
    apply handle_rejected in Eh; [|exact Hok]. subst s''. reflexivity.
Qed.

(** The data of a task update that does not write [boardId] is a patch
    that applies to every row alike and keeps id and boardId. *)
Lemma task_row_patch data t t' :
  Prisma.task.row data t = inr t' ->
  data !! "boardId" = None ->
  exists patch : Task.t -> Task.t,
    (forall x, Prisma.task.row data x = inr (patch x)) /\
    (forall x, Task.id (patch x) = Task.id x /\
               Task.boardId (patch x) = Task.boardId x).
Proof.
  unfold Prisma.task.row, Prisma.defaulted. intros H Hb. rewrite Hb in *.
  destruct (data !! "title") as [v1|];
    [destruct (Prisma.String_ v1); [discriminate H|]|];
    (destruct (data !! "description") as [v2|];
      [destruct (Prisma.String_opt v2); [discriminate H|]|]);
    (destruct (data !! "status") as [v3|];
      [destruct (Prisma.String_ v3); [discriminate H|]|]);
    (destruct (data !! "priority") as [v4|];
      [destruct (Prisma.Priority_ v4); [discriminate H|]|]);
    simpl in *; eexists (fun x => Task.mk _ _ _ _ _ _);
    (split; [intros x; reflexivity|intros x; split; reflexivity]).
Qed.

(** What a 2xx answer of [PUT /api/tasks/:id] is: the update patches the
    rows of that id and never moves a task to another board. *)
Lemma PUT_task_ok id req s response s' :
  PUT_task id req s = (response, s') ->
  200 <= status response <= 299 ->
  exists t (patch : Task.t -> Task.t),
    Prisma.task.findUnique s id = Some t /\
    response =
      respond 200 (Success (TaskData (Prisma.task.include_board s (patch t)))) /\
    (forall x, Task.id (patch x) = Task.id x /\
               Task.boardId (patch x) = Task.boardId x) /\
    s' = mkStore (boards s)
           (map (fun x => if bool_decide (Task.id x = id) then patch t else x)
                (tasks s))
           (columns s).
Proof.
  unfold PUT_task, validated. intros H Hok.
  destruct (validate validateTaskUpdate req) as [req' [|e errs]];
    [|injection H as <- <-; simpl in Hok; lia].
  cbv beta zeta in H.
  destruct (Prisma.task.update _ _ s) as [e|[t' s'']] eqn:Eu;
    [injection H as <- <-; destruct e; simpl in Hok; lia|].
  injection H as <- <-.
  apply task_update_inv in Eu as (t & Hfind & Hrow & _ & ->).
  destruct (task_row_patch _ t t' Hrow) as (patch & Hpatch & Hkeep);
    [object_lookup; reflexivity|].
  rewrite Hpatch in Hrow. injection Hrow as <-.
  exists t, patch. auto.
Qed.

(** X16.  On a consistent store, [useTasks.updateTask] keeps the task list
    of the client equal to what a refetch would return, with or without a
    board filter: the update cannot move the task to another board, so
    replacing it in place is fetching after the update. *)
Theorem updateTask_in_sync cuid id data boardId s :
  consistent s ->
  let result :=
    useTasks.updateTask cuid id data (useTasks.fetchTasks boardId s) s in
  result.1 = useTasks.fetchTasks boardId result.2.
Proof.
  intros [(_ & Ht & _) _]. cbv zeta. unfold useTasks.updateTask.
  destruct (apiService.request cuid _ s) as [answer s'] eqn:E.
  unfold apiService.request in E.
  destruct (handle cuid _ s) as [response s''] eqn:Eh.
  injection E as <- <-.
  destruct (bool_decide (200 <= status response <= 299)) eqn:Hok.
  - apply bool_decide_eq_true in Hok. simpl in Eh.
    apply PUT_task_ok in Eh as (t & patch & Hfind & -> & Hkeep & ->);
      [|exact Hok].
    cbn [fst snd json]. rewrite !fetchTasks_eq. cbn [tasks].
    change (Prisma.task.include_board (mkStore (boards s) ?l ?c))
      with (Prisma.task.include_board s).
    set (f := fun x : Task.t =>
           if bool_decide (Task.id x = id) then patch x else x).
    assert (forall x, x ∈ tasks s ->
              (if bool_decide (Task.id x = id) then patch t else x) = f x)
      as Hsame.
    { intros x Hx. unfold f.
      destruct (bool_decide (Task.id x = id)) eqn:Ex; [|reflexivity].
      apply bool_decide_eq_true in Ex.
      pose proof (find_key_NoDup Task.id (tasks s) x Ht Hx) as Hfx.
      rewrite Ex in Hfx. unfold Prisma.task.findUnique in Hfind.
      rewrite Hfind in Hfx. now injection Hfx as ->. }
    rewrite (map_ext_elem _ f (tasks s)) by exact Hsame.
    rewrite filter_map_comm.
    + rewrite !map_map. apply map_ext_elem. intros x Hx.
      apply list_elem_of_filter in Hx as [_ Hx]. cbn [fst].
      rewrite <- (Hsame x Hx).
      change (Prisma.task.include_board s x).1 with x.
      now destruct (bool_decide (Task.id x = id)).
    + intros x. unfold f.
      destruct (bool_decide (Task.id x = id)); [|reflexivity].
      now destruct (Hkeep x) as [_ ->].
  - apply bool_decide_eq_false in Hok.
    apply handle_rejected in Eh; [|exact Hok]. subst s''. reflexivity.
Qed.

Lemma updateTask_in_sync_witness :
  let data := useTasks.mkUpdate (Some "Fix the bug") None (Some "DONE") None in
  let result :=
    useTasks.updateTask "x" "t1" data (useTasks.fetchTasks (Some "b1") sprint)
                        sprint in
  result.1 = useTasks.fetchTasks (Some "b1") result.2.
Proof.
  apply (updateTask_in_sync "x" "t1"
           (useTasks.mkUpdate (Some "Fix the bug") None (Some "DONE") None)
           (Some "b1") sprint).
  apply (bool_decide_unpack _). exact I.
Defined.

(** ** Which tasks the board shows *)

(** A task is shown under the rendered columns of its own status. *)
Lemma task_rendered_columns columns tasks t :
  (forall p, p ∈ effectiveColumns columns tasks ->
     (t ∈ TaskColumn.tasks p <->
      t ∈ tasks /\ Task.status t = TaskColumn.status p)) /\
  ((exists p, p ∈ effectiveColumns columns tasks /\ t ∈ TaskColumn.tasks p) <->
   t ∈ tasks /\ Task.status t ∈ allStatuses columns).
Proof.
  assert (forall p, p ∈ effectiveColumns columns tasks ->
            (t ∈ TaskColumn.tasks p <->
             t ∈ tasks /\ Task.status t = TaskColumn.status p)) as Hcol.
  { intros p Hp. unfold effectiveColumns in Hp.
    apply list_elem_of_fmap in Hp as (st & -> & _). simpl.
    unfold getTasksByStatus. rewrite list_elem_of_filter. tauto. }
  split; [exact Hcol|]. split.
  - intros (p & Hp & Ht). apply Hcol in Ht as [Ht Hst]; [|exact Hp].
    split; [exact Ht|]. rewrite Hst, <- (effectiveColumns_statuses columns tasks).
    apply list_elem_of_fmap. eauto.
  - intros [Ht Hst].
    rewrite <- (effectiveColumns_statuses columns tasks) in Hst.
    apply list_elem_of_fmap in Hst as (p & Hst & Hp).
    exists p. split; [exact Hp|]. apply Hcol; auto.
Qed.

(** X17.  BoardDetail shows a task under exactly the rendered columns
    whose status equals its own: a task of the list is shown somewhere if
    and only if its status is one of [allStatuses]; a task whose status
    is neither static nor that of a Column record is shown nowhere. *)
Theorem task_rendered_iff columns tasks t :
  (forall p, p ∈ effectiveColumns columns tasks ->
     (t ∈ TaskColumn.tasks p <->
      t ∈ tasks /\ Task.status t = TaskColumn.status p)) /\
  ((exists p, p ∈ effectiveColumns columns tasks /\ t ∈ TaskColumn.tasks p) <->
   t ∈ tasks /\ Task.status t ∈ allStatuses columns).
Proof. apply task_rendered_columns. Qed.

(** X18.  Deleting a column hides its tasks without deleting them: when
    the deleted column has a status that is not static and that no other
    column of the board carries, the tasks of the store are all kept, and
    a task of that status is shown in no column of the board any more. *)
Theorem deleteColumn_hides_tasks cuid id boardId s c :
  Prisma.column.findUnique s id = Some c ->
  isStatic (Column.status c) = false ->
  (forall c', c' ∈ columns s -> Column.boardId c' = boardId ->
              Column.status c' = Column.status c -> Column.id c' = id) ->
  let result := useColumns.deleteColumn cuid id (fetchColumns s boardId) s in
  tasks result.2 = tasks s /\
  forall shown t p,
    Task.status t = Column.status c ->
    p ∈ effectiveColumns result.1 shown -> t ∉ TaskColumn.tasks p.
Proof.
  intros Hfind Hstatic Honly. cbv zeta. unfold useColumns.deleteColumn.
  destruct (apiService.request cuid _ s) as [answer s'] eqn:E.
  unfold apiService.request in E. simpl in E.
  unfold DELETE_column, Prisma.column.delete in E. rewrite Hfind in E.
  simpl in E. injection E as <- <-. cbn [fst snd apiService.success tasks].
  split; [reflexivity|]. intros shown t p Hst Hp Ht.
  destruct (task_rendered_columns (filter (fun col => Column.id col <> id)
                                      (fetchColumns s boardId)) shown t)
    as [_ [Hshown _]].
  destruct Hshown as [_ Hin]; [eauto|].
  unfold allStatuses in Hin. apply elem_of_app in Hin as [Hin|Hin].
  - unfold isStatic in Hstatic. apply bool_decide_eq_false in Hstatic.
    apply Hstatic. now rewrite <- Hst.
  - apply list_elem_of_fmap in Hin as (c' & Hc' & Hin).
    apply list_elem_of_filter in Hin as [Hne Hin].
    rewrite fetchColumns_eq, orderBy_perm in Hin.
    apply list_elem_of_filter in Hin as [Hb Hin].
    apply Hne, Honly; [exact Hin|exact Hb|congruence].
Qed.

Lemma deleteColumn_hides_tasks_witness :
  let result := useColumns.deleteColumn "x" "c1" (fetchColumns sprint "b1") sprint in
  tasks result.2 = tasks sprint /\
  forall shown t p,
    Task.status t = "IN_REVIEW" ->
    p ∈ effectiveColumns result.1 shown -> t ∉ TaskColumn.tasks p.
Proof.
  apply (deleteColumn_hides_tasks "x" "c1" "b1" sprint
           (Column.mk "c1" "In Review" "IN_REVIEW" 0 "b1")).
  - reflexivity.
  - reflexivity.
  - intros c' Hc' _ Hst. apply list_elem_of_In in Hc'. simpl in Hc'.
    destruct Hc' as [<-|[<-|[]]]; [reflexivity|discriminate Hst].
Defined.

(** ** Dropping a task on a column *)

Lemma PUT_task_status_only id st s t :
  Prisma.task.findUnique s id = Some t ->
  let t' := Task.mk (Task.id t) (Task.title t) (Task.description t) st
                    (Task.priority t) (Task.boardId t) in
  PUT_task id {[ "status" := JStr st ]} s =
    (respond 200 (Success (TaskData (Prisma.task.include_board s t'))),
     mkStore (boards s)
       (map (fun x => if bool_decide (Task.id x = id) then t' else x) (tasks s))
       (columns s)).
Proof.
  intros Hfind t'. unfold PUT_task.
  rewrite validated_valid by reflexivity. cbv beta zeta.
  change (object _) with ({[ "status" := JStr st ]} : gmap string jsval).
  unfold Prisma.task.update.
  change (Prisma.task.row _ (Task.mk id "" None "" MEDIUM ""))
    with (inr (Task.mk id "" None st MEDIUM "") : Prisma.result Task.t).
  simpl. rewrite Hfind.
  change (Prisma.task.row _ t) with (inr t' : Prisma.result Task.t).
  reflexivity.
Qed.

(** X19.  [handleTaskDrop] moves the card: dropping an existing task of
    the board on any status (a column need not exist for it) leaves the
    task, with that status and nothing else changed, under the new status
    and under no other one, and every other task of the list where it
    was. *)
Theorem handleTaskDrop_moves cuid taskId newStatus boardId s t :
  Prisma.task.findUnique s taskId = Some t ->
  Task.boardId t = boardId ->
  let result :=
    handleTaskDrop cuid taskId newStatus
                   (useTasks.fetchTasks (Some boardId) s) s in
  let shown := map fst result.1 in
  let t' := Task.mk (Task.id t) (Task.title t) (Task.description t) newStatus
                    (Task.priority t) (Task.boardId t) in
  t' ∈ getTasksByStatus shown newStatus /\
  (forall st x, x ∈ getTasksByStatus shown st -> Task.id x = taskId ->
                st = newStatus /\ x = t') /\
  (forall x, Task.id x <> taskId ->
     (x ∈ shown <-> x ∈ map fst (useTasks.fetchTasks (Some boardId) s))).
Proof.
  intros Hfind Hboard. cbv zeta.
  unfold handleTaskDrop, useTasks.updateTask, apiService.request.
  cbn [handle].
  change (useTasks.stringify _)
    with ({[ "status" := JStr newStatus ]} : gmap string jsval).
  rewrite (PUT_task_status_only taskId newStatus s t Hfind). cbv zeta.
  cbn [status json fst snd].
  change (bool_decide (200 <= 200 <= 299)) with true. cbn iota.
  cbn [fst snd].
  set (t' := Task.mk (Task.id t) (Task.title t) (Task.description t) newStatus
                     (Task.priority t) (Task.boardId t)).
  rewrite fetchTasks_eq, !map_map. cbn [fst].
  set (L := filter _ (tasks s)).
  assert (map (fun x => (if bool_decide (Task.id (Prisma.task.include_board s x).1 = taskId)
                         then Prisma.task.include_board s t'
                         else Prisma.task.include_board s x).1) L =
          map (fun x => if bool_decide (Task.id x = taskId) then t' else x) L)
    as ->.
  { apply map_ext. intros x. cbn [Prisma.task.include_board fst].
    now destruct (bool_decide (Task.id x = taskId)). }
  change (map (fun x => (Prisma.task.include_board s x).1) L) with (map id L).
  rewrite map_id.
  apply (find_key_Some Task.id) in Hfind as [Hin Hid].
  assert (t ∈ L) as HtL.
  { unfold L. apply list_elem_of_filter. split; [|exact Hin].
    unfold query, Prisma.where_eq.
    destruct (decide (boardId = "")); [exact I|].
    now apply bool_decide_pack. }
  unfold getTasksByStatus. split; [|split].
  - apply list_elem_of_filter. split; [reflexivity|].
    apply list_elem_of_fmap. exists t. split; [|exact HtL].
    now rewrite bool_decide_eq_true_2.
  - intros st x Hx Hidx. apply list_elem_of_filter in Hx as [Hst Hx].
    apply list_elem_of_fmap in Hx as (y & Hy & _).
    destruct (bool_decide (Task.id y = taskId)) eqn:Ey.
    + subst x. split; [|reflexivity]. now rewrite <- Hst.
    + apply bool_decide_eq_false in Ey. congruence.
  - intros x Hne. rewrite list_elem_of_fmap. split.
    + intros (y & Hy & HyL).
      destruct (bool_decide (Task.id y = taskId)) eqn:Ey.
      * subst x. contradiction Hne.
      * now subst y.
    + intros Hx. exists x. split; [|exact Hx].
      now rewrite bool_decide_eq_false_2.
Qed.

Lemma handleTaskDrop_moves_witness :
  let result :=
    handleTaskDrop "x" "t1" "QA" (useTasks.fetchTasks (Some "b1") sprint) sprint in
  Task.mk "t1" "Fix bug" None "QA" MEDIUM "b1"
    ∈ getTasksByStatus (map fst result.1) "QA".
Proof.
  refine (proj1 (handleTaskDrop_moves "x" "t1" "QA" "b1" sprint
                   (Task.mk "t1" "Fix bug" None "IN_REVIEW" MEDIUM "b1") _ _));
    reflexivity.
Defined.

(** ** The forms *)

Lemma check_lookup data errors fr f :
  validation.check data errors fr !! f =
  match validation.validateField (data !! fr.1) fr.2 with
  | Some e =>
      if decide (e = "") then errors !! f
      else if decide (fr.1 = f) then Some e else errors !! f
  | None => errors !! f
  end.
Proof.
  unfold validation.check.
  destruct (validation.validateField _ _) as [e|]; [|reflexivity].
  destruct (decide (e = "")); [reflexivity|].
  destruct (decide (fr.1 = f)) as [->|Hne].
  - apply lookup_insert_eq.
  - now apply lookup_insert_ne.
Qed.

(** The entry of a field after the remaining rules have run: the error of
    its rule, or what was there when its rule reports nothing. *)
Lemma foldl_check_lookup data rules : forall errors f e,
  NoDup (map fst rules) ->
  foldl (validation.check data) errors rules !! f = Some e <->
  (exists r, (f, r) ∈ rules /\
             validation.validateField (data !! f) r = Some e /\ e <> "") \/
  ((forall r, (f, r) ∈ rules ->
      validation.validateField (data !! f) r = None \/
      validation.validateField (data !! f) r = Some "") /\
   errors !! f = Some e).
Proof.
  induction rules as [|[f0 r0] rest IH]; intros errors f e Hnd.
  - simpl. split.
    + intros H. right. split; [|exact H]. intros r Hr.
      now apply elem_of_nil in Hr.
    + intros [(r & Hr & _)|[_ H]]; [now apply elem_of_nil in Hr|exact H].
  - simpl in Hnd. apply NoDup_cons in Hnd as [Hfresh Hnd].
    cbn [foldl]. rewrite (IH _ f e Hnd), check_lookup. cbn [fst snd].
    assert (forall r, (f0, r) ∈ rest -> False) as Hnot.
    { intros r Hr. apply Hfresh. apply list_elem_of_fmap.
      now exists (f0, r). }
    destruct (decide (f0 = f)) as [->|Hne].
    + destruct (validation.validateField (data !! f) r0) as [e0|] eqn:E0;
        [destruct (decide (e0 = "")) as [->|He0]|].
      * split.
        -- intros [(r & Hr & _)|[_ H]]; [now apply Hnot in Hr|].
           right. split; [|exact H]. intros r Hr.
           apply elem_of_cons in Hr as [[= ->]|Hr]; [auto|now apply Hnot in Hr].
        -- intros [(r & Hr & Hv & He)|[_ H]].
           ++ apply elem_of_cons in Hr as [[= ->]|Hr];
                [congruence|now apply Hnot in Hr].
           ++ right. split; [|exact H]. intros r Hr. now apply Hnot in Hr.
      * split.
        -- intros [(r & Hr & _)|[_ [= ->]]]; [now apply Hnot in Hr|].
           left. exists r0. split; [left|auto].
        -- intros [(r & Hr & Hv & He)|[Hall _]].
           ++ apply elem_of_cons in Hr as [[= ->]|Hr];
                [|now apply Hnot in Hr].
              right. split; [intros r Hr; now apply Hnot in Hr|congruence].
           ++ destruct (Hall r0 ltac:(left)) as [H|H]; congruence.
      * split.
        -- intros [(r & Hr & _)|[_ H]]; [now apply Hnot in Hr|].
           right. split; [|exact H]. intros r Hr.
           apply elem_of_cons in Hr as [[= ->]|Hr]; [auto|now apply Hnot in Hr].
        -- intros [(r & Hr & Hv & He)|[_ H]].
           ++ apply elem_of_cons in Hr as [[= ->]|Hr];
                [congruence|now apply Hnot in Hr].
           ++ right. split; [|exact H]. intros r Hr. now apply Hnot in Hr.
    + assert (forall r, (f, r) ∈ (f0, r0) :: rest <-> (f, r) ∈ rest) as Hmem.
      { intros r. rewrite elem_of_cons. split; [|auto].
        intros [[= ? ?]|H]; [congruence|exact H]. }
      assert ((match validation.validateField (data !! f0) r0 with
               | Some e1 => if decide (e1 = "") then errors !! f else errors !! f
               | None => errors !! f
               end) = errors !! f) as ->.
      { destruct (validation.validateField _ _) as [e1|]; [|reflexivity].
        now destruct (decide (e1 = "")). }
      split.
      * intros [(r & Hr & Hv)|[Hall H]].
        -- left. exists r. now rewrite Hmem.
        -- right. split; [|exact H]. intros r Hr. apply Hall. now apply Hmem.
      * intros [(r & Hr & Hv)|[Hall H]].
        -- left. exists r. now rewrite <- Hmem.
        -- right. split; [|exact H]. intros r Hr. apply Hall. now apply Hmem.
Qed.

Lemma boardValidationRules_fields :
  NoDup (map fst validation.boardValidationRules).
Proof. apply (bool_decide_unpack _). exact I. Qed.

Lemma taskValidationRules_fields :
  NoDup (map fst validation.taskValidationRules).
Proof. apply (bool_decide_unpack _). exact I. Qed.

Lemma validateForm_lookup data rules f e :
  NoDup (map fst rules) ->
  validation.validateForm data rules !! f = Some e <->
  exists r, (f, r) ∈ rules /\
            validation.validateField (data !! f) r = Some e /\ e <> "".
Proof.
  intros Hnd. unfold validation.validateForm.
  rewrite (foldl_check_lookup data rules ∅ f e Hnd). split; [|auto].
  intros [H|[_ H]]; [exact H|]. rewrite lookup_empty in H. discriminate H.
Qed.

Lemma validateForm_valid data rules :
  NoDup (map fst rules) ->
  validation.validateForm data rules = ∅ <->
  forall f r, (f, r) ∈ rules ->
    validation.validateField (data !! f) r = None \/
    validation.validateField (data !! f) r = Some "".
Proof.
  intros Hnd. split.
  - intros Hempty f r Hr.
    destruct (validation.validateField (data !! f) r) as [e|] eqn:E; [|auto].
    destruct (decide (e = "")) as [->|He]; [auto|]. exfalso.
    assert (validation.validateForm data rules !! f = Some e) as H
      by (apply validateForm_lookup; eauto).
    rewrite Hempty, lookup_empty in H. discriminate H.
  - intros Hall. apply map_empty. intros f.
    destruct (validation.validateForm data rules !! f) as [e|] eqn:E;
      [|reflexivity].
    apply validateForm_lookup in E as (r & Hr & Hv & He); [|exact Hnd].
    destruct (Hall f r Hr) as [H|H]; congruence.
Qed.



(** X20.  The form of EditTaskModal never reaches the server: it is
    validated against [taskValidationRules], which require a [boardId]
    that the form (an [UpdateTaskData]) does not hold, so every submit
    stops at the validation with "This field is required" for [boardId]
    and leaves the task list and the store as they were. *)
Theorem EditTaskModal_never_submits cuid taskId form tasks s :
  let outcome := EditTaskModal.handleSubmit cuid taskId form tasks s in
  outcome.1 !! "boardId" = Some "This field is required" /\
  outcome.2 = (tasks, s).
Proof.
  cbv zeta. unfold EditTaskModal.handleSubmit.
  set (errors := validation.validateForm _ _).
  assert (errors !! "boardId" = Some "This field is required") as Herr.
  { apply validateForm_lookup; [apply taskValidationRules_fields|].
    exists (validation.rule true None None None None).
    split; [unfold validation.taskValidationRules; in_list|].
    assert (EditTaskModal.fields form !! "boardId" = None) as ->
      by (unfold EditTaskModal.fields; object_lookup; reflexivity).
    split; [reflexivity|discriminate]. }
  cbv zeta. destruct (decide (errors = ∅)) as [He|_]; [|auto].
  rewrite He, lookup_empty in Herr. discriminate Herr.
Qed.

(** ** The form of CreateBoardModal against the server's validation *)

Lemma length_string_of_list l :
  String.length (string_of_list_ascii l) = length l.
Proof. induction l as [|c l IH]; simpl; congruence. Qed.

Lemma length_list_of_string s :
  length (list_ascii_of_string s) = String.length s.
Proof. induction s as [|c s IH]; simpl; congruence. Qed.

Lemma ltrim_chars_length {A} (space : A -> bool) l :
  (length (Js.ltrim_chars space l) <= length l)%nat.
Proof.
  induction l as [|c l IH]; simpl; [lia|].
  destruct (space c); simpl; lia.
Qed.

Lemma trim_length s : (String.length (Js.trim s) <= String.length s)%nat.
Proof.
  unfold Js.trim, Js.trim_chars, Js.rtrim_chars.
  rewrite length_string_of_list, length_rev, <- length_list_of_string.
  etransitivity; [apply ltrim_chars_length|].
  rewrite length_rev. apply ltrim_chars_length.
Qed.

(** What the client's rules for a board accept. *)
Lemma board_form_valid title description :
  validation.validateForm
    (useBoards.stringify (useBoards.mkCreate title description))
    validation.boardValidationRules = ∅ ->
  Js.trim title <> "" /\
  (String.length title <= 100)%nat /\
  (String.length description <= 500)%nat.
Proof.
  intros Hvalid.
  pose proof (proj1 (validateForm_valid _ _ boardValidationRules_fields)
                Hvalid) as Hall.
  pose proof (Hall "title" _ ltac:(left)) as Ht.
  pose proof (Hall "description" _ ltac:(right; left)) as Hd.
  clear Hvalid Hall. unfold useBoards.stringify in Ht, Hd.
  cbn [useBoards.title useBoards.description] in Ht, Hd.
  rewrite object_lookup_eq in Ht.
  rewrite object_lookup_ne, object_lookup_eq in Hd by discriminate.
  unfold validation.validateField in Ht, Hd.
  cbn [validation.required validation.minLength validation.maxLength
       validation.pattern validation.custom truthy andb orb negb
       validation.otherwise] in Ht, Hd.
  split; [|split].
  - intros Hblank. rewrite Hblank in Ht.
    destruct (bool_decide (title = "")); simpl in Ht;
      destruct Ht as [Ht|Ht]; discriminate Ht.
  - destruct (String.length title <=? 100)%nat eqn:Hlen;
      [now apply Nat.leb_le in Hlen|].
    apply Nat.leb_gt in Hlen.
    destruct (bool_decide (title = "")) eqn:Ee;
      [apply bool_decide_eq_true in Ee; subst title; simpl in Hlen; lia|].
    destruct (bool_decide (Js.trim title = "")); simpl in Ht;
      [destruct Ht as [Ht|Ht]; discriminate Ht|].
    destruct (String.length title <? 1)%nat eqn:H1;
      [apply Nat.ltb_lt in H1; lia|].
    apply Nat.ltb_lt in Hlen. rewrite Hlen in Ht. simpl in Ht.
    destruct Ht as [Ht|Ht]; discriminate Ht.
  - destruct (String.length description <=? 500)%nat eqn:Hlen;
      [now apply Nat.leb_le in Hlen|].
    apply Nat.leb_gt in Hlen.
    destruct (bool_decide (description = "")) eqn:Ee;
      [apply bool_decide_eq_true in Ee; subst description; simpl in Hlen; lia|].
    apply Nat.ltb_lt in Hlen. simpl in Hd. rewrite Hlen in Hd. simpl in Hd.
    destruct Hd as [Hd|Hd]; discriminate Hd.
Qed.

(** X22.  Whatever ASCII text CreateBoardModal submits, the server
    accepts: a form that passes the client's rules also passes
    [validateBoard], so on a consistent store and with a fresh id the
    board is created with the trimmed title and description and is put in
    front of the client's list with no tasks. *)
Theorem CreateBoardModal_submits cuid form local s :
  consistent s ->
  Prisma.board.findUnique s cuid = None ->
  Js.ascii_text (useBoards.title form) ->
  Js.ascii_text (useBoards.description form) ->
  validation.validateForm (useBoards.stringify form)
                          validation.boardValidationRules = ∅ ->
  let board :=
    Board.mk cuid (Js.trim (useBoards.title form))
             (Some (Js.trim (useBoards.description form))) in
  CreateBoardModal.handleSubmit cuid form local s =
    (∅, ((board, []) :: local,
         mkStore (boards s ++ [board]) (tasks s) (columns s))).
Proof.
  intros Hs Hfresh _ _ Hvalid board. unfold CreateBoardModal.handleSubmit.
  cbv zeta. rewrite Hvalid. rewrite decide_True by reflexivity.
  destruct form as [title description].
  apply board_form_valid in Hvalid as (Hblank & Htitle & Hdesc).
  pose proof (trim_length title) as Ht.
  pose proof (trim_length description) as Hd.
  unfold useBoards.createBoard, apiService.request.
  rewrite (POST_boards_accepted cuid _ s Hs); [reflexivity| | |exact Hfresh].
  - unfold useBoards.stringify. rewrite object_lookup_eq.
    change (toString (Some (JStr ?x))) with x.
    cbn [useBoards.title]. split; [|lia].
    destruct (Js.trim title); [contradiction|simpl; lia].
  - unfold useBoards.stringify.
    rewrite object_lookup_ne, object_lookup_eq by discriminate.
    intros v [= <-]. change (toString (Some (JStr ?x))) with x.
    cbn [useBoards.description]. lia.
Qed.

Lemma CreateBoardModal_submits_witness :
  CreateBoardModal.handleSubmit "b2" (useBoards.mkCreate " Sprint 2" "")
                                [] sprint =
    (∅, ([(Board.mk "b2" "Sprint 2" (Some ""), [])],
         mkStore (boards sprint ++ [Board.mk "b2" "Sprint 2" (Some "")])
                 (tasks sprint) (columns sprint))).
Proof.
  apply (CreateBoardModal_submits "b2" (useBoards.mkCreate " Sprint 2" "")
           [] sprint).
  - apply (bool_decide_unpack _). exact I.
  - reflexivity.
  - apply (bool_decide_unpack _). vm_compute. exact I.
  - apply (bool_decide_unpack _). vm_compute. exact I.
  - apply (bool_decide_unpack _). vm_compute. exact I.
Defined.

(** ** The form of CreateTaskModal *)

(** What the client's rules for a task accept. *)
Lemma task_form_valid boardId form :
  validation.validateForm (CreateTaskModal.fields boardId form)
                          validation.taskValidationRules = ∅ ->
  Js.trim (CreateTaskModal.title form) <> "" /\
  (String.length (CreateTaskModal.title form) <= 200)%nat /\
  (String.length (CreateTaskModal.description form) <= 1000)%nat.
Proof.
  intros Hvalid. destruct form as [title description st priority].
  pose proof (proj1 (validateForm_valid _ _ taskValidationRules_fields)
                Hvalid) as Hall.
  pose proof (Hall "title" _ ltac:(left)) as Ht.
  pose proof (Hall "description" _ ltac:(right; left)) as Hd.
  clear Hvalid Hall. unfold CreateTaskModal.fields in Ht, Hd.
  cbn [CreateTaskModal.title CreateTaskModal.description] in *.
  rewrite object_lookup_eq in Ht.
  rewrite object_lookup_ne, object_lookup_eq in Hd by discriminate.
  unfold validation.validateField in Ht, Hd.
  cbn [validation.required validation.minLength validation.maxLength
       validation.pattern validation.custom truthy andb orb negb
       validation.otherwise] in Ht, Hd.
  split; [|split].
  - intros Hblank. rewrite Hblank in Ht.
    destruct (bool_decide (title = "")); simpl in Ht;
      destruct Ht as [Ht|Ht]; discriminate Ht.
  - destruct (String.length title <=? 200)%nat eqn:Hlen;
      [now apply Nat.leb_le in Hlen|].
    apply Nat.leb_gt in Hlen.
    destruct (bool_decide (title = "")) eqn:Ee;
      [apply bool_decide_eq_true in Ee; subst title; simpl in Hlen; lia|].
    destruct (bool_decide (Js.trim title = "")); simpl in Ht;
      [destruct Ht as [Ht|Ht]; discriminate Ht|].
    destruct (String.length title <? 1)%nat eqn:H1;
      [apply Nat.ltb_lt in H1; lia|].
    apply Nat.ltb_lt in Hlen. rewrite Hlen in Ht. simpl in Ht.
    destruct Ht as [Ht|Ht]; discriminate Ht.
  - destruct (String.length description <=? 1000)%nat eqn:Hlen;
      [now apply Nat.leb_le in Hlen|].
    apply Nat.leb_gt in Hlen.
    destruct (bool_decide (description = "")) eqn:Ee;
      [apply bool_decide_eq_true in Ee; subst description; simpl in Hlen; lia|].
    apply Nat.ltb_lt in Hlen. simpl in Hd. rewrite Hlen in Hd. simpl in Hd.
    destruct Hd as [Hd|Hd]; discriminate Hd.
Qed.

(** A form that passes the client's rules and holds values of the two
    [select] elements passes [validateTask]. *)
Lemma task_form_accepted boardId form :
  validation.validateForm (CreateTaskModal.fields boardId form)
                          validation.taskValidationRules = ∅ ->
  CreateTaskModal.priority form ∈ CreateTaskModal.priorityOptions ->
  (validate validateTask (CreateTaskModal.fields boardId form)).2 = [].
Proof.
  intros Hvalid Hprio.
  apply task_form_valid in Hvalid as (Hblank & Htitle & Hdesc).
  destruct form as [title description st priority].
  cbn [CreateTaskModal.title CreateTaskModal.description
       CreateTaskModal.priority] in *.
  pose proof (trim_length title) as Ht.
  pose proof (trim_length description) as Hd.
  destruct (validate_spec validateTask (CreateTaskModal.fields boardId
              (CreateTaskModal.mkForm title description st priority))
              validateTask_fields) as [-> _].
  unfold validateTask, CreateTaskModal.fields.
  cbn [flat_map field CreateTaskModal.title CreateTaskModal.description
       CreateTaskModal.status CreateTaskModal.priority].
  object_lookup. rewrite !run_Some.
  cbn [trim validator snd passes toString from_option].
  assert ((1 <=? String.length (Js.trim title))%nat = true) as ->.
  { apply Nat.leb_le. destruct (Js.trim title); [contradiction|simpl; lia]. }
  assert ((String.length (Js.trim title) <=? 200)%nat = true) as ->
    by (apply Nat.leb_le; lia).
  assert ((String.length (Js.trim description) <=? 1000)%nat = true) as ->
    by (apply Nat.leb_le; lia).
  rewrite (bool_decide_eq_true_2 _ Hprio). reflexivity.
Qed.

(** X23.  Whatever ASCII text CreateTaskModal submits for an existing
    board, the server accepts: a form that passes the client's rules, with
    the status and the priority its two selects offer, is stored (with a
    fresh id)
    as a task of the board with the trimmed title and the chosen status;
    the task goes to the end of the client's list, which equals what a
    refetch would return, and it is shown in a column whatever Column
    records the board has, the offered statuses being the static ones. *)
Theorem CreateTaskModal_submits cuid boardId board form s :
  Prisma.board.findUnique s boardId = Some board ->
  Prisma.task.findUnique s cuid = None ->
  Js.ascii_text boardId ->
  Js.ascii_text (CreateTaskModal.title form) ->
  Js.ascii_text (CreateTaskModal.description form) ->
  CreateTaskModal.status form ∈ CreateTaskModal.statusOptions ->
  CreateTaskModal.priority form ∈ CreateTaskModal.priorityOptions ->
  validation.validateForm (CreateTaskModal.fields boardId form)
                          validation.taskValidationRules = ∅ ->
  let outcome :=
    CreateTaskModal.handleSubmit cuid boardId form
      (useTasks.fetchTasks (Some boardId) s) s in
  exists task,
    outcome.1 = ∅ /\
    outcome.2.2 = mkStore (boards s) (tasks s ++ [task]) (columns s) /\
    Task.id task = cuid /\
    Task.boardId task = boardId /\
    Task.title task = Js.trim (CreateTaskModal.title form) /\
    Task.status task = CreateTaskModal.status form /\
    outcome.2.1 = useTasks.fetchTasks (Some boardId) s ++
                  [(task, Some (boardId, Board.title board))] /\
    outcome.2.1 = useTasks.fetchTasks (Some boardId) outcome.2.2 /\
    forall columns,
      exists p, p ∈ effectiveColumns columns (map fst outcome.2.1) /\
                task ∈ TaskColumn.tasks p.
Proof.
  intros Hboard Hfresh _ _ _ Hstatus Hprio Hvalid. cbv zeta.
  unfold CreateTaskModal.handleSubmit. cbv zeta.
  rewrite Hvalid, decide_True by reflexivity.
  pose proof (task_form_accepted boardId form Hvalid Hprio) as Hserver.
  unfold useTasks.createTask, apiService.request.
  cbn [useTasks.new_title useTasks.new_description useTasks.new_status
       useTasks.new_priority useTasks.boardId fmap option_fmap option_map].
  fold (CreateTaskModal.fields boardId form).
  destruct (POST_tasks_accepted cuid (CreateTaskModal.fields boardId form) s
              boardId board Hserver)
    as (task & -> & Hid & Hb & Htitle & Hst & _);
    [unfold CreateTaskModal.fields; object_lookup; reflexivity
    |exact Hboard|exact Hfresh|].
  unfold CreateTaskModal.fields in Htitle, Hst.
  rewrite object_lookup_eq in Htitle.
  rewrite !object_lookup_ne, object_lookup_eq in Hst by discriminate.
  change (toString (Some (JStr ?x))) with x in Htitle.
  assert (CreateTaskModal.status form <> "") as Hne.
  { intros He. rewrite He in Hstatus. apply list_elem_of_In in Hstatus.
    simpl in Hstatus. repeat (destruct Hstatus as [Hstatus|Hstatus];
                              [discriminate Hstatus|]).
    destruct Hstatus. }
  rewrite decide_False in Hst by exact Hne.
  cbn [status json fst snd].
  change (bool_decide (200 <= 201 <= 299)) with true. cbn iota.
  cbn [fst snd]. exists task.
  assert (useTasks.fetchTasks (Some boardId)
            (mkStore (boards s) (tasks s ++ [task]) (columns s)) =
          useTasks.fetchTasks (Some boardId) s ++
          [(task, Some (boardId, Board.title board))]) as Hsync.
  { rewrite !fetchTasks_eq. cbn [tasks].
    change (Prisma.task.include_board (mkStore (boards s) ?l ?c))
      with (Prisma.task.include_board s).
    rewrite filter_app, map_app. f_equal.
    rewrite filter_cons, filter_nil.
    assert (Is_true (Prisma.where_eq (query (Some boardId)) (Task.boardId task)))
      as HW.
    { unfold query, Prisma.where_eq.
      destruct (decide (boardId = "")); [exact I|].
      now apply bool_decide_pack. }
    rewrite decide_True by exact HW. cbn [map].
    unfold Prisma.task.include_board. rewrite Hb.
    now rewrite (board_ref_found s boardId board Hboard). }
  repeat (split; [first [reflexivity | assumption]|]).
  split; [now rewrite Hsync|].
  intros columns.
  destruct (task_rendered_columns columns
              (map fst (useTasks.fetchTasks (Some boardId) s ++
                        [(task, Some (boardId, Board.title board))])) task)
    as [_ Hshown].
  apply Hshown. split.
  - rewrite map_app. apply elem_of_app. right. left.
  - rewrite Hst. unfold allStatuses. apply elem_of_app. left. exact Hstatus.
Qed.

Lemma CreateTaskModal_submits_witness :
  let outcome :=
    CreateTaskModal.handleSubmit "t2" "b1"
      (CreateTaskModal.mkForm " Write tests" "" "DONE" "HIGH")
      (useTasks.fetchTasks (Some "b1") sprint) sprint in
  exists task,
    outcome.2.2 = mkStore (boards sprint) (tasks sprint ++ [task])
                          (columns sprint) /\
    Task.title task = "Write tests" /\
    Task.status task = "DONE".
Proof.
  destruct (CreateTaskModal_submits "t2" "b1" (Board.mk "b1" "Sprint 1" None)
              (CreateTaskModal.mkForm " Write tests" "" "DONE" "HIGH") sprint)
    as (task & _ & Hstore & _ & _ & Htitle & Hstatus & _).
  - reflexivity.
  - reflexivity.
  - apply (bool_decide_unpack _). vm_compute. exact I.
  - apply (bool_decide_unpack _). vm_compute. exact I.
  - apply (bool_decide_unpack _). vm_compute. exact I.
  - unfold CreateTaskModal.statusOptions. in_list.
  - unfold CreateTaskModal.priorityOptions. in_list.
  - apply (bool_decide_unpack _). vm_compute. exact I.
  - exists task. split; [exact Hstore|]. split; [exact Htitle|exact Hstatus].
Defined.

(** ** Updating a board *)

Lemma find_key_replace_ne {R} (key : R -> string) id id' r (l : list R) :
  key r = id -> id' <> id ->
  List.find (fun x => bool_decide (key x = id'))
            (map (fun x => if bool_decide (key x = id) then r else x) l) =
  List.find (fun x => bool_decide (key x = id')) l.
Proof.
  intros Hr Hne. induction l as [|x l IH]; [reflexivity|]. simpl.
  destruct (bool_decide (key x = id)) eqn:Ex; simpl.
  - apply bool_decide_eq_true in Ex.
    rewrite !bool_decide_eq_false_2 by congruence. exact IH.
  - destruct (bool_decide (key x = id')); [reflexivity|exact IH].
Qed.

(** A valid body on an existing board: title and description are replaced
    by their trimmed values; a body without description keeps the stored
    one. *)
Lemma PUT_board_accepted id req s b :
  Prisma.board.findUnique s id = Some b ->
  (1 <= String.length (Js.trim (toString (req !! "title"))) <= 100)%nat ->
  (forall v, req !! "description" = Some v ->
             String.length (Js.trim (toString (Some v))) <= 500)%nat ->
  let b' :=
    Board.mk (Board.id b) (Js.trim (toString (req !! "title")))
             (match req !! "description" with
              | Some v => Some (Js.trim (toString (Some v)))
              | None => Board.description b
              end) in
  let s' :=
    mkStore (map (fun x => if bool_decide (Board.id x = id) then b' else x)
                 (boards s))
            (tasks s) (columns s) in
  PUT_board id req s =
    (respond 200 (Success (BoardData (Prisma.board.include_tasks s' b'))), s').
Proof.
  intros Hfind Htitle Hdesc b' s'.
  pose (ctitle := body "title" false true (isLength 1 (Some 100%nat))
                    "Title must be between 1 and 100 characters").
  pose (cdesc := body "description" true true (isLength 0 (Some 500%nat))
                   "Description must be less than 500 characters").
  assert (Hrt : Validator.run ctitle (req !! "title") =
                (Some (JStr (Js.trim (toString (req !! "title")))), [])).
  { rewrite run_required by reflexivity. cbn [ctitle trim validator].
    unfold passes. cbn [toString from_option].
    destruct Htitle as [H1 H2].
    apply Nat.leb_le in H1, H2. now rewrite H1, H2. }
  assert (Hrd : Validator.run cdesc (req !! "description") =
                ((fun v => JStr (Js.trim (toString (Some v)))) <$>
                   req !! "description", [])).
  { destruct (req !! "description") as [v|] eqn:Ev; [|reflexivity].
    rewrite run_Some. cbn [cdesc trim validator fmap option_fmap option_map].
    unfold passes. cbn [from_option].
    change (toString (Some (JStr ?x))) with x.
    specialize (Hdesc v eq_refl). apply Nat.leb_le in Hdesc.
    now rewrite Hdesc. }
  assert (Hvalid : (validate validateBoard req).2 = []).
  { destruct (validate_spec validateBoard req validateBoard_fields) as [-> _].
    unfold validateBoard. cbn [flat_map field].
    fold ctitle cdesc. now rewrite Hrt, Hrd. }
  unfold PUT_board. rewrite validated_valid by exact Hvalid.
  cbv beta zeta.
  rewrite (validate_lookup_field validateBoard req ctitle "title"
             validateBoard_fields) by first [in_list | reflexivity].
  rewrite (validate_lookup_field validateBoard req cdesc "description"
             validateBoard_fields) by first [in_list | reflexivity].
  rewrite Hrt, Hrd. cbn [fst].
  unfold Prisma.board.update, Prisma.board.row. rewrite Hfind.
  object_lookup. unfold s', b'.
  destruct (req !! "description") as [v|];
    cbn [fmap option_fmap option_map]; object_lookup;
    cbn [Prisma.required Prisma.defaulted Prisma.String_ Prisma.String_opt
           Prisma.bind Board.title Board.description Board.id];
    reflexivity.
Qed.

(** X24.  [PUT /api/boards/:id] with a title of ASCII text whose trimmed
    length is between 1 and 100 (and a description, if any, of ASCII text
    whose trimmed length is at most 500) on an existing board is answered
    200: the board keeps its id and takes the trimmed title and, when the
    body has one, the trimmed description; its tasks, every column and
    every other board are left as they were. *)
Theorem PUT_board_updated cuid id req s b title description :
  Prisma.board.findUnique s id = Some b ->
  req !! "title" = Some (JStr title) ->
  req !! "description" = JStr <$> description ->
  Js.ascii_text title ->
  (1 <= String.length (Js.trim title) <= 100)%nat ->
  (forall d, description = Some d ->
             Js.ascii_text d /\ (String.length (Js.trim d) <= 500)%nat) ->
  let b' :=
    Board.mk id (Js.trim title)
             (match description with
              | Some d => Some (Js.trim d)
              | None => Board.description b
              end) in
  let result := handle cuid (PUT_api_boards_id id req) s in
  result.1 =
    respond 200 (Success (BoardData
      (b', filter (fun t => Task.boardId t = id) (tasks s)))) /\
  tasks result.2 = tasks s /\
  columns result.2 = columns s /\
  Prisma.board.findUnique result.2 id = Some b' /\
  forall id', id' <> id ->
    Prisma.board.findUnique result.2 id' = Prisma.board.findUnique s id'.
Proof.
  intros Hfind Ht Hd _ Htitle Hdesc. cbv zeta. cbn [handle].
  pose proof (PUT_board_accepted id req s b Hfind) as H.
  rewrite Ht, Hd in H. rewrite H; clear H.
  - cbv zeta.
    apply (find_key_Some Board.id) in Hfind as Hb. destruct Hb as [_ Hid].
    rewrite Hid. cbn [fst snd tasks columns].
    assert (match JStr <$> description with
            | Some v => Some (Js.trim (toString (Some v)))
            | None => Board.description b
            end =
            match description with
            | Some d => Some (Js.trim d)
            | None => Board.description b
            end) as -> by (now destruct description).
    change (toString (Some (JStr title))) with title.
    split; [reflexivity|]. split; [reflexivity|]. split; [reflexivity|].
    unfold Prisma.board.findUnique. cbn [boards]. split.
    + now apply (find_key_replace Board.id) with (x := b).
    + intros id' Hne. now apply (find_key_replace_ne Board.id).
  - exact Htitle.
  - destruct description as [d|]; intros v Hv; [|discriminate Hv].
    injection Hv as <-. now apply Hdesc.
Qed.

Lemma PUT_board_updated_witness :
  (handle "x" (PUT_api_boards_id "b1" {[ "title" := JStr " Sprint 1b " ]})
          sprint).1 =
    respond 200 (Success (BoardData
      (Board.mk "b1" "Sprint 1b" None,
       [Task.mk "t1" "Fix bug" None "IN_REVIEW" MEDIUM "b1"]))).
Proof.
  refine (proj1 (PUT_board_updated "x" "b1" {[ "title" := JStr " Sprint 1b " ]}
                   sprint (Board.mk "b1" "Sprint 1" None) " Sprint 1b " None
                   _ _ _ _ _ _)).
  - reflexivity.
  - reflexivity.
  - reflexivity.
  - apply (bool_decide_unpack _). vm_compute. exact I.
  - vm_compute. lia.
  - intros d Hd. discriminate Hd.
Defined.

(** X25.  Whatever ASCII text EditBoardModal submits for an existing
    board, the server accepts: a form that passes the client's rules also
    passes
    [validateBoard]; the board takes the trimmed title and description,
    tasks and columns are untouched, and the board list of the modal's
    [useBoards] equals what a refetch would return. *)
Theorem EditBoardModal_submits cuid id form s b :
  Prisma.board.findUnique s id = Some b ->
  Js.ascii_text (EditBoardModal.title form) ->
  Js.ascii_text (EditBoardModal.description form) ->
  validation.validateForm (EditBoardModal.fields form)
                          validation.boardValidationRules = ∅ ->
  let outcome :=
    EditBoardModal.handleSubmit cuid id form (useBoards.fetchBoards s) s in
  let b' :=
    Board.mk id (Js.trim (EditBoardModal.title form))
             (Some (Js.trim (EditBoardModal.description form))) in
  outcome.1 = ∅ /\
  outcome.2.2 =
    mkStore (map (fun x => if bool_decide (Board.id x = id) then b' else x)
                 (boards s))
            (tasks s) (columns s) /\
  outcome.2.1 = useBoards.fetchBoards outcome.2.2.
Proof.
  intros Hfind _ _ Hvalid. cbv zeta. unfold EditBoardModal.handleSubmit.
  cbv zeta. rewrite Hvalid, decide_True by reflexivity.
  destruct form as [title description].
  apply (board_form_valid title description) in Hvalid
    as (Hblank & Htitle & Hdesc).
  pose proof (trim_length title) as Ht.
  pose proof (trim_length description) as Hd.
  unfold useBoards.updateBoard, apiService.request. cbn [handle].
  cbn [useBoards.new_title useBoards.new_description EditBoardModal.title
       EditBoardModal.description fmap option_fmap option_map].
  rewrite (PUT_board_accepted id _ s b Hfind).
  - cbv zeta. rewrite !object_lookup_eq.
    rewrite !object_lookup_ne, !object_lookup_eq by discriminate.
    change (toString (Some (JStr ?x))) with x.
    apply (find_key_Some Board.id) in Hfind as [_ ->].
    cbn [status json fst snd].
    change (bool_decide (200 <= 200 <= 299)) with true. cbn iota.
    cbn [fst snd]. split; [reflexivity|]. split; [reflexivity|].
    rewrite !fetchBoards_eq. cbn [boards].
    rewrite <- map_rev, !map_map. apply map_ext. intros x.
    unfold Prisma.board.include_tasks. cbn [fst tasks].
    now destruct (bool_decide (Board.id x = id)).
  - rewrite object_lookup_eq.
    change (toString (Some (JStr ?x))) with x. split; [|lia].
    destruct (Js.trim title); [contradiction|simpl; lia].
  - rewrite object_lookup_ne, object_lookup_eq by discriminate.
    intros v [= <-]. change (toString (Some (JStr ?x))) with x. lia.
Qed.

Lemma EditBoardModal_submits_witness :
  let outcome :=
    EditBoardModal.handleSubmit "x" "b1"
      (EditBoardModal.mkForm "Sprint 1b " "") (useBoards.fetchBoards sprint)
      sprint in
  outcome.1 = ∅ /\
  boards outcome.2.2 = [Board.mk "b1" "Sprint 1b" (Some "")] /\
  outcome.2.1 = useBoards.fetchBoards outcome.2.2.
Proof.
  destruct (EditBoardModal_submits "x" "b1"
              (EditBoardModal.mkForm "Sprint 1b " "") sprint
              (Board.mk "b1" "Sprint 1" None))
    as (Herrors & Hstore & Hsync).
  - reflexivity.
  - apply (bool_decide_unpack _). vm_compute. exact I.
  - apply (bool_decide_unpack _). vm_compute. exact I.
  - apply (bool_decide_unpack _). vm_compute. exact I.
  - split; [exact Herrors|]. split; [|exact Hsync].
    rewrite Hstore. reflexivity.
Defined.

(** ** What a rendered column shows and deletes *)

(** X26.  The header of every column BoardDetail renders is the title
    BoardDetail passes, that is the title of the first Column record of
    the status or else the status itself: the labels of [getStatusLabel]
    (DOING for IN_PROGRESS) are never shown on the board. *)
Theorem rendered_header columns tasks p :
  p ∈ effectiveColumns columns tasks ->
  TaskColumn.header p = TaskColumn.title p /\
  TaskColumn.header p =
    match findColumn columns (TaskColumn.status p) with
    | Some c => if decide (Column.title c = "") then TaskColumn.status p
                else Column.title c
    | None => TaskColumn.status p
    end.
Proof.
  intros Hp. apply effectiveColumns_elem in Hp as (Ht & _ & _).
  assert (TaskColumn.header p = TaskColumn.title p) as Hh.
  { unfold TaskColumn.header, Js.or_else.
    destruct (decide (TaskColumn.title p = "")) as [He|]; [|reflexivity].
    rewrite He. rewrite He in Ht. unfold Js.or_else in Ht.
    destruct (decide (from_option Column.title "" _ = ""));
      [|congruence].
    rewrite <- Ht. reflexivity. }
  split; [exact Hh|]. rewrite Hh, Ht. unfold Js.or_else.
  now destruct (findColumn columns (TaskColumn.status p)).
Qed.

Lemma rendered_header_witness :
  let p := TaskColumn.mk "IN_PROGRESS" "IN_PROGRESS" [] true None in
  TaskColumn.header p = "IN_PROGRESS".
Proof.
  refine (proj1 (rendered_header [] [] _ _)).
  unfold effectiveColumns. simpl. in_list.
Defined.

Lemma map_lookup {A B} (f : A -> B) (l : list A) (i : nat) :
  map f l !! i = f <$> l !! i.
Proof. apply list_lookup_fmap. Qed.

(** X27.  When the Column records of the list have distinct statuses, the
    column rendered for the record at position [i] (after the three static
    ones) shows the record's own title and tasks, and its delete callback,
    present when the status is not static, passes the record's own id. *)
Theorem rendered_custom_column columns tasks i c :
  NoDup (map Column.status columns) ->
  columns !! i = Some c ->
  effectiveColumns columns tasks !! (3 + i)%nat =
    Some {| TaskColumn.status := Column.status c;
            TaskColumn.title := Js.or_else (Column.title c) (Column.status c);
            TaskColumn.tasks := getTasksByStatus tasks (Column.status c);
            TaskColumn.isStatic := isStatic (Column.status c);
            TaskColumn.onDeleteColumn :=
              if isStatic (Column.status c) then None
              else Some (Js.or_else (Column.id c) "") |}.
Proof.
  intros Hnd Hc. unfold effectiveColumns, allStatuses.
  rewrite map_lookup.
  change ((staticStatuses ++ map Column.status columns) !! (3 + i)%nat)
    with (map Column.status columns !! i).
  rewrite map_lookup, Hc. cbn [fmap option_fmap option_map].
  assert (findColumn columns (Column.status c) = Some c) as ->.
  { apply (find_key_NoDup Column.status); [exact Hnd|].
    now apply list_elem_of_lookup_2 in Hc. }
  reflexivity.
Qed.

Lemma rendered_custom_column_witness :
  effectiveColumns (fetchColumns sprint "b1") [] !! 4%nat =
    Some (TaskColumn.mk "QA" "QA" [] false (Some "c2")).
Proof.
  apply (rendered_custom_column (fetchColumns sprint "b1") [] 1
           (Column.mk "c2" "QA" "QA" 1 "b1")).
  - apply (bool_decide_unpack _). vm_compute. exact I.
  - reflexivity.
Defined.

(** ** Deleting a task *)

Lemma find_key_filter_other {R} (key : R -> string) id id' (l : list R) :
  id' <> id ->
  List.find (fun x => bool_decide (key x = id'))
            (filter (fun x => key x <> id) l) =
  List.find (fun x => bool_decide (key x = id')) l.
Proof.
  intros Hne. induction l as [|x l IH]; [reflexivity|].
  rewrite filter_cons. simpl.
  destruct (decide (key x <> id)) as [Hx|Hx]; simpl.
  - now rewrite IH.
  - rewrite bool_decide_eq_false_2; [exact IH|].
    intros He. apply Hx. congruence.
Qed.

(** X28.  [DELETE /api/tasks/:id] on an existing task is answered 200 and
    removes that task only: afterwards the id answers 404, every other
    task is found as before, and boards and columns are untouched. *)
Theorem DELETE_task_removes cuid id s t :
  Prisma.task.findUnique s id = Some t ->
  let result := handle cuid (DELETE_api_tasks_id id) s in
  result.1 = respond 200 (SuccessMessage "Task deleted successfully") /\
  boards result.2 = boards s /\
  columns result.2 = columns s /\
  (handle cuid (GET_api_tasks_id id) result.2).1 =
    respond 404 (Failure "Task not found") /\
  forall id', id' <> id ->
    Prisma.task.findUnique result.2 id' = Prisma.task.findUnique s id'.
Proof.
  intros Hfind. cbv zeta. cbn [handle].
  unfold DELETE_task, Prisma.task.delete. rewrite Hfind. cbn [fst snd].
  repeat (split; [reflexivity|]). split.
  - unfold GET_task, Prisma.task.findUnique. cbn [tasks].
    now rewrite (find_key_filter_ne Task.id).
  - intros id' Hne. unfold Prisma.task.findUnique. cbn [tasks].
    now apply (find_key_filter_other Task.id).
Qed.

Lemma DELETE_task_removes_witness :
  (handle "x" (GET_api_tasks_id "t1")
          (handle "x" (DELETE_api_tasks_id "t1") sprint).2).1 =
    respond 404 (Failure "Task not found").
Proof.
  destruct (DELETE_task_removes "x" "t1" sprint
              (Task.mk "t1" "Fix bug" None "IN_REVIEW" MEDIUM "b1") eq_refl)
    as (_ & _ & _ & Hget & _).
  exact Hget.
Defined.

(** ** The form of CreateColumnModal *)

Lemma replace_space_runs_length {A} (space : A -> bool) r b (l : list A) :
  (length (Js.replace_space_runs space r b l) <= length l)%nat.
Proof.
  revert b. induction l as [|c l IH]; intros b; simpl; [lia|].
  pose proof (IH true). pose proof (IH false).
  destruct (space c); [destruct b|]; simpl; lia.
Qed.

Lemma replace_space_runs_nonempty {A} (space : A -> bool) r (l : list A) :
  l <> [] -> Js.replace_space_runs space r false l <> [].
Proof.
  destruct l as [|c l]; [contradiction|]. intros _. simpl.
  destruct (space c); discriminate.
Qed.

Lemma deriveStatusKey_length title :
  (String.length (deriveStatusKey title) <= String.length title)%nat /\
  (title <> "" -> 1 <= String.length (deriveStatusKey title))%nat.
Proof.
  unfold deriveStatusKey, Js.replace_spaces, Js.toUpperCase.
  rewrite length_string_of_list, list_ascii_of_string_of_list_ascii.
  unfold Js.toUpperCase_chars.
  set (l := flat_map _ _).
  assert (length l = String.length title) as Hl.
  { unfold l. rewrite <- length_list_of_string.
    induction (list_ascii_of_string title) as [|c m IH]; simpl; congruence. }
  split.
  - rewrite <- Hl. apply replace_space_runs_length.
  - intros Hne.
    pose proof (replace_space_runs_nonempty Js.is_space "_"%char l) as H.
    destruct (Js.replace_space_runs Js.is_space "_"%char false l);
      [|simpl; lia].
    exfalso. apply H; [|reflexivity]. intros He. rewrite He in Hl.
    destruct title; [contradiction|discriminate Hl].
Qed.

(** A valid body of three strings that names an existing board, a fresh
    id and an order in the range of [Int]: the column is created last. *)
Lemma POST_columns_accepted cuid s title st boardId board :
  (1 <= String.length (Js.trim title) <= 100)%nat ->
  (1 <= String.length (Js.trim st) <= 50)%nat ->
  Prisma.board.findUnique s boardId = Some board ->
  Prisma.column.findUnique s cuid = None ->
  -2147483648 <= nextColumnOrder (Prisma.column.findFirst s boardId)
              <= 2147483647 ->
  let column :=
    Column.mk cuid (Js.trim title) (Js.trim st)
              (nextColumnOrder (Prisma.column.findFirst s boardId)) boardId in
  POST_columns cuid
    (object [("title", Some (JStr title)); ("status", Some (JStr st));
             ("boardId", Some (JStr boardId))]) s =
    (respond 201 (Success (ColumnRow column)),
     mkStore (boards s) (tasks s) (columns s ++ [column])).
Proof.
  intros [Ht1 Ht2] [Hs1 Hs2] Hboard Hfresh Horder column.
  set (req := object _).
  pose (ctitle := body "title" false true (isLength 1 (Some 100%nat))
                    "Title must be between 1 and 100 characters").
  pose (cstatus := body "status" false true (isLength 1 (Some 50%nat))
                     "Status must be between 1 and 50 characters").
  pose (cboard := body "boardId" false false isString "Board ID is required").
  assert (req !! "title" = Some (JStr title)) as Et
    by (unfold req; object_lookup; reflexivity).
  assert (req !! "status" = Some (JStr st)) as Es
    by (unfold req; object_lookup; reflexivity).
  assert (req !! "boardId" = Some (JStr boardId)) as Eb
    by (unfold req; object_lookup; reflexivity).
  apply Nat.leb_le in Ht1, Ht2, Hs1, Hs2.
  assert (Hrt : Validator.run ctitle (req !! "title") =
                (Some (JStr (Js.trim title)), [])).
  { rewrite Et, run_Some. cbn [ctitle trim validator passes toString from_option].
    now rewrite Ht1, Ht2. }
  assert (Hrs : Validator.run cstatus (req !! "status") =
                (Some (JStr (Js.trim st)), [])).
  { rewrite Es, run_Some. cbn [cstatus trim validator passes toString from_option].
    now rewrite Hs1, Hs2. }
  assert (Hrb : Validator.run cboard (req !! "boardId") =
                (Some (JStr boardId), [])).
  { now rewrite Eb, run_Some. }
  assert (Hvalid : (validate validateColumn req).2 = []).
  { destruct (validate_spec validateColumn req validateColumn_fields) as [-> _].
    unfold validateColumn. cbn [flat_map field].
    fold ctitle cstatus cboard. now rewrite Hrt, Hrs, Hrb. }
  unfold POST_columns. rewrite validated_valid by exact Hvalid.
  cbv beta zeta.
  rewrite (validate_lookup_field validateColumn req ctitle "title"
             validateColumn_fields) by first [in_list | reflexivity].
  rewrite (validate_lookup_field validateColumn req cstatus "status"
             validateColumn_fields) by first [in_list | reflexivity].
  rewrite (validate_lookup_field validateColumn req cboard "boardId"
             validateColumn_fields) by first [in_list | reflexivity].
  rewrite Hrt, Hrs, Hrb. cbn [fst].
  unfold findBoard, findLastColumn.
  cbn [Prisma.required Prisma.String_ Prisma.bind]. rewrite Hboard.
  unfold Prisma.column.create, Prisma.column.row. object_lookup.
  cbn [Prisma.required Prisma.defaulted Prisma.String_ Prisma.Int_ Prisma.bind].
  rewrite (bool_decide_eq_true_2 _ Horder).
  cbn [Prisma.bind Column.id Column.boardId]. rewrite Hfresh.
  unfold Prisma.references. rewrite Hboard. reflexivity.
Qed.

(** What a rule [required, minLength 1, maxLength m] accepts. *)
Lemma required_rule_valid m t :
  (0 < m)%nat ->
  let r := validation.rule true (Some 1%nat) (Some m) None None in
  validation.validateField (Some (JStr t)) r = None \/
  validation.validateField (Some (JStr t)) r = Some "" ->
  Js.trim t <> "" /\ t <> "" /\ (String.length t <= m)%nat.
Proof.
  intros Hm r Ht. unfold r, validation.validateField in Ht.
  cbn [validation.required validation.minLength validation.maxLength
       validation.pattern validation.custom truthy andb orb negb
       validation.otherwise] in Ht.
  destruct (bool_decide (t = "")) eqn:Ee; simpl in Ht;
    [destruct Ht as [Ht|Ht]; discriminate Ht|].
  apply bool_decide_eq_false in Ee.
  destruct (bool_decide (Js.trim t = "")) eqn:Eb; simpl in Ht;
    [destruct Ht as [Ht|Ht]; discriminate Ht|].
  apply bool_decide_eq_false in Eb.
  split; [exact Eb|]. split; [exact Ee|].
  destruct (String.length t <? 1)%nat eqn:H1;
    [apply Nat.ltb_lt in H1; destruct t; [contradiction|simpl in H1; lia]|].
  destruct (m =? 0)%nat eqn:H0; [apply Nat.eqb_eq in H0; lia|].
  simpl in Ht.
  destruct (m <? String.length t)%nat eqn:Hlen;
    [simpl in Ht; destruct Ht as [Ht|Ht]; discriminate Ht|].
  apply Nat.ltb_ge in Hlen. exact Hlen.
Qed.

(** X29.  Whatever ASCII text CreateColumnModal submits for an existing
    board, the server accepts, as long as the next order fits the column's
    32-bit [Int]: a title of ASCII text that passes the client's rule (not
    blank, at most 50 characters) has a status key of 1 to 50 characters
    (upper-casing ASCII text keeps its length), so the column is
    stored (with a fresh id) under the trimmed title and the derived key,
    with the next order, and is put at the end of the client's list. *)
Theorem CreateColumnModal_submits cuid boardId board title s :
  Prisma.board.findUnique s boardId = Some board ->
  Prisma.column.findUnique s cuid = None ->
  Js.ascii_text title ->
  -2147483648 <= nextColumnOrder (Prisma.column.findFirst s boardId)
              <= 2147483647 ->
  validation.validateForm (CreateColumnModal.fields boardId title)
                          CreateColumnModal.columnValidationRules = ∅ ->
  let column :=
    Column.mk cuid (Js.trim title) (deriveStatusKey title)
              (nextColumnOrder (Prisma.column.findFirst s boardId)) boardId in
  CreateColumnModal.handleSubmit cuid boardId title
                                 (fetchColumns s boardId) s =
    (∅, (fetchColumns s boardId ++ [column],
         mkStore (boards s) (tasks s) (columns s ++ [column]))).
Proof.
  intros Hboard Hfresh _ Horder Hvalid column.
  unfold CreateColumnModal.handleSubmit. cbv zeta.
  rewrite Hvalid, decide_True by reflexivity.
  assert (NoDup (map fst CreateColumnModal.columnValidationRules)) as Hnd
    by (apply (bool_decide_unpack _); exact I).
  pose proof (proj1 (validateForm_valid _ _ Hnd) Hvalid "title" _ ltac:(left))
    as Ht.
  unfold CreateColumnModal.fields in Ht. rewrite object_lookup_eq in Ht.
  apply (required_rule_valid 50 title ltac:(lia)) in Ht
    as (Hblank & Hne & Hlen).
  pose proof (trim_length title) as Htrim.
  destruct (deriveStatusKey_length title) as [Hkey Hkey1].
  specialize (Hkey1 Hne).
  unfold handleCreateColumn, useColumns.createColumn, apiService.request.
  cbn [handle useColumns.title useColumns.status useColumns.boardId].
  rewrite (POST_columns_accepted cuid s title (deriveStatusKey title)
             boardId board); try assumption.
  - cbv zeta. rewrite deriveStatusKey_trim. reflexivity.
  - split; [|lia]. destruct (Js.trim title); [contradiction|simpl; lia].
  - rewrite deriveStatusKey_trim. lia.
Qed.

Lemma CreateColumnModal_submits_witness :
  CreateColumnModal.handleSubmit "c3" "b1" "code  review"
                                 (fetchColumns sprint "b1") sprint =
    (∅, (fetchColumns sprint "b1" ++
           [Column.mk "c3" "code  review" "CODE_REVIEW" 2 "b1"],
         mkStore (boards sprint) (tasks sprint)
                 (columns sprint ++
                    [Column.mk "c3" "code  review" "CODE_REVIEW" 2 "b1"]))).
Proof.
  apply (CreateColumnModal_submits "c3" "b1" (Board.mk "b1" "Sprint 1" None)
           "code  review" sprint).
  - reflexivity.
  - reflexivity.
  - apply (bool_decide_unpack _). vm_compute. exact I.
  - vm_compute. split; discriminate.
  - apply (bool_decide_unpack _). vm_compute. exact I.
Defined.
